(** * Modbus on Sphere: a model of the protocol engine

    The development embeds the master-side protocol engine of
    [ModbusOnSphereA7/modbus.c] (reassembly, transaction correlation, the
    function-code length table, the request primitives and their blocking
    wait) and the CRC16 routines of [SlaveSimulator/modbuscommands.c].
    C integers are mathematical integers with the conversions of the source
    written out; C arrays are lists read and written by index; the delivery
    thread is a schedule of events handled while the caller sleeps. *)

From Stdlib Require Import ZArith List Bool Lia.
Import ListNotations.
Local Open Scope Z_scope.

(** ** Machine integers and arrays *)

Definition uint8_t (x : Z) : Z := x mod 256.
Definition uint16_t (x : Z) : Z := x mod 65536.

(** [size_t] of the 32-bit application core. *)
Definition SIZE_MAX : Z := 4294967295.
Definition size_t (x : Z) : Z := x mod (SIZE_MAX + 1).

Definition is_byte (x : Z) : Prop := 0 <= x < 256.

(** [a[i]] *)
Definition rd (a : list Z) (i : Z) : Z := nth (Z.to_nat i) a 0.

(** [a[i] = v]; an index past the end of the model array leaves it as it
    is, where the C code would write past the array: the model is the code
    for indices inside the array only. *)
Definition wr (a : list Z) (i : Z) (v : Z) : list Z :=
  if (0 <=? i) && (i <? Z.of_nat (length a))
  then firstn (Z.to_nat i) a ++ v :: skipn (S (Z.to_nat i)) a
  else a.

(** The [n] bytes [src[from] .. src[from + n - 1]]. *)
Definition bytes_at (src : list Z) (from n : Z) : list Z :=
  map (fun k => nth (Z.to_nat from + k) src 0) (seq 0 (Z.to_nat n)).

(** [memcpy(&dst[off], &src[from], n)] (also [memmove]: the source bytes are
    read before any is written).  The destination keeps its length when the
    copy stays inside it; a copy that runs past the end of the destination
    or of the source leaves the arrays in C, and the model is the code only
    up to there. *)
Definition memcpy (dst : list Z) (off : Z) (src : list Z) (from n : Z) : list Z :=
  firstn (Z.to_nat off) dst ++ bytes_at src from n
    ++ skipn (Z.to_nat off + Z.to_nat n) dst.

(** ** modbusCommon.h *)

Definition UART_CFG_MESSAGE : Z := 1.
Definition MODBUS_DATA_MESSAGE : Z := 1.
Definition UART : Z := 1.
Definition MODBUS : Z := 2.

Definition READ_COILS : Z := 1.
Definition READ_DISCRETE_INPUTS : Z := 2.
Definition READ_MULTIPLE_HOLDING_REGISTERS : Z := 3.
Definition READ_INPUT_REGISTERS : Z := 4.
Definition WRITE_SINGLE_COIL : Z := 5.
Definition WRITE_SINGLE_HOLDING_REGISTER : Z := 6.
Definition READ_EXCEPTION_STATUS : Z := 7.
Definition WRITE_MULTIPLE_COILS : Z := 15.
Definition WRITE_MULTIPLE_HOLDING_REGISTERS : Z := 16.
Definition READ_FILE : Z := 20.
Definition WRITE_FILE : Z := 21.

Definition ILLEGAL_FUNCTION : Z := 1.
Definition ILLEGAL_DATA_ADDRESS : Z := 2.
Definition ILLEGAL_DATA_VALUE : Z := 3.
Definition MODBUS_TIMEOUT : Z := 20.
Definition MESSAGE_SEND_FAIL : Z := 21.
Definition HANDLE_IN_USE : Z := 22.
Definition INVALID_RESPONSE : Z := 23.

Definition CRC_FOOTER_LENGTH : Z := 2.
Definition PDU_HEADER_LENGTH : Z := 3.
Definition ERROR_CODE_LENGTH : Z := 3.
Definition FCODE_RANGE : Z := 32.
Definition FCODE_ERROR_OFFSET : Z := 128.
Definition MAX_PDU_LENGTH : Z := 254.

Definition PROTOCOL_OFFSET : Z := 0.
Definition COMMAND_OFFSET : Z := 1.
Definition HEADER_LENGTH_OFFSET : Z := 2.

Definition UART_CFG_MESSAGE_RESP_LENGTH : Z := 1.

(** ** CRC16 (modbuscommands.c, crc-util.h) *)

Definition CRCTable : list Z :=
  [ 0x0000; 0xC0C1; 0xC181; 0x0140; 0xC301; 0x03C0; 0x0280; 0xC241;
    0xC601; 0x06C0; 0x0780; 0xC741; 0x0500; 0xC5C1; 0xC481; 0x0440;
    0xCC01; 0x0CC0; 0x0D80; 0xCD41; 0x0F00; 0xCFC1; 0xCE81; 0x0E40;
    0x0A00; 0xCAC1; 0xCB81; 0x0B40; 0xC901; 0x09C0; 0x0880; 0xC841;
    0xD801; 0x18C0; 0x1980; 0xD941; 0x1B00; 0xDBC1; 0xDA81; 0x1A40;
    0x1E00; 0xDEC1; 0xDF81; 0x1F40; 0xDD01; 0x1DC0; 0x1C80; 0xDC41;
    0x1400; 0xD4C1; 0xD581; 0x1540; 0xD701; 0x17C0; 0x1680; 0xD641;
    0xD201; 0x12C0; 0x1380; 0xD341; 0x1100; 0xD1C1; 0xD081; 0x1040;
    0xF001; 0x30C0; 0x3180; 0xF141; 0x3300; 0xF3C1; 0xF281; 0x3240;
    0x3600; 0xF6C1; 0xF781; 0x3740; 0xF501; 0x35C0; 0x3480; 0xF441;
    0x3C00; 0xFCC1; 0xFD81; 0x3D40; 0xFF01; 0x3FC0; 0x3E80; 0xFE41;
    0xFA01; 0x3AC0; 0x3B80; 0xFB41; 0x3900; 0xF9C1; 0xF881; 0x3840;
    0x2800; 0xE8C1; 0xE981; 0x2940; 0xEB01; 0x2BC0; 0x2A80; 0xEA41;
    0xEE01; 0x2EC0; 0x2F80; 0xEF41; 0x2D00; 0xEDC1; 0xEC81; 0x2C40;
    0xE401; 0x24C0; 0x2580; 0xE541; 0x2700; 0xE7C1; 0xE681; 0x2640;
    0x2200; 0xE2C1; 0xE381; 0x2340; 0xE101; 0x21C0; 0x2080; 0xE041;
    0xA001; 0x60C0; 0x6180; 0xA141; 0x6300; 0xA3C1; 0xA281; 0x6240;
    0x6600; 0xA6C1; 0xA781; 0x6740; 0xA501; 0x65C0; 0x6480; 0xA441;
    0x6C00; 0xACC1; 0xAD81; 0x6D40; 0xAF01; 0x6FC0; 0x6E80; 0xAE41;
    0xAA01; 0x6AC0; 0x6B80; 0xAB41; 0x6900; 0xA9C1; 0xA881; 0x6840;
    0x7800; 0xB8C1; 0xB981; 0x7940; 0xBB01; 0x7BC0; 0x7A80; 0xBA41;
    0xBE01; 0x7EC0; 0x7F80; 0xBF41; 0x7D00; 0xBDC1; 0xBC81; 0x7C40;
    0xB401; 0x74C0; 0x7580; 0xB541; 0x7700; 0xB7C1; 0xB681; 0x7640;
    0x7200; 0xB2C1; 0xB381; 0x7340; 0xB101; 0x71C0; 0x7080; 0xB041;
    0x5000; 0x90C1; 0x9181; 0x5140; 0x9301; 0x53C0; 0x5280; 0x9241;
    0x9601; 0x56C0; 0x5780; 0x9741; 0x5500; 0x95C1; 0x9481; 0x5440;
    0x9C01; 0x5CC0; 0x5D80; 0x9D41; 0x5F00; 0x9FC1; 0x9E81; 0x5E40;
    0x5A00; 0x9AC1; 0x9B81; 0x5B40; 0x9901; 0x59C0; 0x5880; 0x9841;
    0x8801; 0x48C0; 0x4980; 0x8941; 0x4B00; 0x8BC1; 0x8A81; 0x4A40;
    0x4E00; 0x8EC1; 0x8F81; 0x4F40; 0x8D01; 0x4DC0; 0x4C80; 0x8C41;
    0x4400; 0x84C1; 0x8581; 0x4540; 0x8701; 0x47C0; 0x4680; 0x8641;
    0x8201; 0x42C0; 0x4380; 0x8341; 0x4100; 0x81C1; 0x8081; 0x4040 ].

(** One turn of the loop of [GetCRC]:
    [TempNo = message[i] ^ crcVal; crcVal >>= 8; crcVal ^= CRCTable[TempNo]]. *)
Definition crc_step (crcVal : Z) (b : Z) : Z :=
  let TempNo := uint8_t (Z.lxor b crcVal) in
  let crcVal := Z.shiftr crcVal 8 in
  Z.lxor crcVal (rd CRCTable TempNo).

(** [for (i = 0; i < inputLength; i++)], entered with [todo] turns left. *)
Fixpoint GetCRC_loop (message : list Z) (i : Z) (todo : nat) (crcVal : Z) : Z :=
  match todo with
  | O => crcVal
  | S todo' => GetCRC_loop message (i + 1) todo' (crc_step crcVal (rd message i))
  end.

Definition GetCRC (message : list Z) (inputLength : Z) : Z :=
  GetCRC_loop message 0 (Z.to_nat inputLength) 0xFFFF.

(** [AddCRC]: the result flag and the message array afterwards. *)
Definition AddCRC (message : list Z) (inputLength maxInputLength : Z)
  : bool * list Z :=
  if inputLength + 2 <=? maxInputLength then
    let crcVal := GetCRC message inputLength in
    let message := wr message inputLength (uint8_t (Z.land crcVal 0xFF)) in
    let message := wr message (inputLength + 1) (uint8_t (Z.shiftr crcVal 8)) in
    (true, message)
  else (false, message).

(** Modelled from the spec: [ValidateCRC] is declared in crc-util.h and
    called by the engine, but crc-util.c is not part of the sources.  The
    spec gives [validate(bytes_including_trailing_crc) -> bool] for the
    standard Modbus CRC16 with a little-endian trailer: the CRC of the bytes
    before the trailer is compared with the two trailer bytes, low byte
    first. *)
Definition ValidateCRC (message : list Z) (inputLength : Z) : bool :=
  (2 <=? inputLength) &&
  (GetCRC message (inputLength - 2) =?
     Z.lor (rd message (inputLength - 2))
           (Z.shiftl (rd message (inputLength - 1)) 8)).

(** The index of the entry of [CRCTable] whose high byte is [h]; the length
    of the table when there is none. *)
Definition high_byte_index (h : Z) : nat :=
  (fix go (l : list Z) (i : nat) : nat :=
     match l with
     | [] => i
     | x :: l' => if Z.shiftr x 8 =? h then i else go l' (S i)
     end) CRCTable O.

(** The table entry of index [i] computed bit by bit from the reflected
    polynomial 0xA001, used to identify [CRCTable]. *)
Fixpoint crc_bits (n : nat) (c : Z) : Z :=
  match n with
  | O => c
  | S n' =>
      crc_bits n' (if Z.odd c then Z.lxor (Z.shiftr c 1) 0xA001
                   else Z.shiftr c 1)
  end.

(** ** modbus.c: definitions *)

Definition WRITE_RESPONSE_START : Z := 2.
Definition WRITE_RESPONSE_BYTES : Z := 4.
Definition TCP_HEADER_LENGTH : Z := 6.
Definition MODBUS_EXCEPTION_BIT : Z := 0x80.
Definition MESSAGE_HEADER_LENGTH : Z := 4.

(** [GetFcodeLength(uint8_t fCode, uint8_t dataLength)] *)
Definition GetFcodeLength (fCode dataLength : Z) : Z :=
  if (FCODE_ERROR_OFFSET <? fCode) && (fCode <=? FCODE_ERROR_OFFSET + FCODE_RANGE)
  then ERROR_CODE_LENGTH
  else if fCode =? READ_COILS then uint16_t (PDU_HEADER_LENGTH + dataLength)
  else if fCode =? READ_DISCRETE_INPUTS then uint16_t (PDU_HEADER_LENGTH + dataLength)
  else if fCode =? READ_MULTIPLE_HOLDING_REGISTERS then uint16_t (PDU_HEADER_LENGTH + dataLength)
  else if fCode =? READ_INPUT_REGISTERS then uint16_t (PDU_HEADER_LENGTH + dataLength)
  else if fCode =? READ_FILE then uint16_t (PDU_HEADER_LENGTH + dataLength)
  else if fCode =? WRITE_SINGLE_COIL then PDU_HEADER_LENGTH + 3
  else if fCode =? WRITE_SINGLE_HOLDING_REGISTER then PDU_HEADER_LENGTH + 3
  else if fCode =? READ_EXCEPTION_STATUS then PDU_HEADER_LENGTH
  else if fCode =? WRITE_MULTIPLE_COILS then PDU_HEADER_LENGTH + 3
  else if fCode =? WRITE_MULTIPLE_HOLDING_REGISTERS then PDU_HEADER_LENGTH + 3
  else if fCode =? WRITE_FILE then uint16_t (PDU_HEADER_LENGTH + dataLength)
  else 0.

(** ** modbus.c: the connection handle *)

Inductive modbusTransportType_t := tcp | rtuOverTcp | rtu.

Inductive messageHandlerState_t := success | failure | waiting.

Inductive MODBUS_STATE :=
  | Idle
  | SendingRequest
  | WaitingForResponse
  | DataReceived
  | TransactionFailed
  | Disconnected.

Definition MODBUS_STATE_eqb (a b : MODBUS_STATE) : bool :=
  match a, b with
  | Idle, Idle | SendingRequest, SendingRequest
  | WaitingForResponse, WaitingForResponse | DataReceived, DataReceived
  | TransactionFailed, TransactionFailed | Disconnected, Disconnected => true
  | _, _ => false
  end.

(** [struct _modbus_t]; the connection parameters of [connectData] play no
    part in the engine and are left out. *)
Record modbus_t := mk_modbus_t {
  type : modbusTransportType_t;
  fd : Z;
  transactionId : Z;
  lastTransactionId : Z;
  state : MODBUS_STATE;
  bufferedMessageLength : Z;
  pduLength : Z;
  isCFG : bool;
  bufferedMessage : list Z;
  pdu : list Z
}.

Definition set_state (h : modbus_t) (s : MODBUS_STATE) : modbus_t :=
  mk_modbus_t (type h) (fd h) (transactionId h) (lastTransactionId h) s
    (bufferedMessageLength h) (pduLength h) (isCFG h) (bufferedMessage h) (pdu h).

Definition set_transactionId (h : modbus_t) (v : Z) : modbus_t :=
  mk_modbus_t (type h) (fd h) v (lastTransactionId h) (state h)
    (bufferedMessageLength h) (pduLength h) (isCFG h) (bufferedMessage h) (pdu h).

Definition set_lastTransactionId (h : modbus_t) (v : Z) : modbus_t :=
  mk_modbus_t (type h) (fd h) (transactionId h) v (state h)
    (bufferedMessageLength h) (pduLength h) (isCFG h) (bufferedMessage h) (pdu h).

Definition set_bufferedMessageLength (h : modbus_t) (v : Z) : modbus_t :=
  mk_modbus_t (type h) (fd h) (transactionId h) (lastTransactionId h) (state h)
    v (pduLength h) (isCFG h) (bufferedMessage h) (pdu h).

Definition set_pduLength (h : modbus_t) (v : Z) : modbus_t :=
  mk_modbus_t (type h) (fd h) (transactionId h) (lastTransactionId h) (state h)
    (bufferedMessageLength h) v (isCFG h) (bufferedMessage h) (pdu h).

Definition set_isCFG (h : modbus_t) (v : bool) : modbus_t :=
  mk_modbus_t (type h) (fd h) (transactionId h) (lastTransactionId h) (state h)
    (bufferedMessageLength h) (pduLength h) v (bufferedMessage h) (pdu h).

Definition set_bufferedMessage (h : modbus_t) (v : list Z) : modbus_t :=
  mk_modbus_t (type h) (fd h) (transactionId h) (lastTransactionId h) (state h)
    (bufferedMessageLength h) (pduLength h) (isCFG h) v (pdu h).

Definition set_pdu (h : modbus_t) (v : list Z) : modbus_t :=
  mk_modbus_t (type h) (fd h) (transactionId h) (lastTransactionId h) (state h)
    (bufferedMessageLength h) (pduLength h) (isCFG h) (bufferedMessage h) v.

(** ** modbus.c: MessageHandler *)

(** The per-transport locals that [MessageHandler] sets from [hndl->type].
    The final [else] of the source (a type outside the enumeration) has no
    counterpart for a value of [modbusTransportType_t]. *)
Record framing := mk_framing {
  minLength : Z;
  fCodeOffset : Z;
  pduLengthOffset : Z;
  transportHeaderLength : Z;
  transportFooterLength : Z;
  checkTransaction : bool;
  checkCRC : bool
}.

Definition framing_of (t : modbusTransportType_t) : framing :=
  match t with
  | rtu =>
      mk_framing (MESSAGE_HEADER_LENGTH + PDU_HEADER_LENGTH)
        (MESSAGE_HEADER_LENGTH + 1) (MESSAGE_HEADER_LENGTH + 1 + 1)
        MESSAGE_HEADER_LENGTH 0 false false
  | rtuOverTcp =>
      mk_framing (CRC_FOOTER_LENGTH + PDU_HEADER_LENGTH)
        1 (1 + 1) 0 CRC_FOOTER_LENGTH false true
  | tcp =>
      mk_framing (TCP_HEADER_LENGTH + PDU_HEADER_LENGTH)
        (TCP_HEADER_LENGTH + 1) (TCP_HEADER_LENGTH + 1 + 1)
        TCP_HEADER_LENGTH 0 true false
  end.

(** The outcome of the transaction-identifier test of [MessageHandler]. *)
Inductive transactionVerdict :=
  | TransactionAccepted   (* no branch taken: the frame is passed on *)
  | TransactionTooLow     (* [isTransactionTooLow = true], keep waiting *)
  | TransactionFromFuture (* buffer dropped, [return failure] *).

(** The nested tests of the [if (checkTransaction)] block, in source order
    ([expected] is [hndl->transactionId], [last] is
    [hndl->lastTransactionId]). *)
Definition transactionCheck (expected last rxTransaction : Z)
  : transactionVerdict :=
  if negb (expected =? rxTransaction) then
    if last <? expected then
      if (expected <? rxTransaction) || (rxTransaction <=? last)
      then TransactionFromFuture
      else if rxTransaction <? expected then TransactionTooLow
      else TransactionAccepted
    else
      if (last <=? rxTransaction) || (rxTransaction <? expected)
      then TransactionTooLow
      else if expected <? rxTransaction then TransactionFromFuture
      else TransactionAccepted
  else TransactionAccepted.

Definition is_rtu (t : modbusTransportType_t) : bool :=
  match t with rtu => true | _ => false end.

(** The second half of [MessageHandler], from the per-transport locals on
    ("reading buffer"): it looks at the handle alone, after the delivered
    bytes have been written to its buffer. *)
Definition MessageHandler_read (hndl : modbus_t)
  : messageHandlerState_t * modbus_t :=
  let ret := waiting in
  let f := framing_of (type hndl) in
  (* reading buffer *)
  let '(pduMessageLength, fullMessageAvailable) :=
    if (minLength f <=? bufferedMessageLength hndl) || is_rtu (type hndl) then
      let pduMessageLength :=
        if isCFG hndl then UART_CFG_MESSAGE_RESP_LENGTH
        else uint16_t (GetFcodeLength
                         (rd (bufferedMessage hndl) (fCodeOffset f))
                         (rd (bufferedMessage hndl) (pduLengthOffset f))) in
      (pduMessageLength,
       pduMessageLength + transportHeaderLength f + transportFooterLength f
         <=? bufferedMessageLength hndl)
    else (0, false) in
  if fullMessageAvailable then
    let rxTransaction :=
      uint16_t (Z.lor (Z.shiftl (rd (bufferedMessage hndl) 0) 8)
                      (rd (bufferedMessage hndl) 1)) in
    let verdict :=
      if checkTransaction f
      then transactionCheck (transactionId hndl) (lastTransactionId hndl)
                            rxTransaction
      else TransactionAccepted in
    match verdict with
    | TransactionFromFuture => (failure, set_bufferedMessageLength hndl 0)
    | _ =>
        let isTransactionTooLow :=
          match verdict with TransactionTooLow => true | _ => false end in
        let crcFailed :=
          checkCRC f &&
          negb (ValidateCRC (bufferedMessage hndl)
                            (pduMessageLength + CRC_FOOTER_LENGTH)) in
        (* Pass back only the PDU portion of the message *)
        let '(ret, hndl) :=
          if (pduMessageLength <=? MAX_PDU_LENGTH)
             && negb isTransactionTooLow && negb crcFailed
          then
            let hndl := set_pduLength hndl pduMessageLength in
            let hndl := set_lastTransactionId hndl rxTransaction in
            let hndl :=
              set_pdu hndl
                (memcpy (pdu hndl) 0 (bufferedMessage hndl)
                        (transportHeaderLength f) pduMessageLength) in
            (success, hndl)
          else (ret, hndl) in
        (* Keep data not part of this message *)
        let totalMessageLength :=
          pduMessageLength + transportHeaderLength f + transportFooterLength f in
        let remainingDataLength :=
          bufferedMessageLength hndl - totalMessageLength in
        let hndl :=
          if 0 <? remainingDataLength then
            set_bufferedMessage hndl
              (memcpy (bufferedMessage hndl) 0 (bufferedMessage hndl)
                      totalMessageLength remainingDataLength)
          else hndl in
        (ret, set_bufferedMessageLength hndl (uint16_t remainingDataLength))
    end
  else (ret, hndl).

(** [MessageHandler(hndl, message, inputLength)]: the returned state and the
    handle afterwards. *)
Definition MessageHandler (hndl : modbus_t) (message : list Z) (inputLength : Z)
  : messageHandlerState_t * modbus_t :=
  let ret := waiting in
  if negb (MODBUS_STATE_eqb (state hndl) WaitingForResponse) then
    (ret, set_bufferedMessageLength hndl 0)
  else if negb (bufferedMessageLength hndl + inputLength <? MAX_PDU_LENGTH) then
    (ret, set_bufferedMessageLength hndl 0)
  else
    (* writing to buffer *)
    let hndl :=
      set_bufferedMessage hndl
        (memcpy (bufferedMessage hndl) (bufferedMessageLength hndl)
                message 0 inputLength) in
    let hndl :=
      set_bufferedMessageLength hndl
        (uint16_t (bufferedMessageLength hndl + inputLength)) in
    MessageHandler_read hndl.

(** ** modbus.c: the delivery flow *)

(** One wake-up of [epoll_wait] for a handle: the event flags and what
    [recv] then yields, [None] when [recv] returns -1. *)
Record epoll_event := mk_epoll_event {
  EPOLLIN : bool;
  EPOLLHUP : bool;   (* [EPOLLRDHUP | EPOLLHUP] *)
  received : option (list Z)
}.

(** [ModBusRead]: [recv] into a [MAX_PDU_LENGTH] array (one call takes at
    most that many bytes), then [MessageHandler] with the byte count
    converted to [uint16_t]. *)
Definition ModBusRead (hndl : modbus_t) (received : option (list Z))
  : messageHandlerState_t * modbus_t :=
  match received with
  | Some message =>
      let message := firstn (Z.to_nat MAX_PDU_LENGTH) message in
      MessageHandler hndl message (uint16_t (Z.of_nat (length message)))
  | None => MessageHandler hndl [] (uint16_t (-1))
  end.

(** The body of the loop of [EpollThread] for one event on the handle [mh]. *)
Definition EpollThread_event (mh : modbus_t) (event : epoll_event) : modbus_t :=
  if MODBUS_STATE_eqb (state mh) Disconnected then mh
  else
    let mh :=
      if EPOLLIN event then
        let '(mhsState, mh) := ModBusRead mh (received event) in
        match mhsState with
        | success => set_state mh DataReceived
        | failure => set_state mh TransactionFailed
        | waiting => mh
        end
      else mh in
    if EPOLLHUP event then set_state mh Disconnected else mh.

(** ** modbus.c: sending and waiting *)

(** What the engine runs in: the handle, the static [transactionIdentifier],
    every frame given to [send] (oldest first) and the number of
    [nanosleep] calls made so far. *)
Record world := mk_world {
  handle : modbus_t;
  transactionIdentifier : Z;
  wire : list (list Z);
  sleeps : nat
}.

Definition set_handle (w : world) (h : modbus_t) : world :=
  mk_world h (transactionIdentifier w) (wire w) (sleeps w).

(** The time asked from [nanosleep] so far, in nanoseconds
    ([tv_nsec = 100000] per call). *)
Definition slept_ns (w : world) : Z := Z.of_nat (sleeps w) * 100000.

Definition array (n : Z) : list Z := repeat 0 (Z.to_nat n).

(** [SET_MODBUS_HEADER(_a, _b, _c, _d, _e)] *)
Definition SET_MODBUS_HEADER (_a : list Z) (_b _c _d _e : Z) : list Z :=
  let _a := wr _a 0 (uint8_t _b) in
  let _a := wr _a 1 (uint8_t _c) in
  let _a := wr _a 2 (uint8_t (Z.land (Z.shiftr _d 8) 0xFF)) in
  let _a := wr _a 3 (uint8_t (Z.land _d 0xFF)) in
  let _a := wr _a 4 (uint8_t (Z.land (Z.shiftr _e 8) 0xFF)) in
  let _a := wr _a 5 (uint8_t (Z.land _e 0xFF)) in
  _a.

Definition wait_over (s : MODBUS_STATE) : bool :=
  match s with
  | DataReceived | TransactionFailed | Disconnected => true
  | _ => false
  end.

(** [PduDataLength(hndl, expected)] *)
Definition PduDataLength (hndl : modbus_t) (expected : Z) : Z :=
  uint16_t (pduLength hndl - PDU_HEADER_LENGTH).

(** The big-endian register copy loop of the register reads:
    [readArray[i] = (uint16_t)((pdu[2i+3] << 8) | pdu[2i+4])] for
    [i < count]. *)
Definition copy_registers (readArray pdu : list Z) (count : Z) : list Z :=
  fold_left
    (fun readArray i =>
       wr readArray (Z.of_nat i)
          (uint16_t (Z.lor (Z.shiftl (rd pdu (Z.of_nat i * 2 + 3)) 8)
                           (rd pdu (Z.of_nat i * 2 + 4)))))
    (seq 0 (Z.to_nat count)) readArray.

(** The loop of [WriteMultipleHoldingRegisters] that lays the registers out
    big-endian from [modBusMessage[7]]. *)
Definition put_registers (modBusMessage registerArray : list Z) (count : Z)
  : list Z :=
  fold_left
    (fun m i =>
       let m := wr m (2 * Z.of_nat i + 7)
                   (uint8_t (Z.land (Z.shiftr (rd registerArray (Z.of_nat i)) 8) 0xFF)) in
       wr m (2 * Z.of_nat i + 8)
            (uint8_t (Z.land (rd registerArray (Z.of_nat i)) 0xFF)))
    (seq 0 (Z.to_nat count)) modBusMessage.

(** The loop of [ReadFile] that sums the expected response length over the
    record-length byte of each sub-request. *)
Definition expected_file_length (messageArray : list Z) (messageLength : Z) : Z :=
  fold_left
    (fun expectedMessageLength i =>
       if Z.of_nat i mod 7 =? 6
       then uint16_t (expectedMessageLength + (rd messageArray (Z.of_nat i) * 2 + 2))
       else expectedMessageLength)
    (seq 0 (Z.to_nat messageLength)) 0.

(** [ReadFileSubRequestBuilder]: the new index and the array afterwards. *)
Definition ReadFileSubRequestBuilder (messageArray : list Z)
    (currentMessageIndex fileNumber recordNumber recordLength : Z) : Z * list Z :=
  let m := wr messageArray currentMessageIndex 6 in
  let m := wr m (currentMessageIndex + 1) (uint8_t (Z.shiftr fileNumber 8)) in
  let m := wr m (currentMessageIndex + 2) (uint8_t (Z.land fileNumber 0xFF)) in
  let m := wr m (currentMessageIndex + 3) (uint8_t (Z.shiftr recordNumber 8)) in
  let m := wr m (currentMessageIndex + 4) (uint8_t (Z.land recordNumber 0xFF)) in
  let m := wr m (currentMessageIndex + 5) 0 in
  let m := wr m (currentMessageIndex + 6) (uint8_t recordLength) in
  (uint8_t (currentMessageIndex + 7), m).


Section Engine.

(** [DEVICE_DISCONNECTED] is used by modbus.c but defined in none of the
    sources at hand; its value is left open. *)
Variable DEVICE_DISCONNECTED : Z.

(** The transport: the value [send] returns for a frame, and the events the
    epoll thread handles for this handle during the [n]-th [nanosleep]. *)
Variable send : list Z -> Z.
Variable deliveries : nat -> list epoll_event.

(** [NotReadyReason] *)
Definition NotReadyReason (hndl : modbus_t) : Z :=
  if MODBUS_STATE_eqb (state hndl) Disconnected then DEVICE_DISCONNECTED
  else HANDLE_IN_USE.

(** [SendToSlave] *)
Definition SendToSlave (w : world) (modBusADU : list Z) (pduLength : Z)
  : bool * world :=
  let frame := bytes_at modBusADU 0 pduLength in
  let w := mk_world (handle w) (transactionIdentifier w) (wire w ++ [frame])
                    (sleeps w) in
  if pduLength =? send frame then
    let hndl := set_transactionId (handle w) (transactionIdentifier w) in
    let hndl := set_state hndl WaitingForResponse in
    (true, mk_world hndl (uint16_t (transactionIdentifier w + 1)) (wire w)
                    (sleeps w))
  else (false, set_handle w (set_state (handle w) Idle)).

(** [ModBusWrite].  The local arrays, which C leaves uninitialised, start
    zero-filled here: for a byte the code does not write (byte 3 of the
    intercore header, the trailer when [AddCRC] fails) the model says
    nothing.  [AddCRC] is that of modbuscommands.c, crc-util.c not being at
    hand. *)
Definition ModBusWrite (w : world) (modBusPacket : list Z) (packetLength : Z)
  : bool * world :=
  let hndl := set_state (handle w) SendingRequest in
  let hndl := set_pduLength hndl 0 in
  let w := set_handle w hndl in
  match type hndl with
  | tcp =>
      let modBusPacketTCP := array (MAX_PDU_LENGTH + TCP_HEADER_LENGTH) in
      let modBusPacketTCP :=
        memcpy modBusPacketTCP TCP_HEADER_LENGTH modBusPacket 0 packetLength in
      let modBusPacketTCP :=
        wr modBusPacketTCP 0
           (uint8_t (Z.land (Z.shiftr (transactionIdentifier w) 8) 0xFF)) in
      let modBusPacketTCP :=
        wr modBusPacketTCP 1 (uint8_t (Z.land (transactionIdentifier w) 0xFF)) in
      let modBusPacketTCP := wr modBusPacketTCP 2 0x00 in
      let modBusPacketTCP := wr modBusPacketTCP 3 0x00 in
      let modBusPacketTCP :=
        wr modBusPacketTCP 4 (uint8_t (Z.land (Z.shiftr packetLength 8) 0xFF)) in
      let modBusPacketTCP :=
        wr modBusPacketTCP 5 (uint8_t (Z.land packetLength 0xFF)) in
      SendToSlave w modBusPacketTCP (packetLength + TCP_HEADER_LENGTH)
  | rtuOverTcp =>
      let modBusPacketRTU := array (MAX_PDU_LENGTH + CRC_FOOTER_LENGTH) in
      let modBusPacketRTU := memcpy modBusPacketRTU 0 modBusPacket 0 packetLength in
      let modBusPacketRTU :=
        snd (AddCRC modBusPacketRTU packetLength MAX_PDU_LENGTH) in
      SendToSlave w modBusPacketRTU (packetLength + CRC_FOOTER_LENGTH)
  | rtu =>
      let modBusPacketRTU := array (MAX_PDU_LENGTH + MESSAGE_HEADER_LENGTH) in
      let modBusPacketRTU :=
        memcpy modBusPacketRTU MESSAGE_HEADER_LENGTH modBusPacket 0 packetLength in
      let modBusPacketRTU :=
        if isCFG hndl then
          wr (wr modBusPacketRTU PROTOCOL_OFFSET UART) COMMAND_OFFSET UART_CFG_MESSAGE
        else
          wr (wr modBusPacketRTU PROTOCOL_OFFSET MODBUS) COMMAND_OFFSET
             MODBUS_DATA_MESSAGE in
      let modBusPacketRTU :=
        wr modBusPacketRTU HEADER_LENGTH_OFFSET MESSAGE_HEADER_LENGTH in
      SendToSlave w modBusPacketRTU (packetLength + MESSAGE_HEADER_LENGTH)
  end.

(** One [nanosleep] of the caller: the epoll thread handles the events that
    arrive meanwhile.  The epoll thread of the source runs beside the caller
    at any time; the model lets it act during the naps of the caller, which
    is where the caller waits for it, and says nothing of what it writes to
    the handle once a call has returned. *)
Definition nanosleep (w : world) : world :=
  mk_world (fold_left EpollThread_event (deliveries (sleeps w)) (handle w))
           (transactionIdentifier w) (wire w) (S (sleeps w)).

(** The [while] loop of [WaitForData]; [None] when the loop is still running
    after [fuel] turns. *)
Fixpoint WaitForData_loop (fuel : nat) (w : world) (timeout counter : Z)
  : option world :=
  if wait_over (state (handle w)) then Some w
  else
    match fuel with
    | O => None
    | S fuel' =>
        let w := nanosleep w in
        if 0 <? timeout then
          (* [counter++ > timeout] *)
          if timeout <? counter then Some w
          else WaitForData_loop fuel' w timeout (size_t (counter + 1))
        else WaitForData_loop fuel' w timeout counter
    end.

(** [WaitForData] *)
Definition WaitForData (fuel : nat) (w : world) (timeout : Z)
  : option (bool * world) :=
  match WaitForData_loop fuel w timeout 0 with
  | None => None
  | Some w =>
      let retval := MODBUS_STATE_eqb (state (handle w)) DataReceived in
      Some (retval, set_handle w (set_state (handle w) Idle))
  end.

(** What a request primitive hands back: the return value, the caller's
    [readArray] afterwards and the world; [None] when the wait outlasts the
    fuel. *)
Definition outcome : Type := option (bool * list Z * world).

Definition not_idle (hndl : modbus_t) : bool :=
  negb (MODBUS_STATE_eqb (state hndl) Idle).

(** [hndl->pdu[1] & MODBUS_EXCEPTION_BIT] *)
Definition exception_bit (hndl : modbus_t) : bool :=
  negb (Z.land (rd (pdu hndl) 1) MODBUS_EXCEPTION_BIT =? 0).

(** [ReadCoils] *)
Definition ReadCoils (fuel : nat) (w : world)
    (slaveID address bitsToRead : Z) (readArray : list Z) (timeout : Z) : outcome :=
  let bytesToRead := uint8_t (bitsToRead / 8) in
  let bytesToRead :=
    if negb (bitsToRead mod 8 =? 0) then uint8_t (bytesToRead + 1) else bytesToRead in
  let modBusMessage := array 6 in
  if not_idle (handle w) then
    Some (false, wr readArray 0 (uint8_t (NotReadyReason (handle w))), w)
  else
    let modBusMessage :=
      SET_MODBUS_HEADER modBusMessage slaveID READ_COILS address bitsToRead in
    let w := set_handle w (set_isCFG (handle w) false) in
    let '(sent, w) := ModBusWrite w modBusMessage 6 in
    if negb sent then Some (false, wr readArray 0 MESSAGE_SEND_FAIL, w)
    else
      match WaitForData fuel w timeout with
      | None => None
      | Some (false, w) => Some (false, wr readArray 0 MODBUS_TIMEOUT, w)
      | Some (true, w) =>
          let hndl := handle w in
          if exception_bit hndl then Some (false, wr readArray 0 (rd (pdu hndl) 2), w)
          else if negb (rd (pdu hndl) 1 =? READ_COILS)
          then Some (false, wr readArray 0 INVALID_RESPONSE, w)
          else Some (true,
                     memcpy readArray 0 (pdu hndl) PDU_HEADER_LENGTH
                            (PduDataLength hndl bytesToRead), w)
      end.

(** [ReadDiscreteInputs] *)
Definition ReadDiscreteInputs (fuel : nat) (w : world)
    (slaveID address bitsToRead : Z) (readArray : list Z) (timeout : Z) : outcome :=
  let bytesToRead := uint8_t (bitsToRead / 8) in
  let bytesToRead :=
    if negb (bitsToRead mod 8 =? 0) then uint8_t (bytesToRead + 1) else bytesToRead in
  let modBusMessage := array 6 in
  if not_idle (handle w) then
    Some (false, wr readArray 0 (uint8_t (NotReadyReason (handle w))), w)
  else
    let modBusMessage :=
      SET_MODBUS_HEADER modBusMessage slaveID READ_DISCRETE_INPUTS address
                        bitsToRead in
    let w := set_handle w (set_isCFG (handle w) false) in
    let '(sent, w) := ModBusWrite w modBusMessage 6 in
    if negb sent then Some (false, wr readArray 0 MESSAGE_SEND_FAIL, w)
    else
      match WaitForData fuel w timeout with
      | None => None
      | Some (false, w) => Some (false, wr readArray 0 MODBUS_TIMEOUT, w)
      | Some (true, w) =>
          let hndl := handle w in
          if exception_bit hndl then Some (false, wr readArray 0 (rd (pdu hndl) 2), w)
          else if negb (rd (pdu hndl) 1 =? READ_DISCRETE_INPUTS)
          then Some (false, wr readArray 0 INVALID_RESPONSE, w)
          else Some (true,
                     memcpy readArray 0 (pdu hndl) PDU_HEADER_LENGTH
                        (PduDataLength hndl bytesToRead), w)
      end.

(** [ReadMultipleHoldingRegisters] *)
Definition ReadMultipleHoldingRegisters (fuel : nat) (w : world)
    (slaveID address registersToRead : Z) (readArray : list Z) (timeout : Z)
  : outcome :=
  let modBusMessage := array 6 in
  if not_idle (handle w) then
    Some (false, wr readArray 0 (uint8_t (NotReadyReason (handle w))), w)
  else
    let modBusMessage :=
      SET_MODBUS_HEADER modBusMessage slaveID READ_MULTIPLE_HOLDING_REGISTERS address
                        registersToRead in
    let w := set_handle w (set_isCFG (handle w) false) in
    let '(sent, w) := ModBusWrite w modBusMessage 6 in
    if negb sent then Some (false, wr readArray 0 MESSAGE_SEND_FAIL, w)
    else
      match WaitForData fuel w timeout with
      | None => None
      | Some (false, w) => Some (false, wr readArray 0 MODBUS_TIMEOUT, w)
      | Some (true, w) =>
          let hndl := handle w in
          if exception_bit hndl then Some (false, wr readArray 0 (rd (pdu hndl) 2), w)
          else if negb (rd (pdu hndl) 1 =? READ_MULTIPLE_HOLDING_REGISTERS)
          then Some (false, wr readArray 0 INVALID_RESPONSE, w)
          else Some (true,
                     copy_registers readArray (pdu hndl)
                   (PduDataLength hndl (uint16_t (registersToRead * 2)) / 2), w)
      end.

(** [ReadInputRegisters] *)
Definition ReadInputRegisters (fuel : nat) (w : world)
    (slaveID address registersToRead : Z) (readArray : list Z) (timeout : Z)
  : outcome :=
  let modBusMessage := array 6 in
  if not_idle (handle w) then
    Some (false, wr readArray 0 (uint8_t (NotReadyReason (handle w))), w)
  else
    let modBusMessage :=
      SET_MODBUS_HEADER modBusMessage slaveID READ_INPUT_REGISTERS address
                        registersToRead in
    let w := set_handle w (set_isCFG (handle w) false) in
    let '(sent, w) := ModBusWrite w modBusMessage 6 in
    if negb sent then Some (false, wr readArray 0 MESSAGE_SEND_FAIL, w)
    else
      match WaitForData fuel w timeout with
      | None => None
      | Some (false, w) => Some (false, wr readArray 0 MODBUS_TIMEOUT, w)
      | Some (true, w) =>
          let hndl := handle w in
          if exception_bit hndl then Some (false, wr readArray 0 (rd (pdu hndl) 2), w)
          else if negb (rd (pdu hndl) 1 =? READ_INPUT_REGISTERS)
          then Some (false, wr readArray 0 INVALID_RESPONSE, w)
          else Some (true,
                     copy_registers readArray (pdu hndl)
                   (PduDataLength hndl (uint16_t (registersToRead * 2)) / 2), w)
      end.

(** [WriteSingleCoil] *)
Definition WriteSingleCoil (fuel : nat) (w : world)
    (slaveID address : Z) (bit : bool) (readArray : list Z) (timeout : Z)
  : outcome :=
  let modBusMessage := array 6 in
  if not_idle (handle w) then
    Some (false, wr readArray 0 (uint8_t (NotReadyReason (handle w))), w)
  else
    let modBusMessage :=
      SET_MODBUS_HEADER modBusMessage slaveID WRITE_SINGLE_COIL address
                        (if bit then 0xff00 else 0x00) in
    let w := set_handle w (set_isCFG (handle w) false) in
    let '(sent, w) := ModBusWrite w modBusMessage 6 in
    if negb sent then Some (false, wr readArray 0 MESSAGE_SEND_FAIL, w)
    else
      match WaitForData fuel w timeout with
      | None => None
      | Some (false, w) => Some (false, wr readArray 0 MODBUS_TIMEOUT, w)
      | Some (true, w) =>
          let hndl := handle w in
          if exception_bit hndl then Some (false, wr readArray 0 (rd (pdu hndl) 2), w)
          else if negb (rd (pdu hndl) 1 =? WRITE_SINGLE_COIL)
          then Some (false, wr readArray 0 INVALID_RESPONSE, w)
          else Some (true,
                     memcpy readArray 0 (pdu hndl) WRITE_RESPONSE_START
                        WRITE_RESPONSE_BYTES, w)
      end.

(** [WriteSingleHoldingRegister] *)
Definition WriteSingleHoldingRegister (fuel : nat) (w : world)
    (slaveID address mbRegister : Z) (readArray : list Z) (timeout : Z)
  : outcome :=
  let modBusMessage := array 6 in
  if not_idle (handle w) then
    Some (false, wr readArray 0 (uint8_t (NotReadyReason (handle w))), w)
  else
    let modBusMessage :=
      SET_MODBUS_HEADER modBusMessage slaveID WRITE_SINGLE_HOLDING_REGISTER
                        address mbRegister in
    let w := set_handle w (set_isCFG (handle w) false) in
    let '(sent, w) := ModBusWrite w modBusMessage 6 in
    if negb sent then Some (false, wr readArray 0 MESSAGE_SEND_FAIL, w)
    else
      match WaitForData fuel w timeout with
      | None => None
      | Some (false, w) => Some (false, wr readArray 0 MODBUS_TIMEOUT, w)
      | Some (true, w) =>
          let hndl := handle w in
          if exception_bit hndl then Some (false, wr readArray 0 (rd (pdu hndl) 2), w)
          else if negb (rd (pdu hndl) 1 =? WRITE_SINGLE_HOLDING_REGISTER)
          then Some (false, wr readArray 0 INVALID_RESPONSE, w)
          else Some (true,
                     memcpy readArray 0 (pdu hndl) WRITE_RESPONSE_START
                        WRITE_RESPONSE_BYTES, w)
      end.

(** [WriteMultipleCoils]; the conditional operator of the source binds
    weaker than [+], so the byte count is 1 when
    [numToWrite / 8 + (numToWrite & 0x7)] is not zero and 0 otherwise. *)
Definition WriteMultipleCoils (fuel : nat) (w : world)
    (slaveID address numToWrite : Z) (bitArray readArray : list Z) (timeout : Z)
  : outcome :=
  let dataByteCount :=
    uint8_t (if negb (numToWrite / 8 + Z.land numToWrite 0x7 =? 0) then 1 else 0) in
  let modBusMessage := array MAX_PDU_LENGTH in
  if not_idle (handle w) then
    Some (false, wr readArray 0 (uint8_t (NotReadyReason (handle w))), w)
  else
    let modBusMessage :=
      SET_MODBUS_HEADER modBusMessage slaveID WRITE_MULTIPLE_COILS address
                        numToWrite in
    let modBusMessage := wr modBusMessage 6 dataByteCount in
    let modBusMessage := memcpy modBusMessage 7 bitArray 0 dataByteCount in
    let w := set_handle w (set_isCFG (handle w) false) in
    let '(sent, w) := ModBusWrite w modBusMessage (uint16_t (7 + dataByteCount)) in
    if negb sent then Some (false, wr readArray 0 MESSAGE_SEND_FAIL, w)
    else
      match WaitForData fuel w timeout with
      | None => None
      | Some (false, w) => Some (false, wr readArray 0 MODBUS_TIMEOUT, w)
      | Some (true, w) =>
          let hndl := handle w in
          if exception_bit hndl then Some (false, wr readArray 0 (rd (pdu hndl) 2), w)
          else if negb (rd (pdu hndl) 1 =? WRITE_MULTIPLE_COILS)
          then Some (false, wr readArray 0 INVALID_RESPONSE, w)
          else Some (true,
                     memcpy readArray 0 (pdu hndl) WRITE_RESPONSE_START
                        WRITE_RESPONSE_BYTES, w)
      end.

(** [WriteMultipleHoldingRegisters] *)
Definition WriteMultipleHoldingRegisters (fuel : nat) (w : world)
    (slaveID address numToWrite : Z) (registerArray readArray : list Z)
    (timeout : Z) : outcome :=
  let dataByteCount := uint8_t (numToWrite * 2) in
  let modBusMessage := array MAX_PDU_LENGTH in
  if not_idle (handle w) then
    Some (false, wr readArray 0 (uint8_t (NotReadyReason (handle w))), w)
  else
    let modBusMessage :=
      SET_MODBUS_HEADER modBusMessage slaveID WRITE_MULTIPLE_HOLDING_REGISTERS
                        address numToWrite in
    let modBusMessage := wr modBusMessage 6 dataByteCount in
    let modBusMessage :=
      put_registers modBusMessage registerArray (dataByteCount / 2) in
    let w := set_handle w (set_isCFG (handle w) false) in
    let '(sent, w) := ModBusWrite w modBusMessage (uint8_t (7 + dataByteCount)) in
    if negb sent then Some (false, wr readArray 0 MESSAGE_SEND_FAIL, w)
    else
      match WaitForData fuel w timeout with
      | None => None
      | Some (false, w) => Some (false, wr readArray 0 MODBUS_TIMEOUT, w)
      | Some (true, w) =>
          let hndl := handle w in
          if exception_bit hndl then Some (false, wr readArray 0 (rd (pdu hndl) 2), w)
          else if negb (rd (pdu hndl) 1 =? WRITE_MULTIPLE_HOLDING_REGISTERS)
          then Some (false, wr readArray 0 INVALID_RESPONSE, w)
          else Some (true,
                     memcpy readArray 0 (pdu hndl) WRITE_RESPONSE_START
                        WRITE_RESPONSE_BYTES, w)
      end.

(** [ReadFile] *)
Definition ReadFile (fuel : nat) (w : world)
    (slaveID : Z) (messageArray : list Z) (messageLength : Z)
    (readArray : list Z) (timeout : Z) : outcome :=
  if not_idle (handle w) then
    Some (false, wr readArray 0 (uint8_t (NotReadyReason (handle w))), w)
  else
    let modbusMessage := array (MAX_PDU_LENGTH + PDU_HEADER_LENGTH) in
    let modbusMessage := wr modbusMessage 0 (uint8_t slaveID) in
    let modbusMessage := wr modbusMessage 1 READ_FILE in
    let modbusMessage := wr modbusMessage 2 (uint8_t messageLength) in
    if negb (messageLength <? MAX_PDU_LENGTH) then
      Some (false, wr readArray 0 MESSAGE_SEND_FAIL, w)
    else
      let modbusMessage := memcpy modbusMessage 3 messageArray 0 messageLength in
      let expectedMessageLength := expected_file_length messageArray messageLength in
      let w := set_handle w (set_isCFG (handle w) false) in
      let '(sent, w) :=
        ModBusWrite w modbusMessage (uint16_t (3 + messageLength)) in
      if negb sent then Some (false, wr readArray 0 MESSAGE_SEND_FAIL, w)
      else
        match WaitForData fuel w timeout with
        | None => None
        | Some (false, w) => Some (false, wr readArray 0 MODBUS_TIMEOUT, w)
        | Some (true, w) =>
            let hndl := handle w in
            if exception_bit hndl then Some (false, wr readArray 0 (rd (pdu hndl) 2), w)
            else if negb (rd (pdu hndl) 1 =? READ_FILE)
            then Some (false, wr readArray 0 INVALID_RESPONSE, w)
            else Some (true,
                       memcpy readArray 0 (pdu hndl) PDU_HEADER_LENGTH
                          (PduDataLength hndl expectedMessageLength), w)
        end.

(** [WriteFile] *)
Definition WriteFile (fuel : nat) (w : world)
    (slaveID : Z) (messageArray : list Z) (messageLength : Z)
    (readArray : list Z) (timeout : Z) : outcome :=
  if not_idle (handle w) then
    Some (false, wr readArray 0 (uint8_t (NotReadyReason (handle w))), w)
  else
    let modbusMessage := array MAX_PDU_LENGTH in
    let modbusMessage := wr modbusMessage 0 (uint8_t slaveID) in
    let modbusMessage := wr modbusMessage 1 WRITE_FILE in
    let modbusMessage := wr modbusMessage 2 (uint8_t messageLength) in
    let modbusMessage := memcpy modbusMessage 3 messageArray 0 messageLength in
    let w := set_handle w (set_isCFG (handle w) false) in
    let '(sent, w) :=
      ModBusWrite w modbusMessage (uint16_t (PDU_HEADER_LENGTH + messageLength)) in
    if negb sent then Some (false, wr readArray 0 MESSAGE_SEND_FAIL, w)
    else
      match WaitForData fuel w timeout with
      | None => None
      | Some (false, w) => Some (false, wr readArray 0 MODBUS_TIMEOUT, w)
      | Some (true, w) =>
          let hndl := handle w in
          if exception_bit hndl then Some (false, wr readArray 0 (rd (pdu hndl) 2), w)
          else if negb (rd (pdu hndl) 1 =? WRITE_FILE)
          then Some (false, wr readArray 0 INVALID_RESPONSE, w)
          else Some (true,
                     memcpy readArray 0 (pdu hndl) PDU_HEADER_LENGTH
                        (PduDataLength hndl messageLength), w)
      end.

(** [PassiveRead] ("still in progress" in modbus.h): it waits without
    looking at the state first and returns [false] on every path. *)
Definition PassiveRead (fuel : nat) (w : world)
    (readArray : list Z) (bytesToRead timeout : Z) : outcome :=
  match WaitForData fuel w timeout with
  | None => None
  | Some (false, w) => Some (false, wr readArray 0 MODBUS_TIMEOUT, w)
  | Some (true, w) =>
      let hndl := handle w in
      Some (false,
            memcpy readArray 0 (pdu hndl) PDU_HEADER_LENGTH
                   (if rd (pdu hndl) 2 <? bytesToRead then rd (pdu hndl) 2
                    else bytesToRead), w)
  end.

End Engine.

(** ** The correlator rule of the spec *)

(** The rule of the correlator in the words of the spec: accept on equality;
    otherwise stale when the received identifier lies strictly between the
    last matched one and the expected one, counting modulo 65536; otherwise
    from the future. *)
Definition strictly_between_wrapping (last rx expected : Z) : bool :=
  (0 <? (rx - last) mod 65536) && ((rx - last) mod 65536 <? (expected - last) mod 65536).

Definition correlator_rule (rx expected last : Z) : transactionVerdict :=
  if rx =? expected then TransactionAccepted
  else if strictly_between_wrapping last rx expected then TransactionTooLow
  else TransactionFromFuture.

(** ** Transports used in the statements *)

(** Nothing is ever delivered to the handle. *)
Definition quiet (deliveries : nat -> list epoll_event) : Prop :=
  forall n, deliveries n = [].

(** [send] takes every frame whole. *)
Definition accepting (send : list Z -> Z) : Prop :=
  forall frame, send frame = Z.of_nat (length frame).

(** The PDU bytes inside a frame given to [send] for a transport. *)
Definition frame_pdu (t : modbusTransportType_t) (frame : list Z) (n : Z) : list Z :=
  bytes_at frame (transportHeaderLength (framing_of t)) n.

(** ** Feeding a frame in pieces *)

(** The chunks given to [MessageHandler] one call at a time; the state field
    is not written by [MessageHandler], so the handle stays
    WaitingForResponse.  The answer is that of the last call. *)
Fixpoint feed (hndl : modbus_t) (chunks : list (list Z))
    (ret : messageHandlerState_t) : messageHandlerState_t * modbus_t :=
  match chunks with
  | [] => (ret, hndl)
  | chunk :: chunks' =>
      let '(ret, hndl) := MessageHandler hndl chunk (Z.of_nat (length chunk)) in
      feed hndl chunks' ret
  end.

(** One complete valid frame for the handle: as long as the transport header,
    the PDU length the table gives for its function code and length byte, and
    the footer together; within the buffer; with the awaited transaction
    identifier where the transport checks it and a good CRC where it checks
    that. *)
Definition complete_frame (hndl : modbus_t) (frame : list Z) : Prop :=
  let f := framing_of (type hndl) in
  let pduMessageLength :=
    GetFcodeLength (rd frame (fCodeOffset f)) (rd frame (pduLengthOffset f)) in
  minLength f <= Z.of_nat (length frame) < MAX_PDU_LENGTH /\
  Z.of_nat (length frame)
    = transportHeaderLength f + pduMessageLength + transportFooterLength f /\
  (checkTransaction f = true ->
   uint16_t (Z.lor (Z.shiftl (rd frame 0) 8) (rd frame 1)) = transactionId hndl) /\
  (checkCRC f = true ->
   ValidateCRC frame (pduMessageLength + CRC_FOOTER_LENGTH) = true).

(** The handle with [data] accumulated from the start of its buffer. *)
Definition buffered (hndl : modbus_t) (data : list Z) : modbus_t :=
  set_bufferedMessageLength
    (set_bufferedMessage hndl
       (data ++ skipn (length data) (bufferedMessage hndl)))
    (Z.of_nat (length data)).

(** ** Statements about MessageHandler *)

(** The handle as [ModbusConnectIp] and [ModbusConnectRtu] make it and as
    the code relies on it: both buffers MAX_PDU_LENGTH long, and less than
    that buffered. *)
Definition within_bounds (hndl : modbus_t) : Prop :=
  length (bufferedMessage hndl) = Z.to_nat MAX_PDU_LENGTH /\
  length (pdu hndl) = Z.to_nat MAX_PDU_LENGTH /\
  0 <= bufferedMessageLength hndl < MAX_PDU_LENGTH.

(** The frame has the length its own function code and length byte ask for,
    and fits the buffer together with what follows it. *)
Definition frame_shape (t : modbusTransportType_t) (frame surplus : list Z) : Prop :=
  let f := framing_of t in
  minLength f <= Z.of_nat (length frame) /\
  Z.of_nat (length frame)
    = transportHeaderLength f
      + GetFcodeLength (rd frame (fCodeOffset f)) (rd frame (pduLengthOffset f))
      + transportFooterLength f /\
  Z.of_nat (length frame) + Z.of_nat (length surplus) < MAX_PDU_LENGTH.

(** The handle after a frame at the head of its buffer has been taken out:
    what follows the frame is moved to the front. *)
Definition shifted (hndl : modbus_t) (frameLength remaining : Z) : modbus_t :=
  set_bufferedMessageLength
    (if 0 <? remaining then
       set_bufferedMessage hndl
         (memcpy (bufferedMessage hndl) 0 (bufferedMessage hndl)
                 frameLength remaining)
     else hndl)
    remaining.

(** The two ways a frame of the right length is refused without ending the
    wait: a TCP frame of an earlier request, an RTU-over-TCP frame with a bad
    CRC. *)
Definition refused_frame (hndl : modbus_t) (frame : list Z) : Prop :=
  (type hndl = tcp /\
   transactionCheck (transactionId hndl) (lastTransactionId hndl)
     (uint16_t (Z.lor (Z.shiftl (rd frame 0) 8) (rd frame 1)))
   = TransactionTooLow) \/
  (type hndl = rtuOverTcp /\
   ValidateCRC frame (Z.of_nat (length frame)) = false).

(** ** The request primitives taken together *)

(** One call of a request primitive of modbus.h with its own arguments. *)
Inductive request :=
  | ReadCoils_request (slaveID address bitsToRead : Z)
  | ReadDiscreteInputs_request (slaveID address bitsToRead : Z)
  | ReadMultipleHoldingRegisters_request (slaveID address registersToRead : Z)
  | ReadInputRegisters_request (slaveID address registersToRead : Z)
  | WriteSingleCoil_request (slaveID address : Z) (bit : bool)
  | WriteSingleHoldingRegister_request (slaveID address mbRegister : Z)
  | WriteMultipleCoils_request (slaveID address numToWrite : Z) (bitArray : list Z)
  | WriteMultipleHoldingRegisters_request (slaveID address numToWrite : Z)
      (registerArray : list Z)
  | ReadFile_request (slaveID : Z) (messageArray : list Z) (messageLength : Z)
  | WriteFile_request (slaveID : Z) (messageArray : list Z) (messageLength : Z).

(** The function code the primitive sends and expects back. *)
Definition request_fcode (r : request) : Z :=
  match r with
  | ReadCoils_request _ _ _ => READ_COILS
  | ReadDiscreteInputs_request _ _ _ => READ_DISCRETE_INPUTS
  | ReadMultipleHoldingRegisters_request _ _ _ => READ_MULTIPLE_HOLDING_REGISTERS
  | ReadInputRegisters_request _ _ _ => READ_INPUT_REGISTERS
  | WriteSingleCoil_request _ _ _ => WRITE_SINGLE_COIL
  | WriteSingleHoldingRegister_request _ _ _ => WRITE_SINGLE_HOLDING_REGISTER
  | WriteMultipleCoils_request _ _ _ _ => WRITE_MULTIPLE_COILS
  | WriteMultipleHoldingRegisters_request _ _ _ _ => WRITE_MULTIPLE_HOLDING_REGISTERS
  | ReadFile_request _ _ _ => READ_FILE
  | WriteFile_request _ _ _ => WRITE_FILE
  end.

(** The call itself. *)
Definition invoke (DEVICE_DISCONNECTED : Z) (send : list Z -> Z)
    (deliveries : nat -> list epoll_event) (fuel : nat) (w : world)
    (r : request) (readArray : list Z) (timeout : Z) : outcome :=
  match r with
  | ReadCoils_request slaveID address bitsToRead =>
      ReadCoils DEVICE_DISCONNECTED send deliveries fuel w
        slaveID address bitsToRead readArray timeout
  | ReadDiscreteInputs_request slaveID address bitsToRead =>
      ReadDiscreteInputs DEVICE_DISCONNECTED send deliveries fuel w
        slaveID address bitsToRead readArray timeout
  | ReadMultipleHoldingRegisters_request slaveID address registersToRead =>
      ReadMultipleHoldingRegisters DEVICE_DISCONNECTED send deliveries fuel w
        slaveID address registersToRead readArray timeout
  | ReadInputRegisters_request slaveID address registersToRead =>
      ReadInputRegisters DEVICE_DISCONNECTED send deliveries fuel w
        slaveID address registersToRead readArray timeout
  | WriteSingleCoil_request slaveID address bit =>
      WriteSingleCoil DEVICE_DISCONNECTED send deliveries fuel w
        slaveID address bit readArray timeout
  | WriteSingleHoldingRegister_request slaveID address mbRegister =>
      WriteSingleHoldingRegister DEVICE_DISCONNECTED send deliveries fuel w
        slaveID address mbRegister readArray timeout
  | WriteMultipleCoils_request slaveID address numToWrite bitArray =>
      WriteMultipleCoils DEVICE_DISCONNECTED send deliveries fuel w
        slaveID address numToWrite bitArray readArray timeout
  | WriteMultipleHoldingRegisters_request slaveID address numToWrite registerArray =>
      WriteMultipleHoldingRegisters DEVICE_DISCONNECTED send deliveries fuel w
        slaveID address numToWrite registerArray readArray timeout
  | ReadFile_request slaveID messageArray messageLength =>
      ReadFile DEVICE_DISCONNECTED send deliveries fuel w
        slaveID messageArray messageLength readArray timeout
  | WriteFile_request slaveID messageArray messageLength =>
      WriteFile DEVICE_DISCONNECTED send deliveries fuel w
        slaveID messageArray messageLength readArray timeout
  end.

(** [send] takes no frame whole: it fails or sends only a part. *)
Definition refusing (send : list Z -> Z) : Prop :=
  forall frame, send frame <> Z.of_nat (length frame).

(** The arguments of a request as a C caller can pass them without the
    primitive leaving an array: every integer within its C type, the data
    array at least as long as the primitive reads it, and a message that
    fits the local array of the primitive and the arrays of [ModBusWrite]
    (MAX_PDU_LENGTH bytes).  Outside these bounds the C code runs past its
    arrays and the lists of the model say nothing about it. *)
Definition in_bounds (r : request) : Prop :=
  match r with
  | ReadCoils_request slaveID address quantity
  | ReadDiscreteInputs_request slaveID address quantity
  | ReadMultipleHoldingRegisters_request slaveID address quantity
  | ReadInputRegisters_request slaveID address quantity
  | WriteSingleHoldingRegister_request slaveID address quantity =>
      0 <= slaveID < 256 /\ 0 <= address < 65536 /\ 0 <= quantity < 65536
  | WriteSingleCoil_request slaveID address _ =>
      0 <= slaveID < 256 /\ 0 <= address < 65536
  | WriteMultipleCoils_request slaveID address numToWrite bitArray =>
      0 <= slaveID < 256 /\ 0 <= address < 65536 /\ 0 <= numToWrite < 65536 /\
      1 <= Z.of_nat (length bitArray)
  | WriteMultipleHoldingRegisters_request slaveID address numToWrite
      registerArray =>
      0 <= slaveID < 256 /\ 0 <= address < 65536 /\ 0 <= numToWrite < 65536 /\
      7 + uint8_t (numToWrite * 2) <= MAX_PDU_LENGTH /\
      uint8_t (numToWrite * 2) / 2 <= Z.of_nat (length registerArray)
  | ReadFile_request slaveID messageArray messageLength
  | WriteFile_request slaveID messageArray messageLength =>
      0 <= slaveID < 256 /\
      0 <= messageLength /\ PDU_HEADER_LENGTH + messageLength <= MAX_PDU_LENGTH /\
      messageLength <= Z.of_nat (length messageArray)
  end.

(** The slave's answer [frame] reaches the handle in one piece during the
    first nap after the request of the world [w] has been sent. *)
Definition answered_with (deliveries : nat -> list epoll_event) (w : world)
    (frame : list Z) : Prop :=
  deliveries (sleeps w) = [mk_epoll_event true false (Some frame)].

(** The handle as it waits for the answer to the request sent from [w]. *)
Definition awaiting (w : world) : modbus_t :=
  set_transactionId (handle w) (transactionIdentifier w).

(** The one local test a primitive makes on its arguments before sending:
    [ReadFile] refuses a message of MAX_PDU_LENGTH bytes or more. *)
Definition sendable (r : request) : Prop :=
  match r with
  | ReadFile_request _ _ messageLength => messageLength < MAX_PDU_LENGTH
  | _ => True
  end.

(** The requests whose answer is a counted run of data bytes. *)
Definition counted_bytes_request (r : request) : bool :=
  match r with
  | ReadCoils_request _ _ _ | ReadDiscreteInputs_request _ _ _
  | ReadFile_request _ _ _ | WriteFile_request _ _ _ => true
  | _ => false
  end.

(** The requests whose answer is a counted run of 16-bit registers. *)
Definition register_request (r : request) : bool :=
  match r with
  | ReadMultipleHoldingRegisters_request _ _ _
  | ReadInputRegisters_request _ _ _ => true
  | _ => false
  end.

(** The requests whose answer echoes address and value. *)
Definition echoed_request (r : request) : bool :=
  match r with
  | WriteSingleCoil_request _ _ _ | WriteSingleHoldingRegister_request _ _ _
  | WriteMultipleCoils_request _ _ _ _
  | WriteMultipleHoldingRegisters_request _ _ _ _ => true
  | _ => false
  end.

(** ** SlaveSimulator/modbuscommands.c: file requests *)

Definition HEADER_LENGTH : Z := 3.
Definition SUBREQUEST_LENGTH : Z := 7.
Definition REFERENCE_TYPE : Z := 6.
Definition FILE_NO_INDEX_UPPER : Z := 1.
Definition FILE_NO_INDEX_LOWER : Z := 2.
Definition RECORD_NO_INDEX_UPPER : Z := 3.
Definition RECORD_NO_INDEX_LOWER : Z := 4.
Definition RECORD_LENGTH_INDEX : Z := 6.
Definition NO_ERROR : Z := 0.

(** [uint8_t fileStore[6][20000]] as it lies in memory, row after row:
    [fileStore[fileNo][k]] is the byte [fileNo * 20000 + k].  The rows are
    0 to 5; file number 6 passes the test of [fileRead] and [fileWrite] but
    lies past the array, and what the model does there means nothing. *)
Definition fileStore_at (fileNo k : Z) : Z := fileNo * 20000 + k.

(** [fileRead(&messageOut[out], fileNo, recordNo, recordsToRead)] *)
Definition fileRead (fileStore messageOut : list Z)
    (out fileNo recordNo recordsToRead : Z) : Z * list Z :=
  if (0 <? fileNo) && (fileNo <=? 6) then
    (NO_ERROR,
     memcpy messageOut out fileStore (fileStore_at fileNo (recordNo * 2))
            (recordsToRead * 2))
  else (ILLEGAL_DATA_ADDRESS, messageOut).

(** [fileWrite(&messageIn[in], &messageOut[out], fileNo, recordNo,
    recordsToWrite)]: the result, the store and [messageOut] afterwards. *)
Definition fileWrite (fileStore messageIn messageOut : list Z)
    (inp out fileNo recordNo recordsToWrite : Z) : Z * list Z * list Z :=
  if (0 <? fileNo) && (fileNo <=? 6) then
    let fileStore :=
      memcpy fileStore (fileStore_at fileNo (recordNo * 2)) messageIn inp
             (recordsToWrite * 2) in
    (NO_ERROR, fileStore,
     memcpy messageOut out messageIn inp (recordsToWrite * 2))
  else (ILLEGAL_DATA_ADDRESS, fileStore, messageOut).

(** The [for] loop of [requestRead] with [turns] turns to go; [inPtr] and
    [outPtr] are offsets into [messageIn] and [messageOut].  The last two
    statements of the function are run where the loop ends. *)
Fixpoint requestRead_loop (fileStore messageIn : list Z) (turns : nat)
    (inPtr outPtr totalLength ret : Z) (messageOut : list Z) : Z * list Z :=
  match turns with
  | O => (ret, wr messageOut 2 (uint8_t totalLength))
  | S turns' =>
      if rd messageIn inPtr =? REFERENCE_TYPE then
        let recordsToRead := rd messageIn (inPtr + RECORD_LENGTH_INDEX) in
        let fileNo :=
          Z.lor (rd messageIn (inPtr + FILE_NO_INDEX_LOWER))
                (Z.shiftl (rd messageIn (inPtr + FILE_NO_INDEX_UPPER)) 8) in
        let recordNo :=
          Z.lor (rd messageIn (inPtr + RECORD_NO_INDEX_LOWER))
                (Z.shiftl (rd messageIn (inPtr + RECORD_NO_INDEX_UPPER)) 8) in
        let inPtr := inPtr + SUBREQUEST_LENGTH in
        if recordNo + recordsToRead <? 10000 then
          let messageOut := wr messageOut outPtr (uint8_t (recordsToRead * 2)) in
          let messageOut := wr messageOut (outPtr + 1) 6 in
          let '(ret, messageOut) :=
            fileRead fileStore messageOut (outPtr + 2) fileNo recordNo
                     recordsToRead in
          requestRead_loop fileStore messageIn turns' inPtr
            (outPtr + (recordsToRead * 2 + 2))
            (totalLength + (recordsToRead * 2 + 2)) ret messageOut
        else (ILLEGAL_DATA_ADDRESS, messageOut)
      else (ILLEGAL_DATA_VALUE, messageOut)
  end.

(** [requestRead]; [ret] has no initial value in the source, and none is
    needed: the loop makes at least one turn when it is reached. *)
Definition requestRead (fileStore messageIn : list Z) (messageSize : Z)
    (messageOut : list Z) : Z * list Z :=
  if (0x07 <=? rd messageIn 2) && (rd messageIn 2 <=? 0xF5) then
    requestRead_loop fileStore messageIn (Z.to_nat (rd messageIn 2 / 7))
      HEADER_LENGTH HEADER_LENGTH 0 0 messageOut
  else (ILLEGAL_DATA_VALUE, messageOut).

(** The [while] loop of [requestWrite]; [None] when it is still running
    after [fuel] turns. *)
Fixpoint requestWrite_loop (fuel : nat) (fileStore messageIn : list Z)
    (inPtr outPtr dataRead ret : Z) (messageOut : list Z)
  : option (Z * list Z * list Z) :=
  if dataRead <? rd messageIn 2 then
    match fuel with
    | O => None
    | S fuel' =>
        if rd messageIn inPtr =? REFERENCE_TYPE then
          let messageOut := wr messageOut outPtr REFERENCE_TYPE in
          let fileNo :=
            Z.lor (rd messageIn (inPtr + FILE_NO_INDEX_LOWER))
                  (Z.shiftl (rd messageIn (inPtr + FILE_NO_INDEX_UPPER)) 8) in
          let messageOut :=
            wr messageOut (outPtr + FILE_NO_INDEX_UPPER)
               (rd messageIn (inPtr + FILE_NO_INDEX_UPPER)) in
          let messageOut :=
            wr messageOut (outPtr + FILE_NO_INDEX_LOWER)
               (rd messageIn (inPtr + FILE_NO_INDEX_LOWER)) in
          let recordNo :=
            Z.lor (rd messageIn (inPtr + RECORD_NO_INDEX_LOWER))
                  (Z.shiftl (rd messageIn (inPtr + RECORD_NO_INDEX_UPPER)) 8) in
          let messageOut :=
            wr messageOut (outPtr + RECORD_NO_INDEX_UPPER)
               (rd messageIn (inPtr + RECORD_NO_INDEX_UPPER)) in
          let messageOut :=
            wr messageOut (outPtr + RECORD_NO_INDEX_LOWER)
               (rd messageIn (inPtr + RECORD_NO_INDEX_LOWER)) in
          let messageOut := wr messageOut (outPtr + 5) 0 in
          let recordsToWrite := rd messageIn (inPtr + RECORD_LENGTH_INDEX) in
          let messageOut :=
            wr messageOut (outPtr + RECORD_LENGTH_INDEX)
               (rd messageIn (inPtr + RECORD_LENGTH_INDEX)) in
          if recordNo + recordsToWrite <? 10000 then
            let '(ret, fileStore, messageOut) :=
              fileWrite fileStore messageIn messageOut (inPtr + 7) (outPtr + 7)
                        fileNo recordNo recordsToWrite in
            if negb (ret =? NO_ERROR) then Some (ret, fileStore, messageOut)
            else
              requestWrite_loop fuel' fileStore messageIn
                (inPtr + (recordsToWrite * 2 + 7))
                (outPtr + (recordsToWrite * 2 + 7))
                (dataRead + (recordsToWrite * 2 + 7)) ret messageOut
          else Some (ILLEGAL_DATA_ADDRESS, fileStore, messageOut)
        else Some (ILLEGAL_DATA_VALUE, fileStore, messageOut)
    end
  else Some (ret, fileStore, wr messageOut 2 (uint8_t dataRead)).

(** [requestWrite]; every turn of its loop adds at least 7 to [dataRead],
    so [messageIn[2]] turns are more than the loop can make. *)
Definition requestWrite (fileStore messageIn : list Z) (messageSize : Z)
    (messageOut : list Z) : option (Z * list Z * list Z) :=
  requestWrite_loop (Z.to_nat (rd messageIn 2)) fileStore messageIn
    HEADER_LENGTH HEADER_LENGTH 0 0 messageOut.

(** [processIncomingMessage]: the result, the store and [messageOut]
    afterwards. *)
Definition processIncomingMessage (fileStore messageIn : list Z)
    (messageSize : Z) (messageOut : list Z) : option (Z * list Z * list Z) :=
  let messageOut := wr messageOut 0 (rd messageIn 0) in
  let messageOut := wr messageOut 1 (rd messageIn 1) in
  if rd messageIn 1 =? 0x14 then
    let '(ret, messageOut) := requestRead fileStore messageIn messageSize messageOut in
    Some (ret, fileStore, messageOut)
  else if rd messageIn 1 =? 0x15 then
    requestWrite fileStore messageIn messageSize messageOut
  else Some (ILLEGAL_FUNCTION, fileStore, messageOut).

(** ** SlaveSimulator/main.c: one turn of the serving loop *)

(** What one turn of the [while (1)] loop of [main] does with a received
    message: the bytes given to [send] ([None] where the program gives up
    because [AddCRC] failed), the store and [messageOut] afterwards. *)
Definition main_turn (fileStore messageIn : list Z) (messageSize : Z)
    (messageOut : list Z) : option (option (list Z) * list Z * list Z) :=
  match processIncomingMessage fileStore messageIn messageSize messageOut with
  | None => None
  | Some (result, fileStore, messageOut) =>
      if result =? 0 then
        let '(ok, messageOut') := AddCRC messageOut (rd messageOut 2 + 3) 256 in
        if ok then
          Some (Some (bytes_at messageOut' 0 (rd messageOut' 2 + 5)),
                fileStore, messageOut')
        else Some (None, fileStore, messageOut')
      else
        let messageOut := wr messageOut 1 (uint8_t (Z.lor (rd messageOut 1) 0x80)) in
        let messageOut := wr messageOut 2 (uint8_t result) in
        let '(ok, messageOut') := AddCRC messageOut 3 256 in
        if ok then
          Some (Some (bytes_at messageOut' 0 5), fileStore, messageOut')
        else Some (None, fileStore, messageOut')
  end.

(** ** Statements about the simulator *)

(** A message body followed by its CRC16, low byte first. *)
Definition with_crc (body : list Z) : list Z :=
  body ++ [Z.land (GetCRC body (Z.of_nat (length body))) 0xFF;
           Z.shiftr (GetCRC body (Z.of_nat (length body))) 8].

(** File and record number of the sub-request at [inPtr], as both request
    handlers of the simulator decode them. *)
Definition subrequest_file (messageIn : list Z) (inPtr : Z) : Z :=
  Z.lor (rd messageIn (inPtr + FILE_NO_INDEX_LOWER))
        (Z.shiftl (rd messageIn (inPtr + FILE_NO_INDEX_UPPER)) 8).

Definition subrequest_record (messageIn : list Z) (inPtr : Z) : Z :=
  Z.lor (rd messageIn (inPtr + RECORD_NO_INDEX_LOWER))
        (Z.shiftl (rd messageIn (inPtr + RECORD_NO_INDEX_UPPER)) 8).

(** The reasons for which the simulator refuses a read request at its
    byte count or first sub-request, with the exception code it gives. *)
Inductive read_refused (messageIn : list Z) : Z -> Prop :=
  | read_byte_count :
      rd messageIn 2 < 0x07 \/ 0xF5 < rd messageIn 2 ->
      read_refused messageIn ILLEGAL_DATA_VALUE
  | read_reference_type :
      0x07 <= rd messageIn 2 <= 0xF5 ->
      rd messageIn HEADER_LENGTH <> REFERENCE_TYPE ->
      read_refused messageIn ILLEGAL_DATA_VALUE
  | read_record_range :
      0x07 <= rd messageIn 2 <= 0xF5 ->
      rd messageIn HEADER_LENGTH = REFERENCE_TYPE ->
      10000 <= subrequest_record messageIn HEADER_LENGTH
               + rd messageIn (HEADER_LENGTH + RECORD_LENGTH_INDEX) ->
      read_refused messageIn ILLEGAL_DATA_ADDRESS.

(** The same for a write request. *)
Inductive write_refused (messageIn : list Z) : Z -> Prop :=
  | write_reference_type :
      0 < rd messageIn 2 ->
      rd messageIn HEADER_LENGTH <> REFERENCE_TYPE ->
      write_refused messageIn ILLEGAL_DATA_VALUE
  | write_record_range :
      0 < rd messageIn 2 ->
      rd messageIn HEADER_LENGTH = REFERENCE_TYPE ->
      10000 <= subrequest_record messageIn HEADER_LENGTH
               + rd messageIn (HEADER_LENGTH + RECORD_LENGTH_INDEX) ->
      write_refused messageIn ILLEGAL_DATA_ADDRESS
  | write_file_number :
      0 < rd messageIn 2 ->
      rd messageIn HEADER_LENGTH = REFERENCE_TYPE ->
      subrequest_record messageIn HEADER_LENGTH
        + rd messageIn (HEADER_LENGTH + RECORD_LENGTH_INDEX) < 10000 ->
      subrequest_file messageIn HEADER_LENGTH <= 0
        \/ 6 < subrequest_file messageIn HEADER_LENGTH ->
      write_refused messageIn ILLEGAL_DATA_ADDRESS.

(** A request of one sub-request that the simulator serves: reference type
    6, [n] records from record [recordNo] of the file [fileNo], a file of
    1..5 and all records below 10000. *)
Definition single_subrequest (messageIn : list Z) (fileNo recordNo n : Z) : Prop :=
  rd messageIn HEADER_LENGTH = REFERENCE_TYPE /\
  subrequest_file messageIn HEADER_LENGTH = fileNo /\
  subrequest_record messageIn HEADER_LENGTH = recordNo /\
  rd messageIn (HEADER_LENGTH + RECORD_LENGTH_INDEX) = n /\
  1 <= fileNo <= 5 /\ 0 <= recordNo /\ 0 <= n /\ recordNo + n < 10000.

(** The two file requests, the only ones the simulator serves. *)
Definition file_request (r : request) : bool :=
  match r with
  | ReadFile_request _ _ _ | WriteFile_request _ _ _ => true
  | _ => false
  end.

(** ** ModbusOnSphereM4: the real-time core *)

Module M4.

(** message-handler.h *)
Definition MAX_MESSAGE_LENGTH : Z := 1024.
Definition PREFIX_LENGTH : Z := 20.
Definition MIN_HEADER_LENGTH : Z := 4.

(** [struct _messageHandle]: the field [length] and the array
    [data[PREFIX_LENGTH + MAX_MESSAGE_LENGTH]]. *)
Record messageHandle := mk_messageHandle {
  message_length : Z;
  data : list Z
}.

(** message-handler.c *)
Definition GetMessageProtocol (message : messageHandle) : Z :=
  rd (data message) (PREFIX_LENGTH + PROTOCOL_OFFSET).

Definition GetMessageCommand (message : messageHandle) : Z :=
  rd (data message) (PREFIX_LENGTH + COMMAND_OFFSET).

Definition GetMessageLength (message : messageHandle) : Z :=
  size_t (message_length message - PREFIX_LENGTH
          - rd (data message) (PREFIX_LENGTH + HEADER_LENGTH_OFFSET)).

(** [GetMessageDataPtr]: the offset into [data] the pointer stands at. *)
Definition GetMessageDataPtr (message : messageHandle) : Z :=
  let hdrLength := uint8_t (rd (data message) (PREFIX_LENGTH + HEADER_LENGTH_OFFSET)) in
  PREFIX_LENGTH + hdrLength.

(** main.c: [GetFcodeLength] of the M4; the second operand of its [&&] is
    the constant [FCODE_ERROR_OFFSET + FCODE_RANGE]. *)
Definition GetFcodeLength (fCode dataLength : Z) : Z :=
  if (FCODE_ERROR_OFFSET <? fCode) && negb (FCODE_ERROR_OFFSET + FCODE_RANGE =? 0)
  then ERROR_CODE_LENGTH
  else if fCode =? READ_COILS then size_t (PDU_HEADER_LENGTH + dataLength)
  else if fCode =? READ_DISCRETE_INPUTS then size_t (PDU_HEADER_LENGTH + dataLength)
  else if fCode =? READ_MULTIPLE_HOLDING_REGISTERS
       then size_t (PDU_HEADER_LENGTH + dataLength)
  else if fCode =? READ_INPUT_REGISTERS then size_t (PDU_HEADER_LENGTH + dataLength)
  else if fCode =? WRITE_SINGLE_COIL then PDU_HEADER_LENGTH + 3
  else if fCode =? WRITE_SINGLE_HOLDING_REGISTER then PDU_HEADER_LENGTH + 3
  else if fCode =? READ_EXCEPTION_STATUS then PDU_HEADER_LENGTH
  else if fCode =? WRITE_MULTIPLE_COILS then PDU_HEADER_LENGTH + 3
  else if fCode =? WRITE_MULTIPLE_HOLDING_REGISTERS then PDU_HEADER_LENGTH + 3
  else 0.

(** main.c: [HandleModbusRequest]; the result is what is given to
    [Uart_EnqueueData] for the UART of the slave, [None] when nothing is.
    [AddCRC] is the one declared in crc-util.h. *)
Definition HandleModbusRequest (req : messageHandle) : option (list Z) :=
  if GetMessageCommand req =? MODBUS_DATA_MESSAGE then
    let length := GetMessageLength req in
    if MAX_PDU_LENGTH <? length then None
    else
      let data :=
        memcpy (array (MAX_PDU_LENGTH + CRC_FOOTER_LENGTH)) 0
               (data req) (GetMessageDataPtr req) length in
      let '(ok, data) := AddCRC data length (MAX_PDU_LENGTH + CRC_FOOTER_LENGTH) in
      if ok then Some (bytes_at data 0 (length + CRC_FOOTER_LENGTH)) else None
  else None.

End M4.

(** A message from the A7 as the M4 finds it after [ReadA7Message]: the
    prefix of PREFIX_LENGTH bytes, then the bytes the A7 gave to [send]. *)
Definition carries (req : M4.messageHandle) (frame : list Z) : Prop :=
  M4.message_length req = M4.PREFIX_LENGTH + Z.of_nat (length frame) /\
  bytes_at (M4.data req) M4.PREFIX_LENGTH (Z.of_nat (length frame)) = frame.

(** ** modbus.c: the serial configuration of an intercore handle *)

(** [struct _RTU], the member [connectData.RTU] of the handle. *)
Record _RTU := mk_RTU {
  baudRate : Z;
  halfDuplexMode : Z;
  parityMode : Z;
  parityState : Z;
  stopBits : Z;
  wordLength : Z
}.

Definition BAUD_RATE_OFFSET_UPPER : Z := 0.
Definition BAUD_RATE_OFFSET_LOWER : Z := 1.
Definition DUPLEX_MODE_OFFSET : Z := 2.
Definition PARITY_STATE_OFFSET : Z := 3.
Definition PARITY_MODE_OFFSET : Z := 4.
Definition STOP_BITS_OFFSET : Z := 5.
Definition WORD_LENGTH_OFFSET : Z := 6.

(** [WriteSerialConfig(hndl, receivedMessage, timeout)], with
    [hndl->connectData.RTU] given as [RTU]. *)
Definition WriteSerialConfig (send : list Z -> Z)
    (deliveries : nat -> list epoll_event) (fuel : nat) (w : world)
    (RTU : _RTU) (receivedMessage : list Z) (timeout : Z) : outcome :=
  let serialConfigMessage := array 7 in
  let serialConfigMessage :=
    wr serialConfigMessage BAUD_RATE_OFFSET_UPPER
       (uint8_t (Z.land (Z.shiftr (baudRate RTU) 8) 0xFF)) in
  let serialConfigMessage :=
    wr serialConfigMessage BAUD_RATE_OFFSET_LOWER
       (uint8_t (Z.land (baudRate RTU) 0xFF)) in
  let serialConfigMessage :=
    wr serialConfigMessage DUPLEX_MODE_OFFSET (halfDuplexMode RTU) in
  let serialConfigMessage :=
    wr serialConfigMessage PARITY_STATE_OFFSET (parityState RTU) in
  let serialConfigMessage :=
    wr serialConfigMessage PARITY_MODE_OFFSET (parityMode RTU) in
  let serialConfigMessage :=
    wr serialConfigMessage STOP_BITS_OFFSET (stopBits RTU) in
  let serialConfigMessage :=
    wr serialConfigMessage WORD_LENGTH_OFFSET (wordLength RTU) in
  let w := set_handle w (set_isCFG (handle w) true) in
  let '(sent, w) := ModBusWrite send w serialConfigMessage 7 in
  if negb sent then Some (false, wr receivedMessage 0 MESSAGE_SEND_FAIL, w)
  else
    match WaitForData deliveries fuel w timeout with
    | None => None
    | Some (false, w) => Some (false, wr receivedMessage 0 MODBUS_TIMEOUT, w)
    | Some (true, w) =>
        if negb (rd receivedMessage 0 =? 0) then Some (false, receivedMessage, w)
        else Some (true, receivedMessage, w)
    end.

(** ** Sample values *)

(** A fresh handle of the given transport with the expected and the last
    matched transaction identifier, and the world around it with the
    transaction counter at the expected identifier. *)
Definition sample_handle (t : modbusTransportType_t) (s : MODBUS_STATE)
    (expected last : Z) : modbus_t :=
  mk_modbus_t t 3 expected last s 0 0 false (array MAX_PDU_LENGTH)
              (array MAX_PDU_LENGTH).

Definition sample_world (t : modbusTransportType_t) (expected last : Z) : world :=
  mk_world (sample_handle t Idle expected last) expected [] 0.

(** A transport that takes every frame whole, and one that takes none. *)
Definition send_whole (frame : list Z) : Z := Z.of_nat (length frame).
Definition send_nothing (frame : list Z) : Z := -1.

(** The slave answers with [frame] during every nap. *)
Definition answer (frame : list Z) (n : nat) : list epoll_event :=
  [mk_epoll_event true false (Some frame)].

(** The parts of what one turn of the simulator yields. *)
Definition sent_reply (t : option (option (list Z) * list Z * list Z)) : list Z :=
  match t with Some (Some reply, _, _) => reply | _ => [] end.
Definition files_after (t : option (option (list Z) * list Z * list Z)) : list Z :=
  match t with Some (_, fileStore, _) => fileStore | None => [] end.
Definition messageOut_after (t : option (option (list Z) * list Z * list Z))
  : list Z :=
  match t with Some (_, _, messageOut) => messageOut | None => [] end.

(** * Theorems *)

(** ** Function-code length table *)

(** C4 (counterexample).  0xA1 has its high bit set, yet the lookup answers
    0 ("unsupported"), not the 3-byte exception length. *)
Lemma GetFcodeLength_high_bit_counterexample :
  0x80 <= 0xA1 < 256 /\ GetFcodeLength 0xA1 7 <> ERROR_CODE_LENGTH.
Proof. split; [lia | vm_compute; discriminate]. Qed.

(** C4 (amended).  For a function-code byte with its high bit set the lookup
    does not depend on the length byte: it is the 3-byte exception length
    exactly for the codes 0x81..0xA0 (exceptions to the function codes
    1..FCODE_RANGE) and 0 for 0x80 and for every code above 0xA0. *)
Theorem GetFcodeLength_high_bit (fCode dataLength : Z) :
  0x80 <= fCode ->
  GetFcodeLength fCode dataLength =
    if (FCODE_ERROR_OFFSET <? fCode) && (fCode <=? FCODE_ERROR_OFFSET + FCODE_RANGE)
    then ERROR_CODE_LENGTH else 0.
Proof.
  intros Hf. unfold GetFcodeLength.
  destruct ((FCODE_ERROR_OFFSET <? fCode)
            && (fCode <=? FCODE_ERROR_OFFSET + FCODE_RANGE)); [reflexivity|].
  unfold READ_COILS, READ_DISCRETE_INPUTS, READ_MULTIPLE_HOLDING_REGISTERS,
    READ_INPUT_REGISTERS, READ_FILE, WRITE_SINGLE_COIL,
    WRITE_SINGLE_HOLDING_REGISTER, READ_EXCEPTION_STATUS, WRITE_MULTIPLE_COILS,
    WRITE_MULTIPLE_HOLDING_REGISTERS, WRITE_FILE.
  repeat match goal with
         | |- context [?a =? ?b] =>
             destruct (Z.eqb_spec a b); [exfalso; lia|]
         end.
  reflexivity.
Qed.

Lemma GetFcodeLength_high_bit_witness :
  GetFcodeLength 0x83 200 = ERROR_CODE_LENGTH.
Proof. apply (GetFcodeLength_high_bit 0x83 200). vm_compute. discriminate. Defined.

(** ** Bytes delivered outside a wait *)

Lemma MODBUS_STATE_eqb_eq (a b : MODBUS_STATE) :
  MODBUS_STATE_eqb a b = true <-> a = b.
Proof. destruct a, b; simpl; split; congruence. Qed.

Lemma MODBUS_STATE_eqb_neq (a b : MODBUS_STATE) :
  MODBUS_STATE_eqb a b = false <-> a <> b.
Proof. destruct a, b; simpl; split; congruence. Qed.

Lemma MessageHandler_discards (hndl : modbus_t) (message : list Z) (inputLength : Z) :
  state hndl <> WaitingForResponse ->
  MessageHandler hndl message inputLength = (waiting, set_bufferedMessageLength hndl 0).
Proof.
  intros Hs. unfold MessageHandler.
  apply MODBUS_STATE_eqb_neq in Hs. rewrite Hs. reflexivity.
Qed.

(** C10.  Bytes delivered to a handle that is not WaitingForResponse are
    dropped: [MessageHandler] answers [waiting] and only resets the
    accumulation length, so the pdu buffer, its length and the state are
    untouched; the epoll thread then moves the state nowhere, except to
    Disconnected when the same event carries a hang-up. *)
Theorem unsolicited_bytes_discarded
    (hndl : modbus_t) (message : list Z) (inputLength : Z) (event : epoll_event) :
  state hndl <> WaitingForResponse ->
  (let '(ret, hndl') := MessageHandler hndl message inputLength in
   ret = waiting /\ bufferedMessageLength hndl' = 0 /\
   pdu hndl' = pdu hndl /\ pduLength hndl' = pduLength hndl /\
   state hndl' = state hndl) /\
  (let mh := EpollThread_event hndl event in
   pdu mh = pdu hndl /\ pduLength mh = pduLength hndl /\
   (state mh = state hndl \/ state mh = Disconnected) /\
   (state mh = DataReceived -> state hndl = DataReceived) /\
   (state mh = TransactionFailed -> state hndl = TransactionFailed)).
Proof.
  intros Hs. split.
  - rewrite MessageHandler_discards by assumption. simpl. auto.
  - unfold EpollThread_event.
    destruct (MODBUS_STATE_eqb (state hndl) Disconnected) eqn:Hd.
    + repeat split; auto.
    + unfold ModBusRead.
      destruct (EPOLLIN event), (received event), (EPOLLHUP event);
        rewrite ?MessageHandler_discards by assumption; simpl;
        repeat split; auto; discriminate.
Qed.

Lemma unsolicited_bytes_discarded_witness :
  let hndl := mk_modbus_t tcp 3 7 6 Idle 4 5 false
                (1 :: 2 :: 3 :: 4 :: array 250) (9 :: 8 :: 7 :: array 251) in
  state (EpollThread_event hndl (mk_epoll_event true false (Some [0; 7; 0; 0; 0; 3; 1; 7; 0])))
    = Idle.
Proof.
  intro hndl.
  pose proof (unsolicited_bytes_discarded hndl [] 0
                (mk_epoll_event true false (Some [0; 7; 0; 0; 0; 3; 1; 7; 0]))) as H.
  assert (Hs : state hndl <> WaitingForResponse) by (simpl; discriminate).
  destruct (H Hs) as [_ [_ [_ [[E | E] _]]]].
  - exact E.
  - vm_compute in E. discriminate E.
Defined.

(** ** Overflow of the accumulation buffer *)

(** C3 (counterexample).  With 250 bytes buffered, 10 more bytes would pass
    the buffer size; [MessageHandler] answers [waiting], not [failure], and
    the epoll thread leaves the request WaitingForResponse. *)
Lemma overflow_reported_as_waiting_counterexample :
  let hndl := mk_modbus_t tcp 3 7 6 WaitingForResponse 250 0 false
                (array 254) (array 254) in
  let message := [1; 2; 3; 4; 5; 6; 7; 8; 9; 10] in
  MAX_PDU_LENGTH < bufferedMessageLength hndl + 10 /\
  fst (MessageHandler hndl message 10) <> failure /\
  state (EpollThread_event hndl (mk_epoll_event true false (Some message)))
    = WaitingForResponse.
Proof. vm_compute. repeat split; discriminate. Qed.

(** C3 (amended).  For a handle in WaitingForResponse, when the buffered
    length plus the delivered length reaches MAX_PDU_LENGTH the accumulation
    length is reset to 0 and [MessageHandler] answers [waiting], the same
    answer as for an incomplete frame; the epoll thread therefore leaves the
    state WaitingForResponse. *)
Theorem overflow_resets_and_waits (hndl : modbus_t) (message : list Z) :
  state hndl = WaitingForResponse ->
  (length message <= Z.to_nat MAX_PDU_LENGTH)%nat ->
  MAX_PDU_LENGTH <= bufferedMessageLength hndl + Z.of_nat (length message) ->
  MessageHandler hndl message (Z.of_nat (length message))
    = (waiting, set_bufferedMessageLength hndl 0) /\
  EpollThread_event hndl (mk_epoll_event true false (Some message))
    = set_bufferedMessageLength hndl 0 /\
  state (set_bufferedMessageLength hndl 0) = WaitingForResponse.
Proof.
  intros Hs Hlen Hover.
  assert (HM : MessageHandler hndl message (Z.of_nat (length message))
               = (waiting, set_bufferedMessageLength hndl 0)).
  { unfold MessageHandler. rewrite Hs. simpl MODBUS_STATE_eqb. cbv iota.
    simpl negb at 1. cbv iota.
    destruct (Z.ltb_spec (bufferedMessageLength hndl + Z.of_nat (length message))
                MAX_PDU_LENGTH) as [Hlt | Hge]; [lia | reflexivity]. }
  split; [exact HM | split; [| exact Hs]].
  unfold EpollThread_event. rewrite Hs. simpl MODBUS_STATE_eqb. cbv iota.
  unfold ModBusRead. cbn [EPOLLIN received EPOLLHUP].
  rewrite firstn_all2 by exact Hlen.
  assert (Hu : uint16_t (Z.of_nat (length message)) = Z.of_nat (length message)).
  { unfold uint16_t. apply Z.mod_small. unfold MAX_PDU_LENGTH in Hlen. lia. }
  rewrite Hu, HM. reflexivity.
Qed.

Lemma overflow_resets_and_waits_witness :
  let hndl := mk_modbus_t rtuOverTcp 3 0 0 WaitingForResponse 253 0 false
                (array 254) (array 254) in
  fst (MessageHandler hndl [17] 1) = waiting.
Proof.
  intro hndl.
  assert (Hs : state hndl = WaitingForResponse) by reflexivity.
  assert (Hl : (length [17] <= Z.to_nat MAX_PDU_LENGTH)%nat) by (vm_compute; lia).
  assert (Ho : MAX_PDU_LENGTH <= bufferedMessageLength hndl + Z.of_nat (length [17]))
    by (vm_compute; discriminate).
  destruct (overflow_resets_and_waits hndl [17] Hs Hl Ho) as [E _].
  change (Z.of_nat (length [17])) with 1 in E.
  rewrite E. reflexivity.
Defined.

(** ** Requests on a handle that is not Idle *)

Lemma not_idle_true (hndl : modbus_t) : state hndl <> Idle -> not_idle hndl = true.
Proof.
  intros H. unfold not_idle. apply MODBUS_STATE_eqb_neq in H. rewrite H. reflexivity.
Qed.

Lemma not_idle_false (hndl : modbus_t) : state hndl = Idle -> not_idle hndl = false.
Proof. intros H. unfold not_idle. rewrite H. reflexivity. Qed.

(** C9.  Every request primitive called on a handle that is not Idle returns
    at once (whatever the fuel of the wait) with [false] and the code of
    [NotReadyReason] in [readArray[0]]: DEVICE_DISCONNECTED when the state is
    Disconnected, HANDLE_IN_USE otherwise.  The world is handed back as it
    was: nothing is given to [send], and the handle, its buffers and its state
    are unchanged. *)
Theorem request_refused_when_not_idle
    (DEVICE_DISCONNECTED : Z) (send : list Z -> Z)
    (deliveries : nat -> list epoll_event)
    (fuel : nat) (w : world) (readArray : list Z) (timeout : Z) :
  state (handle w) <> Idle ->
  let code :=
    uint8_t (match state (handle w) with
             | Disconnected => DEVICE_DISCONNECTED
             | _ => HANDLE_IN_USE
             end) in
  let refused : outcome := Some (false, wr readArray 0 code, w) in
  (readArray <> [] -> rd (wr readArray 0 code) 0 = code) /\
  (forall slaveID address bitsToRead,
      ReadCoils DEVICE_DISCONNECTED send deliveries fuel w
        slaveID address bitsToRead readArray timeout = refused) /\
  (forall slaveID address bitsToRead,
      ReadDiscreteInputs DEVICE_DISCONNECTED send deliveries fuel w
        slaveID address bitsToRead readArray timeout = refused) /\
  (forall slaveID address registersToRead,
      ReadMultipleHoldingRegisters DEVICE_DISCONNECTED send deliveries fuel w
        slaveID address registersToRead readArray timeout = refused) /\
  (forall slaveID address registersToRead,
      ReadInputRegisters DEVICE_DISCONNECTED send deliveries fuel w
        slaveID address registersToRead readArray timeout = refused) /\
  (forall slaveID address bit,
      WriteSingleCoil DEVICE_DISCONNECTED send deliveries fuel w
        slaveID address bit readArray timeout = refused) /\
  (forall slaveID address mbRegister,
      WriteSingleHoldingRegister DEVICE_DISCONNECTED send deliveries fuel w
        slaveID address mbRegister readArray timeout = refused) /\
  (forall slaveID address numToWrite bitArray,
      WriteMultipleCoils DEVICE_DISCONNECTED send deliveries fuel w
        slaveID address numToWrite bitArray readArray timeout = refused) /\
  (forall slaveID address numToWrite registerArray,
      WriteMultipleHoldingRegisters DEVICE_DISCONNECTED send deliveries fuel w
        slaveID address numToWrite registerArray readArray timeout = refused) /\
  (forall slaveID messageArray messageLength,
      ReadFile DEVICE_DISCONNECTED send deliveries fuel w
        slaveID messageArray messageLength readArray timeout = refused) /\
  (forall slaveID messageArray messageLength,
      WriteFile DEVICE_DISCONNECTED send deliveries fuel w
        slaveID messageArray messageLength readArray timeout = refused).
Proof.
  intros Hs code refused.
  assert (Hn : not_idle (handle w) = true) by (apply not_idle_true; exact Hs).
  assert (Hc : uint8_t (NotReadyReason DEVICE_DISCONNECTED (handle w)) = code).
  { unfold code, NotReadyReason. destruct (state (handle w)); reflexivity. }
  unfold refused.
  split; [destruct readArray; [congruence | reflexivity]|].
  repeat split; intros;
    unfold ReadCoils, ReadDiscreteInputs, ReadMultipleHoldingRegisters,
      ReadInputRegisters, WriteSingleCoil, WriteSingleHoldingRegister,
      WriteMultipleCoils, WriteMultipleHoldingRegisters, ReadFile, WriteFile;
    rewrite Hn, Hc; reflexivity.
Qed.

Lemma request_refused_when_not_idle_witness :
  let w := mk_world (mk_modbus_t tcp 3 41 40 WaitingForResponse 0 0 false
                       (array 254) (array 254)) 42 [[0; 41]] 0 in
  ReadCoils 24 (fun frame => Z.of_nat (length frame)) (fun _ => []) 0 w
    1 100 4 [0; 0] 1000
  = Some (false, [HANDLE_IN_USE; 0], w).
Proof.
  intro w.
  assert (Hs : state (handle w) <> Idle) by (simpl; discriminate).
  exact (proj1 (proj2 (request_refused_when_not_idle 24
                         (fun frame => Z.of_nat (length frame)) (fun _ => []) 0 w
                         [0; 0] 1000 Hs)) 1 100 4).
Defined.

(** ** Transaction identifiers *)

(** Where the code follows the rule: whenever the received identifier is not
    the last matched one and the expected identifier differs from the last
    matched one. *)
Lemma transactionCheck_follows_rule (expected last rx : Z) :
  0 <= expected < 65536 -> 0 <= last < 65536 -> 0 <= rx < 65536 ->
  expected <> last -> rx <> last ->
  transactionCheck expected last rx = correlator_rule rx expected last.
Proof.
  intros He Hl Hr Hel Hrl.
  unfold transactionCheck, correlator_rule, strictly_between_wrapping.
  rewrite (Z.eqb_sym rx expected).
  destruct (Z.eqb_spec expected rx) as [-> | Hne]; [reflexivity|].
  cbn [negb].
  assert (Hrx : (rx - last) mod 65536
                = if last <=? rx then rx - last else rx - last + 65536).
  { destruct (Z.leb_spec last rx).
    - apply Z.mod_small; lia.
    - symmetry. apply (Z.mod_unique _ _ (-1)); lia. }
  assert (Hex : (expected - last) mod 65536
                = if last <=? expected then expected - last
                  else expected - last + 65536).
  { destruct (Z.leb_spec last expected).
    - apply Z.mod_small; lia.
    - symmetry. apply (Z.mod_unique _ _ (-1)); lia. }
  rewrite Hrx, Hex.
  destruct (Z.ltb_spec last expected), (Z.ltb_spec expected rx),
    (Z.leb_spec rx last), (Z.ltb_spec rx expected), (Z.leb_spec last rx),
    (Z.leb_spec last expected); cbn [orb andb negb]; try lia;
    repeat match goal with
           | |- context [?a <? ?b] => destruct (Z.ltb_spec a b); try lia
           end; reflexivity.
Qed.

(** C1.  The identifiers of the spec's own example, expected 0 and last
    matched 65534: a complete frame with identifier 65535 is dropped and the
    wait goes on, one with identifier 1 drops the whole buffer with
    [failure], one with identifier 0 is accepted and becomes the last matched
    identifier.  A frame that repeats the last matched identifier 65534 is
    not strictly between 65534 and 0, so the rule makes it a hard failure;
    the code takes the [rxTransaction >= lastTransactionId] branch and only
    drops the frame, answering [waiting]. *)
Theorem transaction_equal_to_last_is_stale_after_wraparound :
  let hndl := mk_modbus_t tcp 3 0 65534 WaitingForResponse 0 0 false
                (array 254) (array 254) in
  let frame rx := [rx / 256; rx mod 256; 0; 0; 0; 4; 1; 1; 1; 15] in
  fst (MessageHandler hndl (frame 65535) 10) = waiting /\
  fst (MessageHandler hndl (frame 1) 10) = failure /\
  (fst (MessageHandler hndl (frame 0) 10) = success /\
   lastTransactionId (snd (MessageHandler hndl (frame 0) 10)) = 0) /\
  correlator_rule 65535 0 65534 = TransactionTooLow /\
  correlator_rule 1 0 65534 = TransactionFromFuture /\
  correlator_rule 65534 0 65534 = TransactionFromFuture /\
  transactionCheck 0 65534 65534 = TransactionTooLow /\
  fst (MessageHandler hndl (frame 65534) 10) = waiting /\
  bufferedMessageLength (snd (MessageHandler hndl (frame 65534) 10)) = 0 /\
  transactionCheck 7 5 5 = TransactionFromFuture.
Proof. vm_compute. repeat split; reflexivity. Qed.

(** ** Arrays *)

Lemma length_bytes_at (src : list Z) (from n : Z) :
  length (bytes_at src from n) = Z.to_nat n.
Proof. unfold bytes_at. rewrite length_map, length_seq. reflexivity. Qed.

Lemma nth_bytes_at (src : list Z) (from n : Z) (k : nat) :
  (k < Z.to_nat n)%nat ->
  nth k (bytes_at src from n) 0 = nth (Z.to_nat from + k) src 0.
Proof.
  intros Hk. unfold bytes_at.
  set (f := fun j : nat => nth (Z.to_nat from + j) src 0).
  rewrite (nth_indep _ 0 (f O))
    by (rewrite length_map, length_seq; exact Hk).
  rewrite (map_nth f), seq_nth by exact Hk. reflexivity.
Qed.

Lemma bytes_at_all (src : list Z) :
  bytes_at src 0 (Z.of_nat (length src)) = src.
Proof.
  apply (nth_ext _ _ 0 0).
  - rewrite length_bytes_at. lia.
  - intros k Hk. rewrite length_bytes_at in Hk.
    rewrite nth_bytes_at by exact Hk. reflexivity.
Qed.

Lemma length_wr (a : list Z) (i v : Z) : length (wr a i v) = length a.
Proof.
  unfold wr.
  destruct (Z.leb_spec 0 i), (Z.ltb_spec i (Z.of_nat (length a)));
    cbn [andb]; try reflexivity.
  rewrite length_app, length_firstn. cbn [length]. rewrite length_skipn. lia.
Qed.

Lemma nth_wr (a : list Z) (i v : Z) (k : nat) :
  nth k (wr a i v) 0 =
    if (0 <=? i) && (i <? Z.of_nat (length a)) && (Nat.eqb k (Z.to_nat i))
    then v else nth k a 0.
Proof.
  unfold wr.
  destruct (Z.leb_spec 0 i), (Z.ltb_spec i (Z.of_nat (length a)));
    cbn [andb]; try reflexivity.
  assert (Hl : length (firstn (Z.to_nat i) a) = Z.to_nat i)
    by (rewrite length_firstn; lia).
  destruct (Nat.eqb_spec k (Z.to_nat i)) as [-> | Hne].
  - rewrite app_nth2 by lia. rewrite Hl, Nat.sub_diag. reflexivity.
  - destruct (Nat.lt_ge_cases k (Z.to_nat i)) as [Hlt | Hge].
    + rewrite app_nth1 by lia. rewrite nth_firstn.
      apply Nat.ltb_lt in Hlt. rewrite Hlt. reflexivity.
    + rewrite app_nth2 by lia. rewrite Hl.
      destruct (k - Z.to_nat i)%nat as [| j] eqn:Hj; [lia|].
      cbn [nth]. rewrite nth_skipn. f_equal. lia.
Qed.

Lemma length_memcpy (dst : list Z) (off : Z) (src : list Z) (from n : Z) :
  (Z.to_nat off + Z.to_nat n <= length dst)%nat ->
  length (memcpy dst off src from n) = length dst.
Proof.
  intros H. unfold memcpy.
  rewrite !length_app, length_firstn, length_bytes_at, length_skipn. lia.
Qed.

Lemma nth_memcpy (dst : list Z) (off : Z) (src : list Z) (from n : Z) (k : nat) :
  (Z.to_nat off <= length dst)%nat ->
  nth k (memcpy dst off src from n) 0 =
    if (k <? Z.to_nat off)%nat then nth k dst 0
    else if (k <? Z.to_nat off + Z.to_nat n)%nat
         then nth (Z.to_nat from + (k - Z.to_nat off)) src 0
         else nth k dst 0.
Proof.
  intros Hoff. unfold memcpy.
  assert (Hl : length (firstn (Z.to_nat off) dst) = Z.to_nat off)
    by (rewrite length_firstn; lia).
  destruct (Nat.ltb_spec k (Z.to_nat off)) as [Hlt | Hge].
  - rewrite app_nth1 by lia. rewrite nth_firstn.
    apply Nat.ltb_lt in Hlt. rewrite Hlt. reflexivity.
  - rewrite app_nth2 by lia. rewrite Hl.
    destruct (Nat.ltb_spec k (Z.to_nat off + Z.to_nat n)) as [Hlt2 | Hge2].
    + rewrite app_nth1 by (rewrite length_bytes_at; lia).
      apply nth_bytes_at. lia.
    + rewrite app_nth2 by (rewrite length_bytes_at; lia).
      rewrite length_bytes_at, nth_skipn. f_equal. lia.
Qed.

(** ** The blocking wait *)

Section Waiting.

Variable deliveries : nat -> list epoll_event.

Lemma nanosleep_quiet (w : world) :
  quiet deliveries ->
  nanosleep deliveries w
    = mk_world (handle w) (transactionIdentifier w) (wire w) (S (sleeps w)).
Proof. intros Hq. unfold nanosleep. rewrite Hq. reflexivity. Qed.

Lemma nanosleep_keeps (w : world) :
  wire (nanosleep deliveries w) = wire w /\
  transactionIdentifier (nanosleep deliveries w) = transactionIdentifier w /\
  sleeps (nanosleep deliveries w) = S (sleeps w).
Proof. unfold nanosleep. simpl. auto. Qed.

(** With nothing delivered, a positive timeout ends the loop after exactly
    [timeout + 2 - counter] sleeps. *)
Lemma WaitForData_loop_quiet (fuel : nat) :
  forall (w : world) (timeout counter : Z),
    quiet deliveries ->
    wait_over (state (handle w)) = false ->
    0 < timeout < SIZE_MAX ->
    0 <= counter <= timeout + 1 ->
    Z.of_nat fuel = timeout + 2 - counter ->
    WaitForData_loop deliveries fuel w timeout counter
      = Some (mk_world (handle w) (transactionIdentifier w) (wire w)
                       (sleeps w + fuel)).
Proof.
  induction fuel as [| fuel IH]; intros w timeout counter Hq Hs Ht Hc Hf.
  - lia.
  - cbn [WaitForData_loop]. rewrite Hs, nanosleep_quiet by exact Hq.
    destruct (Z.ltb_spec 0 timeout) as [_ | ?]; [| lia].
    destruct (Z.ltb_spec timeout counter) as [Hgt | Hle].
    + assert (fuel = O) by lia. subst fuel. f_equal. f_equal. lia.
    + assert (Hsz : size_t (counter + 1) = counter + 1).
      { unfold size_t. apply Z.mod_small. lia. }
      rewrite Hsz, IH; cbn [handle transactionIdentifier wire sleeps];
        try assumption; try lia.
      f_equal. f_equal. lia.
Qed.

(** With nothing delivered and a timeout of 0 the loop is never left. *)
Lemma WaitForData_loop_forever (fuel : nat) :
  forall (w : world) (counter : Z),
    quiet deliveries ->
    wait_over (state (handle w)) = false ->
    WaitForData_loop deliveries fuel w 0 counter = None.
Proof.
  induction fuel as [| fuel IH]; intros w counter Hq Hs.
  - cbn [WaitForData_loop]. rewrite Hs. reflexivity.
  - cbn [WaitForData_loop]. rewrite Hs, nanosleep_quiet by exact Hq.
    cbn [Z.ltb Z.compare]. apply IH; assumption.
Qed.



(** A wait that finds, or comes to find, the handle Disconnected ends with
    [false] and puts the state back to Idle. *)
Lemma WaitForData_on_Disconnected (fuel : nat) (w : world) (timeout : Z) :
  state (handle w) = Disconnected ->
  WaitForData deliveries fuel w timeout
    = Some (false, set_handle w (set_state (handle w) Idle)).
Proof.
  intros Hs. unfold WaitForData.
  assert (E : WaitForData_loop deliveries fuel w timeout 0 = Some w).
  { destruct fuel; cbn [WaitForData_loop]; rewrite Hs; reflexivity. }
  rewrite E, Hs. reflexivity.
Qed.

End Waiting.

(** ** Sending *)

Lemma nth_wr_other (a : list Z) (i v : Z) (k : nat) :
  k <> Z.to_nat i -> nth k (wr a i v) 0 = nth k a 0.
Proof.
  intros H. rewrite nth_wr. apply Nat.eqb_neq in H. rewrite H.
  rewrite andb_false_r. reflexivity.
Qed.

Lemma SendToSlave_wire (send : list Z -> Z) (w : world) (modBusADU : list Z)
    (pduLength : Z) :
  wire (snd (SendToSlave send w modBusADU pduLength))
    = wire w ++ [bytes_at modBusADU 0 pduLength] /\
  sleeps (snd (SendToSlave send w modBusADU pduLength)) = sleeps w.
Proof.
  unfold SendToSlave. cbn [wire handle transactionIdentifier sleeps].
  destruct (pduLength =? send (bytes_at modBusADU 0 pduLength)); cbn; auto.
Qed.

Lemma SendToSlave_accepted (send : list Z -> Z) (w : world) (modBusADU : list Z)
    (pduLength : Z) :
  accepting send -> 0 <= pduLength ->
  SendToSlave send w modBusADU pduLength
    = (true,
       mk_world (set_state (set_transactionId (handle w) (transactionIdentifier w))
                           WaitingForResponse)
                (uint16_t (transactionIdentifier w + 1))
                (wire w ++ [bytes_at modBusADU 0 pduLength]) (sleeps w)).
Proof.
  intros Ha Hp. unfold SendToSlave. rewrite Ha, length_bytes_at.
  rewrite Z2Nat.id by exact Hp. rewrite Z.eqb_refl. reflexivity.
Qed.

(** [ModBusWrite] gives exactly one frame to [send], and the frame carries
    the packet behind the transport header. *)
Lemma ModBusWrite_frame (send : list Z -> Z) (w : world) (modBusPacket : list Z)
    (packetLength : Z) :
  0 <= packetLength <= MAX_PDU_LENGTH ->
  exists frame,
    wire (snd (ModBusWrite send w modBusPacket packetLength)) = wire w ++ [frame] /\
    sleeps (snd (ModBusWrite send w modBusPacket packetLength)) = sleeps w /\
    frame_pdu (type (handle w)) frame packetLength
      = bytes_at modBusPacket 0 packetLength.
Proof.
  intros Hp. unfold MAX_PDU_LENGTH in Hp. unfold ModBusWrite, frame_pdu.
  cbn [handle set_handle type set_pduLength set_state isCFG].
  destruct (type (handle w)); cbn [framing_of transportHeaderLength];
    match goal with
    | |- context [SendToSlave send ?w' ?adu ?n] =>
        destruct (SendToSlave_wire send w' adu n) as [Hw Hs];
        exists (bytes_at adu 0 n); rewrite Hw, Hs;
        cbn [wire sleeps set_handle]; split; [reflexivity | split; [reflexivity|]]
    end;
    apply (nth_ext _ _ 0 0); rewrite ?length_bytes_at; try reflexivity;
    intros k Hk; rewrite !nth_bytes_at;
    unfold TCP_HEADER_LENGTH, CRC_FOOTER_LENGTH, MESSAGE_HEADER_LENGTH,
      PROTOCOL_OFFSET, COMMAND_OFFSET, HEADER_LENGTH_OFFSET, MAX_PDU_LENGTH in *;
    try lia.
  - (* tcp *)
    rewrite !nth_wr_other by lia.
    rewrite nth_memcpy by (unfold array; rewrite repeat_length; lia).
    destruct (Nat.ltb_spec (Z.to_nat 0 + (Z.to_nat 6 + k)) (Z.to_nat 6)); [lia|].
    destruct (Nat.ltb_spec (Z.to_nat 0 + (Z.to_nat 6 + k))
                (Z.to_nat 6 + Z.to_nat packetLength)); [| lia].
    f_equal. lia.
  - (* rtuOverTcp *)
    unfold AddCRC.
    destruct (packetLength + 2 <=? 254); cbn [snd];
      rewrite ?nth_wr_other by lia;
      (rewrite nth_memcpy by (unfold array; rewrite repeat_length; lia));
      destruct (Nat.ltb_spec (Z.to_nat 0 + (Z.to_nat 0 + k)) (Z.to_nat 0));
      try lia;
      destruct (Nat.ltb_spec (Z.to_nat 0 + (Z.to_nat 0 + k))
                  (Z.to_nat 0 + Z.to_nat packetLength)); try lia;
      f_equal; lia.
  - (* rtu *)
    destruct (isCFG (handle w));
      rewrite !nth_wr_other by lia;
      (rewrite nth_memcpy by (unfold array; rewrite repeat_length; lia));
      destruct (Nat.ltb_spec (Z.to_nat 0 + (Z.to_nat 4 + k)) (Z.to_nat 4));
      try lia;
      destruct (Nat.ltb_spec (Z.to_nat 0 + (Z.to_nat 4 + k))
                  (Z.to_nat 4 + Z.to_nat packetLength)); try lia;
      f_equal; lia.
Qed.

Lemma ModBusWrite_accepted (send : list Z -> Z) (w : world) (modBusPacket : list Z)
    (packetLength : Z) :
  accepting send -> 0 <= packetLength ->
  exists frame,
    ModBusWrite send w modBusPacket packetLength
      = (true,
         mk_world (set_state
                     (set_transactionId
                        (set_pduLength (set_state (handle w) SendingRequest) 0)
                        (transactionIdentifier w))
                     WaitingForResponse)
                  (uint16_t (transactionIdentifier w + 1))
                  (wire w ++ [frame]) (sleeps w)).
Proof.
  intros Ha Hp. unfold ModBusWrite.
  cbn [handle set_handle type set_pduLength set_state].
  unfold TCP_HEADER_LENGTH, CRC_FOOTER_LENGTH, MESSAGE_HEADER_LENGTH.
  destruct (type (handle w));
    rewrite SendToSlave_accepted by (assumption || lia);
    eexists; reflexivity.
Qed.

(** ** Timeout of a request *)

(** C7.  A request with a timeout of T milliseconds (0 < T < SIZE_MAX) that
    is sent and never answered returns [false] with MODBUS_TIMEOUT in
    [readArray[0]] and leaves the handle Idle, but after asking [nanosleep]
    for only T + 2 naps of 100000 ns: (T + 2) / 10 milliseconds, which is
    less than T milliseconds for every T.  With a timeout of 0 the wait of
    the same request does not return, whatever the fuel. *)
Theorem request_times_out_after_a_tenth_of_the_timeout
    (DEVICE_DISCONNECTED : Z) (send : list Z -> Z)
    (deliveries : nat -> list epoll_event) (w : world)
    (slaveID address bitsToRead : Z) (readArray : list Z) (timeout : Z) :
  state (handle w) = Idle ->
  accepting send -> quiet deliveries ->
  0 < timeout < SIZE_MAX ->
  (exists w',
      ReadCoils DEVICE_DISCONNECTED send deliveries (Z.to_nat timeout + 2) w
        slaveID address bitsToRead readArray timeout
      = Some (false, wr readArray 0 MODBUS_TIMEOUT, w') /\
      state (handle w') = Idle /\
      slept_ns w' - slept_ns w = (timeout + 2) * 100000 /\
      slept_ns w' - slept_ns w < timeout * 1000000) /\
  (forall fuel,
      ReadCoils DEVICE_DISCONNECTED send deliveries fuel w
        slaveID address bitsToRead readArray 0 = None).
Proof.
  intros Hs Ha Hq Ht. split.
  - unfold ReadCoils. rewrite (not_idle_false _ Hs).
    destruct (ModBusWrite_accepted send
                (set_handle w (set_isCFG (handle w) false))
                (SET_MODBUS_HEADER (array 6) slaveID READ_COILS address bitsToRead)
                6 Ha ltac:(lia)) as (frame & E).
    rewrite E. cbn [negb]. unfold WaitForData.
    rewrite (WaitForData_loop_quiet deliveries (Z.to_nat timeout + 2))
      by (try assumption; try reflexivity; lia).
    cbn [handle state set_state MODBUS_STATE_eqb set_handle
         transactionIdentifier wire sleeps].
    eexists. split; [reflexivity|].
    unfold slept_ns. cbn [handle state set_state sleeps set_handle]. 
    split; [reflexivity|]. split; lia.
  - intros fuel. unfold ReadCoils. rewrite (not_idle_false _ Hs).
    destruct (ModBusWrite_accepted send
                (set_handle w (set_isCFG (handle w) false))
                (SET_MODBUS_HEADER (array 6) slaveID READ_COILS address bitsToRead)
                6 Ha ltac:(lia)) as (frame & E).
    rewrite E. cbn [negb]. unfold WaitForData.
    rewrite WaitForData_loop_forever by (assumption || reflexivity).
    reflexivity.
Qed.

Lemma request_times_out_after_a_tenth_of_the_timeout_witness :
  let w := mk_world (mk_modbus_t tcp 3 0 0 Idle 0 0 false (array 254) (array 254))
                    0 [] 0 in
  exists w',
    ReadCoils 24 (fun frame => Z.of_nat (length frame)) (fun _ => [])
      (Z.to_nat 1000 + 2) w 1 100 4 [0] 1000
    = Some (false, wr [0] 0 MODBUS_TIMEOUT, w') /\
    state (handle w') = Idle /\
    slept_ns w' - slept_ns w = (1000 + 2) * 100000 /\
    slept_ns w' - slept_ns w < 1000 * 1000000.
Proof.
  intro w.
  refine (proj1 (request_times_out_after_a_tenth_of_the_timeout 24
                   (fun frame => Z.of_nat (length frame)) (fun _ => [])
                   w 1 100 4 [0] 1000 _ _ _ _)).
  - reflexivity.
  - intro frame. reflexivity.
  - intro n. reflexivity.
  - vm_compute. split; reflexivity.
Defined.

(** ** Disconnection *)

(** C6.  A TCP handle sends a request; during the first nap of the wait the
    transport reports a hang-up and the epoll thread sets the state to
    Disconnected.  The wait then ends, [WaitForData] sets the state to Idle,
    and the request returns MODBUS_TIMEOUT.  The next request on the same
    handle is not refused with DEVICE_DISCONNECTED: it is given to [send].
    Likewise [PassiveRead] on a handle that is already Disconnected returns
    at once and leaves it Idle. *)
Theorem hang_up_during_wait_leaves_handle_idle (DEVICE_DISCONNECTED : Z) :
  let send := fun frame : list Z => Z.of_nat (length frame) in
  let deliveries := fun n : nat =>
    match n with
    | O => [mk_epoll_event false true None]
    | _ => []
    end in
  let w0 := mk_world (mk_modbus_t tcp 3 0 0 Idle 0 0 false (array 254) (array 254))
                     0 [] 0 in
  exists sent w1 w2,
    ModBusWrite send w0 (SET_MODBUS_HEADER (array 6) 1 READ_COILS 100 4) 6
      = (true, sent) /\
    state (handle (nanosleep deliveries sent)) = Disconnected /\
    ReadCoils DEVICE_DISCONNECTED send deliveries 1 w0 1 100 4 [0] 1000
      = Some (false, [MODBUS_TIMEOUT], w1) /\
    state (handle w1) = Idle /\
    ReadCoils DEVICE_DISCONNECTED send deliveries 1002 w1 1 100 4 [0] 1000
      = Some (false, [MODBUS_TIMEOUT], w2) /\
    length (wire w2) = 2%nat /\
    forall (fuel : nat) (timeout : Z),
      PassiveRead (fun _ => []) fuel
        (set_handle w0 (set_state (handle w0) Disconnected)) [0] 1 timeout
      = Some (false, [MODBUS_TIMEOUT], w0).
Proof.
  intros send deliveries w0.
  eexists. eexists. eexists.
  split; [vm_compute; reflexivity|].
  split; [vm_compute; reflexivity|].
  split; [vm_compute; reflexivity|].
  split; [vm_compute; reflexivity|].
  split; [vm_compute; reflexivity|].
  split; [vm_compute; reflexivity|].
  intros fuel timeout. unfold PassiveRead.
  rewrite WaitForData_on_Disconnected by reflexivity. reflexivity.
Qed.

(** ** File requests *)



Lemma uint16_small (x : Z) : 0 <= x < 65536 -> uint16_t x = x.
Proof. intros H. unfold uint16_t. apply Z.mod_small. exact H. Qed.



(** ** CRC16 *)

Ltac bitwise :=
  apply Z.bits_inj'; intros k Hk;
  repeat rewrite ?Z.lxor_spec, ?Z.land_spec, ?Z.lor_spec, ?Z.testbit_mod_pow2,
    ?Z.testbit_ones_nonneg by lia.

Lemma split_bytes (c : Z) :
  Z.lor (Z.land c 0xFF) (Z.shiftl (Z.shiftr c 8) 8) = c.
Proof.
  change 0xFF with (Z.ones 8). bitwise.
  destruct (Z.ltb_spec k 8).
  - rewrite Z.shiftl_spec_low by lia. rewrite andb_true_r, orb_false_r. reflexivity.
  - rewrite Z.shiftl_spec, Z.shiftr_spec by lia.
    rewrite andb_false_r. cbn [orb]. f_equal. lia.
Qed.

Lemma join_low (lo hi : Z) :
  is_byte lo -> Z.land (Z.lor lo (Z.shiftl hi 8)) 0xFF = lo.
Proof.
  intros Hlo. rewrite <- (Z.mod_small lo (2 ^ 8)) by exact Hlo.
  change 0xFF with (Z.ones 8). bitwise.
  destruct (Z.ltb_spec k 8).
  - rewrite Z.shiftl_spec_low by lia. cbn. rewrite andb_true_r, orb_false_r. reflexivity.
  - rewrite andb_false_r. reflexivity.
Qed.

Lemma join_high (lo hi : Z) :
  is_byte lo -> Z.shiftr (Z.lor lo (Z.shiftl hi 8)) 8 = hi.
Proof.
  intros Hlo. rewrite <- (Z.mod_small lo (2 ^ 8)) by exact Hlo.
  apply Z.bits_inj'; intros k Hk.
  rewrite Z.shiftr_spec, Z.lor_spec, Z.testbit_mod_pow2, Z.shiftl_spec by lia.
  destruct (Z.ltb_spec (k + 8) 8); [lia|]. cbn [andb orb]. f_equal. lia.
Qed.

Lemma lxor_range (a b : Z) :
  0 <= a < 65536 -> 0 <= b < 65536 -> 0 <= Z.lxor a b < 65536.
Proof.
  intros Ha Hb.
  assert (E : Z.lxor a b = Z.lxor a b mod 2 ^ 16).
  { rewrite <- (Z.mod_small a (2 ^ 16)) at 1 by exact Ha.
    rewrite <- (Z.mod_small b (2 ^ 16)) at 1 by exact Hb.
    bitwise. destruct (k <? 16), (Z.testbit a k), (Z.testbit b k); reflexivity. }
  rewrite E. apply Z.mod_pos_bound. reflexivity.
Qed.

Lemma lxor_cancel_r (a b x : Z) : Z.lxor a x = Z.lxor b x -> a = b.
Proof.
  intros H.
  assert (Ha : Z.lxor (Z.lxor a x) x = a)
    by (rewrite Z.lxor_assoc, Z.lxor_nilpotent, Z.lxor_0_r; reflexivity).
  assert (Hb : Z.lxor (Z.lxor b x) x = b)
    by (rewrite Z.lxor_assoc, Z.lxor_nilpotent, Z.lxor_0_r; reflexivity).
  rewrite <- Ha, H, Hb. reflexivity.
Qed.

Lemma lxor_cancel_l (a b x : Z) : Z.lxor x a = Z.lxor x b -> a = b.
Proof. rewrite !(Z.lxor_comm x). apply lxor_cancel_r. Qed.

(** Facts about the table, checked over its 256 indices. *)
Lemma CRCTable_length : length CRCTable = 256%nat.
Proof. reflexivity. Qed.

Lemma CRCTable_scan :
  forallb (fun i => let x := nth i CRCTable 0 in
                    (0 <=? x) && (x <? 65536) &&
                    Nat.eqb (high_byte_index (Z.shiftr x 8)) i)
          (seq 0 256) = true.
Proof. vm_compute. reflexivity. Qed.

Lemma CRCTable_entry (t : Z) :
  0 <= t < 256 ->
  (0 <= rd CRCTable t < 65536) /\
  (high_byte_index (Z.shiftr (rd CRCTable t) 8) = Z.to_nat t).
Proof.
  intros Ht. pose proof CRCTable_scan as H.
  rewrite forallb_forall in H.
  specialize (H (Z.to_nat t)). cbv zeta in H.
  assert (Hin : In (Z.to_nat t) (seq 0 256)) by (apply in_seq; lia).
  apply H in Hin. apply andb_prop in Hin. destruct Hin as [Hr Hi].
  apply andb_prop in Hr. destruct Hr as [H0 H1].
  unfold rd. split; [lia|]. apply Nat.eqb_eq. exact Hi.
Qed.

Lemma uint8_range (x : Z) : 0 <= uint8_t x < 256.
Proof. unfold uint8_t. apply Z.mod_pos_bound. reflexivity. Qed.

Lemma crc_step_range (c b : Z) : 0 <= c < 65536 -> 0 <= crc_step c b < 65536.
Proof.
  intros Hc. unfold crc_step. apply lxor_range.
  - rewrite Z.shiftr_div_pow2 by lia. change (2 ^ 8) with 256.
    split; [apply Z.div_pos; lia|]. apply Z.div_lt_upper_bound; lia.
  - apply CRCTable_entry. apply uint8_range.
Qed.

Lemma shiftr8_small (h : Z) : 0 <= h < 256 -> Z.shiftr h 8 = 0.
Proof. intros H. rewrite Z.shiftr_div_pow2 by lia. apply Z.div_small. exact H. Qed.

Lemma high_byte_small (c : Z) : 0 <= c < 65536 -> 0 <= Z.shiftr c 8 < 256.
Proof.
  intros Hc. rewrite Z.shiftr_div_pow2 by lia. change (2 ^ 8) with 256.
  split; [apply Z.div_pos; lia|]. apply Z.div_lt_upper_bound; lia.
Qed.

(** The table index and the high byte of the old CRC can be read back from
    one turn's result. *)
Lemma crc_step_index (c1 b1 c2 b2 : Z) :
  0 <= c1 < 65536 -> 0 <= c2 < 65536 ->
  crc_step c1 b1 = crc_step c2 b2 ->
  (uint8_t (Z.lxor b1 c1) = uint8_t (Z.lxor b2 c2)) /\
  (Z.shiftr c1 8 = Z.shiftr c2 8).
Proof.
  intros H1 H2 E. unfold crc_step in E.
  assert (Ht : uint8_t (Z.lxor b1 c1) = uint8_t (Z.lxor b2 c2)).
  { pose proof (f_equal (fun x => Z.shiftr x 8) E) as E8. cbv beta in E8.
    rewrite !Z.shiftr_lxor in E8.
    rewrite !(shiftr8_small (Z.shiftr _ 8)) in E8 by (apply high_byte_small; assumption).
    rewrite !Z.lxor_0_l in E8.
    destruct (CRCTable_entry (uint8_t (Z.lxor b1 c1)) (uint8_range _)) as [_ I1].
    destruct (CRCTable_entry (uint8_t (Z.lxor b2 c2)) (uint8_range _)) as [_ I2].
    rewrite E8 in I1. rewrite I1 in I2.
    pose proof (uint8_range (Z.lxor b1 c1)). pose proof (uint8_range (Z.lxor b2 c2)).
    lia. }
  split; [exact Ht|]. rewrite Ht in E. apply lxor_cancel_r in E. exact E.
Qed.

Lemma uint8_lxor (b c : Z) : uint8_t (Z.lxor b c) = Z.lxor (uint8_t b) (uint8_t c).
Proof.
  unfold uint8_t. change 256 with (2 ^ 8). bitwise.
  destruct (k <? 8), (Z.testbit b k), (Z.testbit c k); reflexivity.
Qed.

Lemma crc_step_inj_byte (c b1 b2 : Z) :
  0 <= c < 65536 -> is_byte b1 -> is_byte b2 ->
  crc_step c b1 = crc_step c b2 -> b1 = b2.
Proof.
  intros Hc Hb1 Hb2 E. destruct (crc_step_index c b1 c b2 Hc Hc E) as [Ht _].
  rewrite !uint8_lxor in Ht. apply lxor_cancel_r in Ht.
  unfold uint8_t in Ht. rewrite !Z.mod_small in Ht by assumption. exact Ht.
Qed.

Lemma crc_step_inj_crc (c1 c2 b : Z) :
  0 <= c1 < 65536 -> 0 <= c2 < 65536 ->
  crc_step c1 b = crc_step c2 b -> c1 = c2.
Proof.
  intros H1 H2 E. destruct (crc_step_index c1 b c2 b H1 H2 E) as [Ht Hh].
  rewrite !uint8_lxor in Ht. apply lxor_cancel_l in Ht. unfold uint8_t in Ht.
  rewrite !Z.shiftr_div_pow2 in Hh by lia. change (2 ^ 8) with 256 in Hh.
  rewrite (Z.div_mod c1 256), (Z.div_mod c2 256) by lia. congruence.
Qed.

Lemma bytes_at_S (src : list Z) (from : Z) (n : nat) :
  0 <= from ->
  bytes_at src from (Z.of_nat (S n))
    = rd src from :: bytes_at src (from + 1) (Z.of_nat n).
Proof.
  intros Hf. unfold bytes_at, rd. rewrite !Nat2Z.id.
  cbn [seq map]. rewrite Nat.add_0_r. f_equal.
  rewrite <- seq_shift, map_map. apply map_ext. intros k.
  f_equal. lia.
Qed.

Lemma GetCRC_loop_fold (message : list Z) (todo : nat) :
  forall (i crcVal : Z),
    0 <= i ->
    GetCRC_loop message i todo crcVal
      = fold_left crc_step (bytes_at message i (Z.of_nat todo)) crcVal.
Proof.
  induction todo as [| todo IH]; intros i crcVal Hi.
  - reflexivity.
  - rewrite bytes_at_S by exact Hi. cbn [GetCRC_loop fold_left].
    apply IH. lia.
Qed.

Lemma GetCRC_fold (message : list Z) (inputLength : Z) :
  0 <= inputLength ->
  GetCRC message inputLength
    = fold_left crc_step (bytes_at message 0 inputLength) 0xFFFF.
Proof.
  intros H. unfold GetCRC. rewrite GetCRC_loop_fold by lia.
  rewrite Z2Nat.id by exact H. reflexivity.
Qed.

Lemma fold_crc_range (l : list Z) :
  forall c, 0 <= c < 65536 -> 0 <= fold_left crc_step l c < 65536.
Proof.
  induction l as [| b l IH]; intros c Hc; [exact Hc|].
  cbn [fold_left]. apply IH. apply crc_step_range. exact Hc.
Qed.

Lemma GetCRC_range (message : list Z) (inputLength : Z) :
  0 <= GetCRC message inputLength < 65536.
Proof.
  unfold GetCRC.
  generalize 0 at 2 3. generalize (Z.to_nat inputLength). 
  assert (H : 0 <= 0xFFFF < 65536) by lia. revert H. generalize 0xFFFF.
  intros c Hc n. revert c Hc.
  induction n as [| n IH]; intros c Hc i; [exact Hc|].
  cbn [GetCRC_loop]. apply IH. apply crc_step_range. exact Hc.
Qed.

Lemma fold_crc_inj (l : list Z) :
  forall c1 c2, 0 <= c1 < 65536 -> 0 <= c2 < 65536 ->
    fold_left crc_step l c1 = fold_left crc_step l c2 -> c1 = c2.
Proof.
  induction l as [| b l IH]; intros c1 c2 H1 H2 E; [exact E|].
  cbn [fold_left] in E.
  apply IH in E; try (apply crc_step_range; assumption).
  apply crc_step_inj_crc in E; assumption.
Qed.

(** A single changed byte changes the CRC. *)
Lemma fold_crc_one_byte (pre post : list Z) (x v : Z) :
  is_byte x -> is_byte v -> x <> v ->
  fold_left crc_step (pre ++ x :: post) 0xFFFF
    <> fold_left crc_step (pre ++ v :: post) 0xFFFF.
Proof.
  intros Hx Hv Hne E. rewrite !fold_left_app in E. cbn [fold_left] in E.
  assert (Hc : 0 <= fold_left crc_step pre 0xFFFF < 65536)
    by (apply fold_crc_range; lia).
  apply fold_crc_inj in E; try (apply crc_step_range; exact Hc).
  apply crc_step_inj_byte in E; try assumption. contradiction.
Qed.

Lemma rd_wr_same (a : list Z) (i v : Z) :
  0 <= i < Z.of_nat (length a) -> rd (wr a i v) i = v.
Proof.
  intros Hi. unfold rd. rewrite nth_wr.
  destruct (Z.leb_spec 0 i); [| lia].
  destruct (Z.ltb_spec i (Z.of_nat (length a))); [| lia].
  rewrite Nat.eqb_refl. reflexivity.
Qed.

Lemma rd_wr_other (a : list Z) (i j v : Z) :
  0 <= i -> 0 <= j -> i <> j -> rd (wr a i v) j = rd a j.
Proof. intros Hi Hj Hne. unfold rd. apply nth_wr_other. lia. Qed.

Lemma bytes_at_wr_outside (a : list Z) (i v n : Z) :
  0 <= n <= i -> bytes_at (wr a i v) 0 n = bytes_at a 0 n.
Proof.
  intros Hi. apply (nth_ext _ _ 0 0).
  - rewrite !length_bytes_at. reflexivity.
  - intros k Hk. rewrite length_bytes_at in Hk.
    rewrite !nth_bytes_at by exact Hk. apply nth_wr_other. lia.
Qed.

Lemma bytes_at_wr_inside (a : list Z) (i v n : Z) :
  0 <= i < n -> n <= Z.of_nat (length a) ->
  bytes_at (wr a i v) 0 n
    = firstn (Z.to_nat i) (bytes_at a 0 n) ++ v
        :: skipn (S (Z.to_nat i)) (bytes_at a 0 n).
Proof.
  intros Hi Hn.
  assert (E : firstn (Z.to_nat i) (bytes_at a 0 n) ++ v
                :: skipn (S (Z.to_nat i)) (bytes_at a 0 n)
              = wr (bytes_at a 0 n) i v).
  { unfold wr. rewrite length_bytes_at.
    destruct (Z.leb_spec 0 i); [| lia].
    destruct (Z.ltb_spec i (Z.of_nat (Z.to_nat n))); [reflexivity | lia]. }
  rewrite E. apply (nth_ext _ _ 0 0).
  - rewrite length_wr, !length_bytes_at. reflexivity.
  - intros k Hk. rewrite length_bytes_at in Hk.
    rewrite nth_bytes_at by exact Hk. rewrite !nth_wr.
    rewrite length_bytes_at, nth_bytes_at by exact Hk.
    destruct (Z.leb_spec 0 i); [| lia].
    destruct (Z.ltb_spec i (Z.of_nat (length a))); [| lia].
    destruct (Z.ltb_spec i (Z.of_nat (Z.to_nat n))); [| lia].
    reflexivity.
Qed.

Lemma split_at_nth (l : list Z) (i : nat) :
  (i < length l)%nat -> l = firstn i l ++ nth i l 0 :: skipn (S i) l.
Proof.
  revert i. induction l as [| x l IH]; intros i Hi; [cbn in Hi; lia|].
  destruct i as [| i]; [reflexivity|].
  cbn [firstn nth skipn app]. f_equal. apply IH. cbn in Hi. lia.
Qed.

Lemma is_byte_rd (a : list Z) (i : Z) : Forall is_byte a -> is_byte (rd a i).
Proof.
  intros H. unfold rd.
  destruct (Nat.lt_ge_cases (Z.to_nat i) (length a)) as [Hlt | Hge].
  - rewrite Forall_forall in H. apply H. apply nth_In. exact Hlt.
  - rewrite nth_overflow by exact Hge. unfold is_byte. lia.
Qed.

Lemma CRCTable_from_polynomial :
  CRCTable = map (fun i => crc_bits 8 (Z.of_nat i)) (seq 0 256).
Proof. vm_compute. reflexivity. Qed.

(** C5.  For an array of bytes holding a message of [inputLength] bytes with
    room for two more: when [inputLength + 2] fits the stated capacity,
    [AddCRC] succeeds and puts the CRC16 of the message behind it, low byte
    first; the [inputLength + 2] bytes then pass [ValidateCRC], and with any
    one of them changed to another byte value they fail it.  When the stated
    capacity is less than [inputLength + 2], [AddCRC] returns [false] and
    leaves the array alone.  The CRC is the table-driven one started from
    0xFFFF, and the table is the one of the reflected polynomial 0xA001. *)
Theorem AddCRC_ValidateCRC_round_trip
    (message : list Z) (inputLength maxInputLength : Z) :
  Forall is_byte message ->
  0 <= inputLength ->
  inputLength + 2 <= Z.of_nat (length message) ->
  let crcVal := GetCRC message inputLength in
  (inputLength + 2 <= maxInputLength ->
   exists message',
     AddCRC message inputLength maxInputLength = (true, message') /\
     bytes_at message' 0 (inputLength + 2)
       = bytes_at message 0 inputLength ++ [Z.land crcVal 0xFF; Z.shiftr crcVal 8] /\
     ValidateCRC message' (inputLength + 2) = true /\
     forall i v,
       0 <= i < inputLength + 2 -> is_byte v -> v <> rd message' i ->
       ValidateCRC (wr message' i v) (inputLength + 2) = false) /\
  (maxInputLength < inputLength + 2 ->
   AddCRC message inputLength maxInputLength = (false, message)) /\
  crcVal = fold_left crc_step (bytes_at message 0 inputLength) 0xFFFF /\
  CRCTable = map (fun i => crc_bits 8 (Z.of_nat i)) (seq 0 256).
Proof.
  intros Hbytes Hn Hlen crcVal.
  assert (Hcrc : 0 <= crcVal < 65536) by apply GetCRC_range.
  assert (Hlo : uint8_t (Z.land crcVal 0xFF) = Z.land crcVal 0xFF).
  { unfold uint8_t. apply Z.mod_small. change 0xFF with (Z.ones 8).
    rewrite Z.land_ones by lia. apply Z.mod_pos_bound. reflexivity. }
  assert (Hhi : uint8_t (Z.shiftr crcVal 8) = Z.shiftr crcVal 8).
  { unfold uint8_t. apply Z.mod_small. apply high_byte_small. exact Hcrc. }
  assert (Hlob : is_byte (Z.land crcVal 0xFF)).
  { rewrite <- Hlo. apply uint8_range. }
  split; [| split; [| split]].
  - intros Hmax.
    set (lo := Z.land crcVal 0xFF) in *. set (hi := Z.shiftr crcVal 8) in *.
    set (message' := wr (wr message inputLength lo) (inputLength + 1) hi).
    assert (Hadd : AddCRC message inputLength maxInputLength = (true, message')).
    { unfold AddCRC. destruct (Z.leb_spec (inputLength + 2) maxInputLength); [| lia].
      fold crcVal. fold lo. fold hi. rewrite Hlo, Hhi. reflexivity. }
    assert (Hrlo : rd message' inputLength = lo).
    { unfold message'. rewrite rd_wr_other by lia. apply rd_wr_same. lia. }
    assert (Hrhi : rd message' (inputLength + 1) = hi).
    { unfold message'. apply rd_wr_same. rewrite length_wr. lia. }
    assert (Hdata : bytes_at message' 0 inputLength = bytes_at message 0 inputLength).
    { unfold message'. rewrite !bytes_at_wr_outside by lia. reflexivity. }
    assert (Hlen' : length message' = length message).
    { unfold message'. rewrite !length_wr. reflexivity. }
    assert (Hstored : Z.lor lo (Z.shiftl hi 8) = crcVal) by apply split_bytes.
    assert (Hval : forall m,
               ValidateCRC m (inputLength + 2)
               = (fold_left crc_step (bytes_at m 0 inputLength) 0xFFFF
                  =? Z.lor (rd m inputLength) (Z.shiftl (rd m (inputLength + 1)) 8))).
    { intros m. unfold ValidateCRC.
      destruct (Z.leb_spec 2 (inputLength + 2)); [| lia]. cbn [andb].
      replace (inputLength + 2 - 2) with inputLength by lia.
      replace (inputLength + 2 - 1) with (inputLength + 1) by lia.
      rewrite GetCRC_fold by exact Hn. reflexivity. }
    assert (Hfold : fold_left crc_step (bytes_at message 0 inputLength) 0xFFFF = crcVal).
    { unfold crcVal. rewrite GetCRC_fold by exact Hn. reflexivity. }
    exists message'. split; [exact Hadd|]. split; [| split].
    + apply (nth_ext _ _ 0 0).
      * rewrite length_app, !length_bytes_at. cbn [length]. lia.
      * intros k Hk. rewrite length_bytes_at in Hk.
        rewrite nth_bytes_at by exact Hk. change (Z.to_nat 0 + k)%nat with k.
        destruct (Nat.lt_ge_cases k (Z.to_nat inputLength)) as [Hlt | Hge].
        -- rewrite app_nth1 by (rewrite length_bytes_at; exact Hlt).
           rewrite <- Hdata. rewrite nth_bytes_at by exact Hlt. reflexivity.
        -- rewrite app_nth2 by (rewrite length_bytes_at; exact Hge).
           rewrite length_bytes_at.
           destruct (Nat.eq_dec k (Z.to_nat inputLength)) as [-> | Hne].
           ++ rewrite Nat.sub_diag. exact Hrlo.
           ++ replace (k - Z.to_nat inputLength)%nat with 1%nat by lia.
              replace k with (Z.to_nat (inputLength + 1)) by lia. exact Hrhi.
    + rewrite Hval, Hdata, Hfold, Hrlo, Hrhi, Hstored. apply Z.eqb_refl.
    + intros i v Hi Hv Hne. rewrite Hval. apply Z.eqb_neq.
      destruct (Z.lt_ge_cases i inputLength) as [Hin | Hout].
      * (* a changed data byte *)
        rewrite !rd_wr_other by lia. rewrite Hrlo, Hrhi, Hstored, <- Hfold.
        rewrite bytes_at_wr_inside by lia. rewrite Hdata.
        assert (Hx : rd message' i = nth (Z.to_nat i) (bytes_at message 0 inputLength) 0).
        { rewrite <- Hdata. rewrite nth_bytes_at by lia. reflexivity. }
        rewrite (split_at_nth (bytes_at message 0 inputLength) (Z.to_nat i)) at 3
          by (rewrite length_bytes_at; lia).
        rewrite <- Hx. intros E. symmetry in E. revert E.
        apply fold_crc_one_byte; [| exact Hv | congruence].
        unfold message'. rewrite !rd_wr_other by lia.
        apply is_byte_rd. exact Hbytes.
      * (* a changed trailer byte *)
        rewrite bytes_at_wr_outside by lia. rewrite Hdata, Hfold, <- Hstored.
        destruct (Z.eq_dec i inputLength) as [-> | Hi'].
        -- rewrite rd_wr_same by lia. rewrite rd_wr_other, Hrhi by lia.
           intros E. apply (f_equal (fun x => Z.land x 0xFF)) in E.
           rewrite !join_low in E by assumption. rewrite Hrlo in Hne. congruence.
        -- assert (i = inputLength + 1) by lia. subst i.
           rewrite rd_wr_same by lia. rewrite rd_wr_other, Hrlo by lia.
           intros E. apply (f_equal (fun x => Z.shiftr x 8)) in E.
           rewrite !join_high in E by assumption. rewrite Hrhi in Hne. congruence.
  - intros Hmax. unfold AddCRC.
    destruct (Z.leb_spec (inputLength + 2) maxInputLength); [lia | reflexivity].
  - unfold crcVal. apply GetCRC_fold. exact Hn.
  - exact CRCTable_from_polynomial.
Qed.

Lemma AddCRC_ValidateCRC_round_trip_witness :
  exists message',
    AddCRC [1; 3; 0; 0; 0; 10; 0; 0] 6 8 = (true, message') /\
    bytes_at message' 0 (6 + 2)
      = bytes_at [1; 3; 0; 0; 0; 10; 0; 0] 0 6
          ++ [Z.land (GetCRC [1; 3; 0; 0; 0; 10; 0; 0] 6) 0xFF;
              Z.shiftr (GetCRC [1; 3; 0; 0; 0; 10; 0; 0] 6) 8] /\
    ValidateCRC message' (6 + 2) = true /\
    forall i v,
      0 <= i < 6 + 2 -> is_byte v -> v <> rd message' i ->
      ValidateCRC (wr message' i v) (6 + 2) = false.
Proof.
  refine (proj1 (AddCRC_ValidateCRC_round_trip [1; 3; 0; 0; 0; 10; 0; 0] 6 8
                   _ _ _) _).
  - repeat constructor; unfold is_byte; lia.
  - lia.
  - simpl. lia.
  - lia.
Defined.

(** ** Reassembly of a frame delivered in pieces *)

Lemma GetFcodeLength_range (fCode dataLength : Z) :
  0 <= GetFcodeLength fCode dataLength < 65536.
Proof.
  unfold GetFcodeLength, uint16_t.
  pose proof (Z.mod_pos_bound (PDU_HEADER_LENGTH + dataLength) 65536 eq_refl).
  repeat match goal with
         | |- context [if ?c then _ else _] => destruct c
         end; try assumption; vm_compute; split; congruence.
Qed.

Lemma memcpy_at_end (data tail chunk : list Z) :
  memcpy (data ++ tail) (Z.of_nat (length data)) chunk 0 (Z.of_nat (length chunk))
    = data ++ chunk ++ skipn (length chunk) tail.
Proof.
  unfold memcpy. rewrite !Nat2Z.id, bytes_at_all.
  rewrite firstn_app, firstn_all, Nat.sub_diag. cbn [firstn].
  rewrite app_nil_r. f_equal. f_equal.
  rewrite skipn_app, skipn_all2 by lia.
  cbn [app]. f_equal. lia.
Qed.

Lemma buffered_nil (hndl : modbus_t) :
  bufferedMessageLength hndl = 0 -> buffered hndl [] = hndl.
Proof. intros H. destruct hndl. cbn in *. subst. reflexivity. Qed.

(** The write half of [MessageHandler] on accumulated data. *)
Lemma MessageHandler_buffered (hndl : modbus_t) (data chunk : list Z) :
  state hndl = WaitingForResponse ->
  Z.of_nat (length data) + Z.of_nat (length chunk) < MAX_PDU_LENGTH ->
  MessageHandler (buffered hndl data) chunk (Z.of_nat (length chunk))
    = MessageHandler_read (buffered hndl (data ++ chunk)).
Proof.
  intros Hs Hlen. unfold MessageHandler.
  replace (state (buffered hndl data)) with WaitingForResponse
    by (symmetry; exact Hs).
  cbn [MODBUS_STATE_eqb negb].
  replace (bufferedMessageLength (buffered hndl data)) with (Z.of_nat (length data))
    by reflexivity.
  destruct (Z.ltb_spec (Z.of_nat (length data) + Z.of_nat (length chunk)) MAX_PDU_LENGTH);
    [| lia].
  cbn [negb]. f_equal.
  unfold buffered, set_bufferedMessageLength, set_bufferedMessage.
  cbn [type fd transactionId lastTransactionId state bufferedMessageLength
       pduLength isCFG bufferedMessage pdu].
  rewrite memcpy_at_end, skipn_skipn, length_app, <- app_assoc, Nat2Z.inj_add.
  unfold MAX_PDU_LENGTH in Hlen.
  unfold uint16_t. rewrite Z.mod_small by lia.
  rewrite (Nat.add_comm (length chunk)). reflexivity.
Qed.

Lemma rd_app_l (data tail : list Z) (k : Z) :
  0 <= k < Z.of_nat (length data) -> rd (data ++ tail) k = rd data k.
Proof. intros H. unfold rd. apply app_nth1. lia. Qed.

Lemma uint16_GetFcodeLength (fCode dataLength : Z) :
  uint16_t (GetFcodeLength fCode dataLength) = GetFcodeLength fCode dataLength.
Proof. apply uint16_small. apply GetFcodeLength_range. Qed.

(** While only a proper part of the frame has arrived, the read half leaves
    the handle as it is and answers [waiting]. *)
Lemma MessageHandler_read_pending (hndl : modbus_t) (data rest : list Z) :
  type hndl <> rtu ->
  isCFG hndl = false ->
  complete_frame hndl (data ++ rest) ->
  rest <> [] ->
  MessageHandler_read (buffered hndl data) = (waiting, buffered hndl data).
Proof.
  intros Ht Hcfg (Hmin & Htotal & _ & _) Hrest.
  assert (Hlen : Z.of_nat (length data) < Z.of_nat (length (data ++ rest))).
  { rewrite length_app. destruct rest; [congruence | cbn [length]; lia]. }
  unfold MessageHandler_read.
  replace (type (buffered hndl data)) with (type hndl) by reflexivity.
  replace (isCFG (buffered hndl data)) with (isCFG hndl) by reflexivity.
  replace (bufferedMessageLength (buffered hndl data))
    with (Z.of_nat (length data)) by reflexivity.
  replace (bufferedMessage (buffered hndl data))
    with (data ++ skipn (length data) (bufferedMessage hndl)) by reflexivity.
  rewrite Hcfg, uint16_GetFcodeLength.
  match goal with
  | |- context [if ?c then (?a, ?b) else (0, false)] =>
      assert (Hb : (if c then (a, b) else (0, false))
                   = ((if c then a else 0), false))
  end.
  { destruct (type hndl); [| | congruence];
      cbn [framing_of minLength fCodeOffset pduLengthOffset transportHeaderLength
           transportFooterLength is_rtu orb] in *;
      unfold TCP_HEADER_LENGTH, PDU_HEADER_LENGTH, CRC_FOOTER_LENGTH in *;
      match goal with
      | |- (if ?c then _ else _) = _ => destruct c eqn:Hc
      end; try reflexivity;
      rewrite orb_false_r in Hc; apply Z.leb_le in Hc; f_equal; apply Z.leb_gt;
      rewrite !rd_app_l by lia; rewrite !rd_app_l in Htotal by lia; lia. }
  rewrite Hb. reflexivity.
Qed.

Lemma bytes_at_app_l (data tail : list Z) (n : Z) :
  n <= Z.of_nat (length data) -> bytes_at (data ++ tail) 0 n = bytes_at data 0 n.
Proof.
  intros Hn. apply (nth_ext _ _ 0 0).
  - rewrite !length_bytes_at. reflexivity.
  - intros k Hk. rewrite length_bytes_at in Hk.
    rewrite !nth_bytes_at by exact Hk. apply app_nth1. lia.
Qed.

(** [ValidateCRC] looks at the first [inputLength] bytes only. *)
Lemma ValidateCRC_prefix (data tail : list Z) (inputLength : Z) :
  inputLength <= Z.of_nat (length data) ->
  ValidateCRC (data ++ tail) inputLength = ValidateCRC data inputLength.
Proof.
  intros Hn. unfold ValidateCRC.
  destruct (Z.leb_spec 2 inputLength) as [H2 | H2]; [| reflexivity].
  cbn [andb]. rewrite !GetCRC_fold by lia.
  rewrite bytes_at_app_l, !rd_app_l by lia. reflexivity.
Qed.


Lemma MessageHandler_read_complete (hndl : modbus_t) (frame : list Z) :
  type hndl <> rtu ->
  isCFG hndl = false ->
  complete_frame hndl frame ->
  let f := framing_of (type hndl) in
  let pduMessageLength :=
    GetFcodeLength (rd frame (fCodeOffset f)) (rd frame (pduLengthOffset f)) in
  let buffer := frame ++ skipn (length frame) (bufferedMessage hndl) in
  MessageHandler_read (buffered hndl frame)
    = (success,
       set_bufferedMessageLength
         (set_pdu
            (set_lastTransactionId
               (set_pduLength (buffered hndl frame) pduMessageLength)
               (uint16_t (Z.lor (Z.shiftl (rd buffer 0) 8) (rd buffer 1))))
            (memcpy (pdu hndl) 0 buffer (transportHeaderLength f) pduMessageLength))
         0).
Proof.
  intros Ht Hcfg (Hmin & Htotal & Htx & Hcrc) f pml buffer.
  unfold MessageHandler_read.
  replace (type (buffered hndl frame)) with (type hndl) by reflexivity.
  replace (isCFG (buffered hndl frame)) with (isCFG hndl) by reflexivity.
  replace (bufferedMessageLength (buffered hndl frame))
    with (Z.of_nat (length frame)) by reflexivity.
  replace (bufferedMessage (buffered hndl frame)) with buffer by reflexivity.
  replace (transactionId (buffered hndl frame)) with (transactionId hndl) by reflexivity.
  replace (lastTransactionId (buffered hndl frame)) with (lastTransactionId hndl) by reflexivity.
  rewrite Hcfg, uint16_GetFcodeLength.
  unfold pml, f in *. clear pml f.
  assert (Hrd : forall k, 0 <= k < Z.of_nat (length frame) -> rd buffer k = rd frame k).
  { intros k Hk. unfold buffer. apply rd_app_l. exact Hk. }
  unfold MAX_PDU_LENGTH in Hmin.
  destruct (type hndl); [| | congruence];
    cbn [framing_of minLength fCodeOffset pduLengthOffset transportHeaderLength
         transportFooterLength checkTransaction checkCRC is_rtu] in *;
    unfold TCP_HEADER_LENGTH, PDU_HEADER_LENGTH, CRC_FOOTER_LENGTH in *;
    rewrite !Hrd by lia;
    match goal with
    | |- context [GetFcodeLength ?a ?b] => set (pml := GetFcodeLength a b) in *
    end.
  - (* tcp *)
    assert (H1 : (6 + 3 <=? Z.of_nat (length frame)) = true) by (apply Z.leb_le; lia).
    assert (H2 : (pml + 6 + 0 <=? Z.of_nat (length frame)) = true)
      by (apply Z.leb_le; lia).
    assert (H3 : (pml <=? MAX_PDU_LENGTH) = true)
      by (apply Z.leb_le; unfold MAX_PDU_LENGTH; lia).
    rewrite H1, H2, (Htx eq_refl). cbn [orb].
    unfold transactionCheck. rewrite Z.eqb_refl. cbn [negb andb].
    rewrite H3. cbn [negb andb].
    cbn [bufferedMessageLength set_pdu set_lastTransactionId set_pduLength buffered
         set_bufferedMessageLength set_bufferedMessage bufferedMessage pdu].
    replace (Z.of_nat (length frame) - (pml + 6 + 0)) with 0 by lia.
    reflexivity.
  - (* rtuOverTcp *)
    assert (H1 : (2 + 3 <=? Z.of_nat (length frame)) = true) by (apply Z.leb_le; lia).
    assert (H2 : (pml + 0 + 2 <=? Z.of_nat (length frame)) = true)
      by (apply Z.leb_le; lia).
    assert (H3 : (pml <=? MAX_PDU_LENGTH) = true)
      by (apply Z.leb_le; unfold MAX_PDU_LENGTH; lia).
    assert (H4 : ValidateCRC buffer (pml + 2) = true).
    { rewrite <- (Hcrc eq_refl). unfold buffer. apply ValidateCRC_prefix. lia. }
    rewrite H1, H2. cbn [orb].
    rewrite H3, H4. cbn [negb andb].
    cbn [bufferedMessageLength set_pdu set_lastTransactionId set_pduLength buffered
         set_bufferedMessageLength set_bufferedMessage bufferedMessage pdu].
    replace (Z.of_nat (length frame) - (pml + 0 + 2)) with 0 by lia.
    reflexivity.
Qed.

Lemma complete_frame_length (hndl : modbus_t) (frame : list Z) :
  complete_frame hndl frame -> 0 < Z.of_nat (length frame) < MAX_PDU_LENGTH.
Proof.
  intros (Hmin & _). destruct (type hndl); cbn in Hmin; lia.
Qed.

Lemma feed_buffered (hndl : modbus_t) (chunks : list (list Z)) :
  state hndl = WaitingForResponse ->
  type hndl <> rtu ->
  isCFG hndl = false ->
  Forall (fun chunk => chunk <> []) chunks ->
  chunks <> [] ->
  forall (data : list Z) (ret : messageHandlerState_t),
    complete_frame hndl (data ++ concat chunks) ->
    feed (buffered hndl data) chunks ret
      = MessageHandler_read (buffered hndl (data ++ concat chunks)).
Proof.
  intros Hs Ht Hcfg Hne.
  induction Hne as [| chunk chunks Hc Hne IH]; intros Hnil data ret Hframe;
    [congruence|].
  pose proof (complete_frame_length _ _ Hframe) as Hlen.
  cbn [concat] in *. rewrite !length_app in Hlen.
  cbn [feed]. rewrite MessageHandler_buffered by (assumption || lia).
  destruct chunks as [| chunk' chunks].
  - cbn [concat feed]. rewrite app_nil_r.
    destruct (MessageHandler_read (buffered hndl (data ++ chunk))). reflexivity.
  - rewrite (MessageHandler_read_pending hndl (data ++ chunk)
               (concat (chunk' :: chunks))); try assumption.
    + rewrite IH by (try discriminate; rewrite <- app_assoc; exact Hframe).
      rewrite <- app_assoc. reflexivity.
    + rewrite <- app_assoc. exact Hframe.
    + inversion Hne as [| ? ? Hc' _]. cbn [concat].
      destruct chunk'; [congruence | discriminate].
Qed.

(** C2 (amended).  For a TCP or RTU-over-TCP handle waiting for a Modbus
    response with an empty accumulation buffer, every complete valid frame
    that fits the accumulation buffer (at least the minimum length of the
    transport and fewer than MAX_PDU_LENGTH bytes; exactly as long as the
    transport header, the PDU length the table gives for its function code
    and length byte, and the footer together; with the awaited transaction
    identifier on TCP and a good CRC on RTU-over-TCP) and every way of
    cutting it into consecutive non-empty chunks: feeding the chunks one
    call at a time gives the same answer and the same handle, byte for byte,
    as feeding the frame in one call; the answer is [success], [pduLength]
    is the PDU length of the frame and the pdu buffer starts with the PDU
    bytes of the frame.  (A frame of MAX_PDU_LENGTH bytes or more does not
    fit: delivered whole it falls under the overflow rule and is
    discarded.) *)
Theorem fragmented_frame_same_as_whole
    (hndl : modbus_t) (frame : list Z) (chunks : list (list Z)) :
  state hndl = WaitingForResponse ->
  type hndl <> rtu ->
  isCFG hndl = false ->
  bufferedMessageLength hndl = 0 ->
  complete_frame hndl frame ->
  concat chunks = frame ->
  Forall (fun chunk => chunk <> []) chunks ->
  let f := framing_of (type hndl) in
  let pduMessageLength :=
    GetFcodeLength (rd frame (fCodeOffset f)) (rd frame (pduLengthOffset f)) in
  let whole := MessageHandler hndl frame (Z.of_nat (length frame)) in
  feed hndl chunks waiting = whole /\
  fst whole = success /\
  pduLength (snd whole) = pduMessageLength /\
  bytes_at (pdu (snd whole)) 0 pduMessageLength
    = bytes_at frame (transportHeaderLength f) pduMessageLength.
Proof.
  intros Hs Ht Hcfg Hzero Hframe Hcat Hne f pml whole.
  pose proof (complete_frame_length _ _ Hframe) as Hlen.
  assert (Hwhole : whole = MessageHandler_read (buffered hndl frame)).
  { unfold whole. rewrite <- (buffered_nil hndl Hzero) at 1.
    rewrite MessageHandler_buffered; [reflexivity | assumption |].
    change (Z.of_nat (length (@nil Z))) with 0. lia. }
  split.
  - rewrite Hwhole. rewrite <- (buffered_nil hndl Hzero) at 1.
    subst frame. apply feed_buffered; try assumption.
    intros ->. cbn in Hlen. lia.
  - rewrite Hwhole, MessageHandler_read_complete by assumption.
    cbn [fst snd pduLength set_bufferedMessageLength set_pdu set_lastTransactionId
         set_pduLength pdu].
    fold f. fold pml. split; [reflexivity | split; [reflexivity|]].
    destruct Hframe as (_ & Htotal & _). fold f in Htotal. fold pml in Htotal.
    assert (Hh : 0 <= transportHeaderLength f /\ 0 <= transportFooterLength f).
    { unfold f. destruct (type hndl); cbn;
        unfold TCP_HEADER_LENGTH, CRC_FOOTER_LENGTH, MESSAGE_HEADER_LENGTH; lia. }
    apply (nth_ext _ _ 0 0).
    + rewrite !length_bytes_at. reflexivity.
    + intros k Hk. rewrite length_bytes_at in Hk.
      rewrite !nth_bytes_at by exact Hk.
      rewrite nth_memcpy by (cbn; lia).
      destruct (Nat.ltb_spec (Z.to_nat 0 + k) (Z.to_nat 0)); [lia|].
      destruct (Nat.ltb_spec (Z.to_nat 0 + k) (Z.to_nat 0 + Z.to_nat pml)); [| lia].
      rewrite app_nth1 by lia. f_equal. lia.
Qed.

Lemma fragmented_frame_same_as_whole_witness :
  let hndl := mk_modbus_t tcp 3 7 6 WaitingForResponse 0 0 false
                (array 254) (array 254) in
  let frame := [0; 7; 0; 0; 0; 5; 1; 3; 2; 0xAA; 0xBB] in
  let chunks := [[0; 7; 0]; [0; 0; 5; 1]; [3]; [2; 0xAA; 0xBB]] in
  feed hndl chunks waiting = MessageHandler hndl frame 11 /\
  fst (MessageHandler hndl frame 11) = success.
Proof.
  intros hndl frame chunks.
  assert (Hs : state hndl = WaitingForResponse) by reflexivity.
  assert (Ht : type hndl <> rtu) by (simpl; discriminate).
  assert (Hc : isCFG hndl = false) by reflexivity.
  assert (Hz : bufferedMessageLength hndl = 0) by reflexivity.
  assert (Hf : complete_frame hndl frame).
  { vm_compute. repeat split; intros; try discriminate; reflexivity. }
  assert (Hcat : concat chunks = frame) by reflexivity.
  assert (Hne : Forall (fun chunk : list Z => chunk <> []) chunks)
    by (repeat constructor; discriminate).
  destruct (fragmented_frame_same_as_whole hndl frame chunks Hs Ht Hc Hz Hf Hcat Hne)
    as (E & S & _).
  split; [exact E | exact S].
Defined.

(** C2 (counterexample).  On the intercore RTU transport the length lookup
    is made however few bytes have arrived.  A fresh handle given the 4-byte
    local header alone reads function code 0 from the still empty buffer,
    takes the frame for complete with an empty PDU and answers [success];
    the rest of the frame then does the same.  Fed whole, the same frame
    yields its 5-byte PDU. *)
Lemma fragmented_rtu_frame_counterexample :
  let hndl := mk_modbus_t rtu 3 0 0 WaitingForResponse 0 0 false
                (array 254) (array 254) in
  let frame := [2; 1; 4; 0; 1; 3; 2; 0xAA; 0xBB] in
  let chunks := [[2; 1; 4; 0]; [1; 3; 2; 0xAA; 0xBB]] in
  let whole := MessageHandler hndl frame 9 in
  let pieces := feed hndl chunks waiting in
  complete_frame hndl frame /\
  concat chunks = frame /\
  Forall (fun chunk => chunk <> []) chunks /\
  fst whole = success /\
  pduLength (snd whole) = 5 /\
  firstn 5 (pdu (snd whole)) = [1; 3; 2; 0xAA; 0xBB] /\
  pduLength (snd pieces) = 0 /\
  firstn 5 (pdu (snd pieces)) = [0; 0; 0; 0; 0] /\
  snd pieces <> snd whole.
Proof.
  intros hndl frame chunks whole pieces.
  split; [vm_compute; repeat split; intros; try discriminate; reflexivity|].
  split; [reflexivity|].
  split; [repeat constructor; discriminate|].
  split; [vm_compute; reflexivity|].
  split; [vm_compute; reflexivity|].
  split; [vm_compute; reflexivity|].
  split; [vm_compute; reflexivity|].
  split; [vm_compute; reflexivity|].
  intros E. apply (f_equal pduLength) in E. vm_compute in E. discriminate E.
Qed.

(** ** Evaluation at sample values *)

(** The side conditions of a statement taken at sample values are closed
    terms: they are settled by evaluation.  One turn of the simulator over
    the whole file store is only evaluated as far as its shape. *)
Ltac evaluated :=
  vm_compute;
  repeat match goal with
         | |- _ /\ _ => split
         | |- _ -> _ => intro
         end;
  first [reflexivity | congruence | lia | (cbv; congruence)].
Ltac frame_ok := evaluated.
Ltac turn_served :=
  match goal with
  | |- ?t = Some (Some (sent_reply ?t), files_after ?t, messageOut_after ?t) =>
      let H := fresh in
      assert (H : (match t with Some (Some _, _, _) => true | _ => false end) = true)
        by (vm_compute; reflexivity);
      destruct t as [[[[? |] ?] ?] |];
      [reflexivity | discriminate H | discriminate H]
  end.
Ltac store_length := vm_compute; reflexivity.
Ltac subrequest_ok := evaluated.

(** ** MessageHandler: what a call keeps *)

Ltac break_ifs :=
  repeat match goal with
         | |- context [if ?c then _ else _] => destruct c eqn:?
         | |- context [match ?x with TransactionAccepted => _ | _ => _ end] =>
             destruct x eqn:?
         end.

(** X1. [MessageHandler] never touches the transport kind, the descriptor, the
    awaited transaction identifier, the state or [isCFG] of the handle; and
    unless it answers success it leaves the PDU, its length and the last
    matched transaction identifier as they were. *)
Theorem MessageHandler_frame_condition
    (hndl : modbus_t) (message : list Z) (inputLength : Z) :
  let '(ret, hndl') := MessageHandler hndl message inputLength in
  type hndl' = type hndl /\ fd hndl' = fd hndl /\
  transactionId hndl' = transactionId hndl /\
  state hndl' = state hndl /\ isCFG hndl' = isCFG hndl /\
  (ret <> success ->
   pdu hndl' = pdu hndl /\ pduLength hndl' = pduLength hndl /\
   lastTransactionId hndl' = lastTransactionId hndl).
Proof.
  unfold MessageHandler, MessageHandler_read.
  cbn [type isCFG bufferedMessageLength bufferedMessage transactionId
       lastTransactionId set_bufferedMessage set_bufferedMessageLength].
  break_ifs; cbn; repeat split; auto; congruence.
Qed.

Lemma framing_nonneg (t : modbusTransportType_t) :
  0 <= transportHeaderLength (framing_of t) /\
  0 <= transportFooterLength (framing_of t).
Proof. destruct t; cbn; unfold TCP_HEADER_LENGTH, CRC_FOOTER_LENGTH,
  MESSAGE_HEADER_LENGTH; lia. Qed.

Lemma uint16_range (x : Z) : 0 <= uint16_t x < 65536.
Proof. unfold uint16_t. apply Z.mod_pos_bound. reflexivity. Qed.

Lemma MessageHandler_read_bounds (hndl : modbus_t) :
  within_bounds hndl ->
  within_bounds (snd (MessageHandler_read hndl)) /\
  bufferedMessageLength (snd (MessageHandler_read hndl))
    <= bufferedMessageLength hndl.
Proof.
  intros (Hb & Hp & Hl). unfold within_bounds, MAX_PDU_LENGTH in *.
  unfold MessageHandler_read.
  destruct (framing_nonneg (type hndl)) as [Hh Hf].
  set (f := framing_of (type hndl)) in *.
  set (pml := if isCFG hndl then UART_CFG_MESSAGE_RESP_LENGTH
              else uint16_t (GetFcodeLength (rd (bufferedMessage hndl) (fCodeOffset f))
                               (rd (bufferedMessage hndl) (pduLengthOffset f)))).
  assert (Hpml : 0 <= pml).
  { unfold pml. destruct (isCFG hndl); [unfold UART_CFG_MESSAGE_RESP_LENGTH; lia|].
    apply uint16_range. }
  destruct ((minLength f <=? bufferedMessageLength hndl) || is_rtu (type hndl));
    [| cbn; repeat split; lia].
  destruct (Z.leb_spec (pml + transportHeaderLength f + transportFooterLength f)
              (bufferedMessageLength hndl)) as [Hfull | Hnot];
    [| cbn; repeat split; lia].
  cbv beta iota.
  set (verdict := if checkTransaction f then _ else TransactionAccepted).
  assert (Hrem : 0 <= bufferedMessageLength hndl
                      - (pml + transportHeaderLength f + transportFooterLength f)
                 <= bufferedMessageLength hndl) by lia.
  set (rem := bufferedMessageLength hndl
              - (pml + transportHeaderLength f + transportFooterLength f)) in *.
  assert (Hu : uint16_t rem = rem) by (apply uint16_small; lia).
  destruct verdict; [| | cbn; repeat split; lia];
    match goal with
    | |- context [if ?c then (success, _) else _] => destruct c
    end; cbn [fst snd bufferedMessageLength set_pdu set_lastTransactionId
              set_pduLength bufferedMessage pdu];
    fold rem; destruct (Z.ltb_spec 0 rem);
    cbn [snd bufferedMessage pdu bufferedMessageLength set_bufferedMessageLength
         set_bufferedMessage set_pdu set_lastTransactionId set_pduLength];
    rewrite ?length_memcpy by lia; rewrite Hu; repeat split; lia.
Qed.

(** X2. [MessageHandler] keeps the handle within its buffers: with both
    buffers MAX_PDU_LENGTH long and the buffered length below MAX_PDU_LENGTH
    before the call, the same holds after it, and the buffered length has
    grown by no more than what was delivered. *)
Theorem MessageHandler_keeps_bounds
    (hndl : modbus_t) (message : list Z) (inputLength : Z) :
  within_bounds hndl ->
  0 <= inputLength ->
  within_bounds (snd (MessageHandler hndl message inputLength)) /\
  bufferedMessageLength (snd (MessageHandler hndl message inputLength))
    <= bufferedMessageLength hndl + inputLength.
Proof.
  intros Hw Hn. pose proof Hw as (Hb & Hp & Hl).
  unfold MessageHandler.
  destruct (negb (MODBUS_STATE_eqb (state hndl) WaitingForResponse)).
  { unfold within_bounds, MAX_PDU_LENGTH in *. cbn. repeat split; lia. }
  destruct (Z.ltb_spec (bufferedMessageLength hndl + inputLength) MAX_PDU_LENGTH)
    as [Hlt | Hge]; cbn [negb].
  2:{ unfold within_bounds, MAX_PDU_LENGTH in *. cbn. repeat split; lia. }
  assert (Hu : uint16_t (bufferedMessageLength hndl + inputLength)
               = bufferedMessageLength hndl + inputLength)
    by (apply uint16_small; unfold MAX_PDU_LENGTH in *; lia).
  cbv zeta. cbn [bufferedMessageLength set_bufferedMessage]. rewrite Hu.
  match goal with
  | |- context [MessageHandler_read ?h] =>
      destruct (MessageHandler_read_bounds h) as [H1 H2]
  end.
  - unfold within_bounds, MAX_PDU_LENGTH in *.
    cbn [bufferedMessage pdu bufferedMessageLength set_bufferedMessageLength
         set_bufferedMessage].
    rewrite length_memcpy by lia. repeat split; lia.
  - split; [exact H1 | exact H2].
Qed.

Lemma MessageHandler_keeps_bounds_witness :
  within_bounds
   (snd (MessageHandler (sample_handle tcp WaitingForResponse 0 0) [1; 2; 3] 3)) /\
 bufferedMessageLength
   (snd (MessageHandler (sample_handle tcp WaitingForResponse 0 0) [1; 2; 3] 3)) <=
 bufferedMessageLength (sample_handle tcp WaitingForResponse 0 0) + 3.
Proof.
  apply (MessageHandler_keeps_bounds (sample_handle tcp WaitingForResponse 0 0) [1; 2; 3] 3);
    [evaluated | evaluated].
Defined.

(** ** MessageHandler: a frame and what follows it *)

Lemma shifted_surplus (hndl : modbus_t) (frame surplus : list Z) (h1 : modbus_t) :
  bufferedMessage h1 = bufferedMessage (buffered hndl (frame ++ surplus)) ->
  bufferedMessageLength
    (shifted h1 (Z.of_nat (length frame)) (Z.of_nat (length surplus)))
    = Z.of_nat (length surplus) /\
  bytes_at (bufferedMessage
              (shifted h1 (Z.of_nat (length frame)) (Z.of_nat (length surplus))))
           0 (Z.of_nat (length surplus)) = surplus.
Proof.
  intros Hb. split; [reflexivity|].
  unfold shifted.
  destruct (Z.ltb_spec 0 (Z.of_nat (length surplus))) as [Hpos | Hzero].
  - cbn [bufferedMessage set_bufferedMessageLength set_bufferedMessage].
    rewrite Hb. cbn [buffered bufferedMessage set_bufferedMessageLength
                     set_bufferedMessage].
    apply (nth_ext _ _ 0 0).
    + rewrite length_bytes_at. lia.
    + intros k Hk. rewrite length_bytes_at in Hk.
      rewrite nth_bytes_at by exact Hk.
      rewrite nth_memcpy by (cbn; lia).
      destruct (Nat.ltb_spec (Z.to_nat 0 + k) (Z.to_nat 0)); [lia|].
      destruct (Nat.ltb_spec (Z.to_nat 0 + k)
                  (Z.to_nat 0 + Z.to_nat (Z.of_nat (length surplus)))); [| lia].
      rewrite <- app_assoc. rewrite app_nth2 by lia.
      rewrite app_nth1 by lia. f_equal. lia.
  - destruct surplus; [reflexivity | cbn [length] in Hzero; lia].
Qed.

Ltac read_buffered hndl data :=
  unfold MessageHandler_read;
  replace (type (buffered hndl data)) with (type hndl) by reflexivity;
  replace (isCFG (buffered hndl data)) with (isCFG hndl) by reflexivity;
  replace (bufferedMessageLength (buffered hndl data))
    with (Z.of_nat (length data)) by reflexivity;
  replace (transactionId (buffered hndl data)) with (transactionId hndl)
    by reflexivity;
  replace (lastTransactionId (buffered hndl data)) with (lastTransactionId hndl)
    by reflexivity.

Lemma rd_buffered (hndl : modbus_t) (frame surplus : list Z) (k : Z) :
  0 <= k < Z.of_nat (length frame) ->
  rd (bufferedMessage (buffered hndl (frame ++ surplus))) k = rd frame k.
Proof.
  intros Hk. cbn [buffered bufferedMessage set_bufferedMessageLength
                  set_bufferedMessage].
  rewrite <- app_assoc. apply rd_app_l. exact Hk.
Qed.

(** A complete valid frame at the head of the accumulated data is taken:
    [success], the PDU copied, the rest shifted to the front. *)
Lemma MessageHandler_read_takes_frame (hndl : modbus_t) (frame surplus : list Z) :
  isCFG hndl = false ->
  complete_frame hndl frame ->
  Z.of_nat (length frame) + Z.of_nat (length surplus) < MAX_PDU_LENGTH ->
  let f := framing_of (type hndl) in
  let pduMessageLength :=
    GetFcodeLength (rd frame (fCodeOffset f)) (rd frame (pduLengthOffset f)) in
  let h0 := buffered hndl (frame ++ surplus) in
  MessageHandler_read h0
    = (success,
       shifted
         (set_pdu
            (set_lastTransactionId
               (set_pduLength h0 pduMessageLength)
               (uint16_t (Z.lor (Z.shiftl (rd frame 0) 8) (rd frame 1))))
            (memcpy (pdu hndl) 0 (bufferedMessage h0)
                    (transportHeaderLength f) pduMessageLength))
         (Z.of_nat (length frame)) (Z.of_nat (length surplus))).
Proof.
  intros Hcfg (Hmin & Htotal & Htx & Hcrc) Hfit f pml h0.
  unfold pml, f in *. clear pml f.
  assert (Hrd : forall k, 0 <= k < Z.of_nat (length frame) ->
                          rd (bufferedMessage h0) k = rd frame k).
  { intros k Hk. apply rd_buffered. exact Hk. }
  assert (Hv : forall n, n <= Z.of_nat (length frame) ->
                         ValidateCRC (bufferedMessage h0) n = ValidateCRC frame n).
  { intros n Hn. unfold h0. cbn [buffered bufferedMessage set_bufferedMessageLength
                                 set_bufferedMessage].
    rewrite <- app_assoc. apply ValidateCRC_prefix. exact Hn. }
  unfold h0 at 1. read_buffered hndl (frame ++ surplus). fold h0.
  rewrite Hcfg, uint16_GetFcodeLength, length_app, Nat2Z.inj_add.
  unfold MAX_PDU_LENGTH in Hmin, Hfit. unfold shifted.
  destruct (type hndl);
    cbn [framing_of minLength fCodeOffset pduLengthOffset transportHeaderLength
         transportFooterLength checkTransaction checkCRC is_rtu] in *;
    unfold TCP_HEADER_LENGTH, PDU_HEADER_LENGTH, CRC_FOOTER_LENGTH,
      MESSAGE_HEADER_LENGTH in *;
    rewrite !Hrd by lia;
    match goal with
    | |- context [GetFcodeLength ?a ?b] => set (pml := GetFcodeLength a b) in *
    end.
  - (* tcp *)
    assert (H1 : (6 + 3 <=? Z.of_nat (length frame) + Z.of_nat (length surplus)) = true)
      by (apply Z.leb_le; lia).
    assert (H2 : (pml + 6 + 0 <=? Z.of_nat (length frame) + Z.of_nat (length surplus))
                 = true) by (apply Z.leb_le; lia).
    assert (H3 : (pml <=? MAX_PDU_LENGTH) = true)
      by (apply Z.leb_le; unfold MAX_PDU_LENGTH; lia).
    rewrite H1, H2, (Htx eq_refl). cbn [orb].
    unfold transactionCheck. rewrite Z.eqb_refl. cbn [negb andb].
    rewrite H3. cbn [negb andb].
    cbn [bufferedMessageLength set_pdu set_lastTransactionId set_pduLength
         set_bufferedMessageLength set_bufferedMessage bufferedMessage pdu].
    replace (bufferedMessageLength h0)
      with (Z.of_nat (length frame) + Z.of_nat (length surplus))
      by (unfold h0; cbn; rewrite length_app; lia).
    replace (Z.of_nat (length frame) + Z.of_nat (length surplus) - (pml + 6 + 0))
      with (Z.of_nat (length surplus)) by lia.
    replace (pml + 6 + 0) with (Z.of_nat (length frame)) by lia.
    rewrite (uint16_small (Z.of_nat (length surplus))) by lia. reflexivity.
  - (* rtuOverTcp *)
    assert (H1 : (2 + 3 <=? Z.of_nat (length frame) + Z.of_nat (length surplus)) = true)
      by (apply Z.leb_le; lia).
    assert (H2 : (pml + 0 + 2 <=? Z.of_nat (length frame) + Z.of_nat (length surplus))
                 = true) by (apply Z.leb_le; lia).
    assert (H3 : (pml <=? MAX_PDU_LENGTH) = true)
      by (apply Z.leb_le; unfold MAX_PDU_LENGTH; lia).
    rewrite H1, H2. cbn [orb].
    rewrite H3, Hv, (Hcrc eq_refl) by lia. cbn [negb andb].
    cbn [bufferedMessageLength set_pdu set_lastTransactionId set_pduLength
         set_bufferedMessageLength set_bufferedMessage bufferedMessage pdu].
    replace (bufferedMessageLength h0)
      with (Z.of_nat (length frame) + Z.of_nat (length surplus))
      by (unfold h0; cbn; rewrite length_app; lia).
    replace (Z.of_nat (length frame) + Z.of_nat (length surplus) - (pml + 0 + 2))
      with (Z.of_nat (length surplus)) by lia.
    replace (pml + 0 + 2) with (Z.of_nat (length frame)) by lia.
    rewrite (uint16_small (Z.of_nat (length surplus))) by lia. reflexivity.
  - (* rtu *)
    assert (H2 : (pml + 4 + 0 <=? Z.of_nat (length frame) + Z.of_nat (length surplus))
                 = true) by (apply Z.leb_le; lia).
    assert (H3 : (pml <=? MAX_PDU_LENGTH) = true)
      by (apply Z.leb_le; unfold MAX_PDU_LENGTH; lia).
    rewrite H2, orb_true_r. cbn [negb andb].
    rewrite H3. cbn [negb andb].
    cbn [bufferedMessageLength set_pdu set_lastTransactionId set_pduLength
         set_bufferedMessageLength set_bufferedMessage bufferedMessage pdu].
    replace (bufferedMessageLength h0)
      with (Z.of_nat (length frame) + Z.of_nat (length surplus))
      by (unfold h0; cbn; rewrite length_app; lia).
    replace (Z.of_nat (length frame) + Z.of_nat (length surplus) - (pml + 4 + 0))
      with (Z.of_nat (length surplus)) by lia.
    replace (pml + 4 + 0) with (Z.of_nat (length frame)) by lia.
    rewrite (uint16_small (Z.of_nat (length surplus))) by lia. reflexivity.
Qed.

Lemma MessageHandler_read_drops_frame (hndl : modbus_t) (frame surplus : list Z) :
  isCFG hndl = false ->
  frame_shape (type hndl) frame surplus ->
  refused_frame hndl frame ->
  MessageHandler_read (buffered hndl (frame ++ surplus))
    = (waiting,
       shifted (buffered hndl (frame ++ surplus))
               (Z.of_nat (length frame)) (Z.of_nat (length surplus))).
Proof.
  intros Hcfg (Hmin & Htotal & Hfit) Href.
  set (h0 := buffered hndl (frame ++ surplus)).
  assert (Hrd : forall k, 0 <= k < Z.of_nat (length frame) ->
                          rd (bufferedMessage h0) k = rd frame k).
  { intros k Hk. apply rd_buffered. exact Hk. }
  assert (Hv : forall n, n <= Z.of_nat (length frame) ->
                         ValidateCRC (bufferedMessage h0) n = ValidateCRC frame n).
  { intros n Hn. unfold h0. cbn [buffered bufferedMessage set_bufferedMessageLength
                                 set_bufferedMessage].
    rewrite <- app_assoc. apply ValidateCRC_prefix. exact Hn. }
  unfold h0 at 1. read_buffered hndl (frame ++ surplus). fold h0.
  rewrite Hcfg, uint16_GetFcodeLength, length_app, Nat2Z.inj_add.
  unfold MAX_PDU_LENGTH in Hfit. unfold shifted.
  assert (Hlen0 : bufferedMessageLength h0
                  = Z.of_nat (length frame) + Z.of_nat (length surplus))
    by (unfold h0; cbn; rewrite length_app; lia).
  destruct Href as [[Ht Hlow] | [Ht Hbad]]; rewrite Ht in *;
    cbn [framing_of minLength fCodeOffset pduLengthOffset transportHeaderLength
         transportFooterLength checkTransaction checkCRC is_rtu] in *;
    unfold TCP_HEADER_LENGTH, PDU_HEADER_LENGTH, CRC_FOOTER_LENGTH in *;
    rewrite !Hrd by lia;
    match goal with
    | |- context [GetFcodeLength ?a ?b] => set (pml := GetFcodeLength a b) in *
    end.
  - assert (H1 : (6 + 3 <=? Z.of_nat (length frame) + Z.of_nat (length surplus)) = true)
      by (apply Z.leb_le; lia).
    assert (H2 : (pml + 6 + 0 <=? Z.of_nat (length frame) + Z.of_nat (length surplus))
                 = true) by (apply Z.leb_le; lia).
    rewrite H1, H2, Hlow. cbn [orb negb andb]. rewrite andb_false_r.
    cbn [andb]. cbv iota beta. rewrite Hlen0.
    replace (Z.of_nat (length frame) + Z.of_nat (length surplus) - (pml + 6 + 0))
      with (Z.of_nat (length surplus)) by lia.
    replace (pml + 6 + 0) with (Z.of_nat (length frame)) by lia.
    rewrite (uint16_small (Z.of_nat (length surplus))) by lia. reflexivity.
  - assert (H1 : (2 + 3 <=? Z.of_nat (length frame) + Z.of_nat (length surplus)) = true)
      by (apply Z.leb_le; lia).
    assert (H2 : (pml + 0 + 2 <=? Z.of_nat (length frame) + Z.of_nat (length surplus))
                 = true) by (apply Z.leb_le; lia).
    rewrite H1, H2. cbn [orb].
    rewrite Hv by lia.
    replace (pml + 2) with (Z.of_nat (length frame)) by lia.
    rewrite Hbad. cbn [negb andb]. rewrite andb_false_r.
    cbv iota beta. rewrite Hlen0.
    replace (Z.of_nat (length frame) + Z.of_nat (length surplus) - (pml + 0 + 2))
      with (Z.of_nat (length surplus)) by lia.
    replace (pml + 0 + 2) with (Z.of_nat (length frame)) by lia.
    rewrite (uint16_small (Z.of_nat (length surplus))) by lia. reflexivity.
Qed.

Lemma MessageHandler_from_empty (hndl : modbus_t) (data : list Z) :
  state hndl = WaitingForResponse ->
  bufferedMessageLength hndl = 0 ->
  Z.of_nat (length data) < MAX_PDU_LENGTH ->
  MessageHandler hndl data (Z.of_nat (length data))
    = MessageHandler_read (buffered hndl data).
Proof.
  intros Hs Hz Hlen. rewrite <- (buffered_nil hndl Hz) at 1.
  rewrite MessageHandler_buffered; [reflexivity | exact Hs |].
  change (Z.of_nat (length (@nil Z))) with 0. lia.
Qed.

(** X3. A complete valid frame delivered in one call together with bytes that
    follow it: the frame is taken (success, its PDU copied out, its
    transaction identifier recorded as the last matched one) and the bytes
    behind it stay buffered, moved to the front, for the next call. *)
Theorem frame_taken_and_surplus_kept
    (hndl : modbus_t) (frame surplus : list Z) :
  state hndl = WaitingForResponse ->
  isCFG hndl = false ->
  bufferedMessageLength hndl = 0 ->
  complete_frame hndl frame ->
  Z.of_nat (length frame) + Z.of_nat (length surplus) < MAX_PDU_LENGTH ->
  let f := framing_of (type hndl) in
  let pduMessageLength :=
    GetFcodeLength (rd frame (fCodeOffset f)) (rd frame (pduLengthOffset f)) in
  let '(ret, hndl') :=
    MessageHandler hndl (frame ++ surplus)
      (Z.of_nat (length (frame ++ surplus))) in
  ret = success /\
  pduLength hndl' = pduMessageLength /\
  bytes_at (pdu hndl') 0 pduMessageLength
    = frame_pdu (type hndl) frame pduMessageLength /\
  lastTransactionId hndl'
    = uint16_t (Z.lor (Z.shiftl (rd frame 0) 8) (rd frame 1)) /\
  bufferedMessageLength hndl' = Z.of_nat (length surplus) /\
  bytes_at (bufferedMessage hndl') 0 (Z.of_nat (length surplus)) = surplus.
Proof.
  intros Hs Hcfg Hz Hframe Hfit f pml.
  rewrite MessageHandler_from_empty
    by (try assumption; rewrite length_app; lia).
  rewrite MessageHandler_read_takes_frame by assumption.
  fold f. fold pml.
  match goal with
  | |- context [shifted ?h1 _ _] =>
      destruct (shifted_surplus hndl frame surplus h1 eq_refl) as [Hl Hb]
  end.
  split; [reflexivity|]. split; [unfold shifted; destruct (0 <? _); reflexivity|].
  split.
  - replace (pdu (shifted _ _ _))
      with (memcpy (pdu hndl) 0 (bufferedMessage (buffered hndl (frame ++ surplus)))
                   (transportHeaderLength f) pml)
      by (unfold shifted; destruct (0 <? _); reflexivity).
    destruct Hframe as (Hmin & Htotal & _). fold f in Htotal. fold pml in Htotal.
    destruct (framing_nonneg (type hndl)) as [Hh Hft]. fold f in Hh, Hft.
    unfold frame_pdu. fold f.
    apply (nth_ext _ _ 0 0).
    + rewrite !length_bytes_at. reflexivity.
    + intros k Hk. rewrite length_bytes_at in Hk.
      rewrite !nth_bytes_at by exact Hk.
      rewrite nth_memcpy by (cbn; lia).
      destruct (Nat.ltb_spec (Z.to_nat 0 + k) (Z.to_nat 0)); [lia|].
      destruct (Nat.ltb_spec (Z.to_nat 0 + k) (Z.to_nat 0 + Z.to_nat pml)); [| lia].
      cbn [buffered bufferedMessage set_bufferedMessageLength set_bufferedMessage].
      rewrite <- app_assoc. rewrite app_nth1 by lia. f_equal. lia.
  - split; [unfold shifted; destruct (0 <? _); reflexivity|].
    split; [exact Hl | exact Hb].
Qed.

Lemma frame_taken_and_surplus_kept_witness :
  let
 '(ret, hndl') :=
  MessageHandler (sample_handle tcp WaitingForResponse 0 0)
    ([0; 0; 0; 0; 0; 4; 1; 1; 1; 15] ++ [7; 7])
    (Z.of_nat (length ([0; 0; 0; 0; 0; 4; 1; 1; 1; 15] ++ [7; 7])))
  in
  ret = success /\
  pduLength hndl' =
  GetFcodeLength
    (rd [0; 0; 0; 0; 0; 4; 1; 1; 1; 15]
       (fCodeOffset (framing_of (type (sample_handle tcp WaitingForResponse 0 0)))))
    (rd [0; 0; 0; 0; 0; 4; 1; 1; 1; 15]
       (pduLengthOffset (framing_of (type (sample_handle tcp WaitingForResponse 0 0))))) /\
  bytes_at (pdu hndl') 0
    (GetFcodeLength
       (rd [0; 0; 0; 0; 0; 4; 1; 1; 1; 15]
          (fCodeOffset (framing_of (type (sample_handle tcp WaitingForResponse 0 0)))))
       (rd [0; 0; 0; 0; 0; 4; 1; 1; 1; 15]
          (pduLengthOffset (framing_of (type (sample_handle tcp WaitingForResponse 0 0)))))) =
  frame_pdu (type (sample_handle tcp WaitingForResponse 0 0))
    [0; 0; 0; 0; 0; 4; 1; 1; 1; 15]
    (GetFcodeLength
       (rd [0; 0; 0; 0; 0; 4; 1; 1; 1; 15]
          (fCodeOffset (framing_of (type (sample_handle tcp WaitingForResponse 0 0)))))
       (rd [0; 0; 0; 0; 0; 4; 1; 1; 1; 15]
          (pduLengthOffset (framing_of (type (sample_handle tcp WaitingForResponse 0 0)))))) /\
  lastTransactionId hndl' =
  uint16_t
    (Z.lor (Z.shiftl (rd [0; 0; 0; 0; 0; 4; 1; 1; 1; 15] 0) 8)
       (rd [0; 0; 0; 0; 0; 4; 1; 1; 1; 15] 1)) /\
  bufferedMessageLength hndl' = Z.of_nat (length [7; 7]) /\
  bytes_at (bufferedMessage hndl') 0 (Z.of_nat (length [7; 7])) = [7; 7].
Proof.
  apply (frame_taken_and_surplus_kept (sample_handle tcp WaitingForResponse 0 0) [0; 0; 0; 0; 0; 4; 1; 1; 1; 15] [7; 7]);
    [evaluated | evaluated | evaluated | frame_ok | evaluated].
Defined.

(** X4. On a handle waiting for a Modbus response with an empty accumulation
    buffer: a frame of at least the minimum length and exactly as long as
    its own function code and length byte ask for, delivered in one call
    together with the bytes that follow it, fewer than MAX_PDU_LENGTH bytes
    in all, and refused without ending the wait (a TCP frame of an earlier
    transaction, an RTU-over-TCP frame with a bad CRC) is dropped alone: the
    call answers waiting, the PDU and the last matched transaction
    identifier are untouched, and the bytes behind the frame stay buffered,
    moved to the front.  (From MAX_PDU_LENGTH bytes on the overflow rule
    drops frame and following bytes alike.) *)
Theorem refused_frame_dropped_alone
    (hndl : modbus_t) (frame surplus : list Z) :
  state hndl = WaitingForResponse ->
  isCFG hndl = false ->
  bufferedMessageLength hndl = 0 ->
  frame_shape (type hndl) frame surplus ->
  refused_frame hndl frame ->
  let '(ret, hndl') :=
    MessageHandler hndl (frame ++ surplus)
      (Z.of_nat (length (frame ++ surplus))) in
  ret = waiting /\
  pdu hndl' = pdu hndl /\ pduLength hndl' = pduLength hndl /\
  lastTransactionId hndl' = lastTransactionId hndl /\
  bufferedMessageLength hndl' = Z.of_nat (length surplus) /\
  bytes_at (bufferedMessage hndl') 0 (Z.of_nat (length surplus)) = surplus.
Proof.
  intros Hs Hcfg Hz Hshape Href.
  pose proof Hshape as (_ & _ & Hfit).
  rewrite MessageHandler_from_empty
    by (try assumption; rewrite length_app; lia).
  rewrite MessageHandler_read_drops_frame by assumption.
  match goal with
  | |- context [shifted ?h1 _ _] =>
      destruct (shifted_surplus hndl frame surplus h1 eq_refl) as [Hl Hb]
  end.
  split; [reflexivity|].
  repeat split; try exact Hl; try exact Hb;
    unfold shifted; destruct (0 <? _); reflexivity.
Qed.

Lemma refused_frame_dropped_alone_witness :
  let
 '(ret, hndl') :=
  MessageHandler (sample_handle tcp WaitingForResponse 5 3)
    ([0; 4; 0; 0; 0; 4; 1; 1; 1; 15] ++ [7; 7])
    (Z.of_nat (length ([0; 4; 0; 0; 0; 4; 1; 1; 1; 15] ++ [7; 7])))
  in
  ret = waiting /\
  pdu hndl' = pdu (sample_handle tcp WaitingForResponse 5 3) /\
  pduLength hndl' = pduLength (sample_handle tcp WaitingForResponse 5 3) /\
  lastTransactionId hndl' = lastTransactionId (sample_handle tcp WaitingForResponse 5 3) /\
  bufferedMessageLength hndl' = Z.of_nat (length [7; 7]) /\
  bytes_at (bufferedMessage hndl') 0 (Z.of_nat (length [7; 7])) = [7; 7].
Proof.
  apply (refused_frame_dropped_alone (sample_handle tcp WaitingForResponse 5 3) [0; 4; 0; 0; 0; 4; 1; 1; 1; 15] [7; 7]);
    [evaluated | evaluated | evaluated | frame_ok | left; split; reflexivity].
Defined.

(** ** Outcome of a request *)

Lemma SendToSlave_refused (send : list Z -> Z) (w : world) (modBusADU : list Z)
    (pduLength : Z) :
  refusing send -> 0 <= pduLength ->
  SendToSlave send w modBusADU pduLength
    = (false,
       mk_world (set_state (handle w) Idle) (transactionIdentifier w)
                (wire w ++ [bytes_at modBusADU 0 pduLength]) (sleeps w)).
Proof.
  intros Hr Hp. unfold SendToSlave.
  destruct (Z.eqb_spec pduLength (send (bytes_at modBusADU 0 pduLength))) as [E | _].
  - exfalso. apply (Hr (bytes_at modBusADU 0 pduLength)).
    rewrite length_bytes_at, Z2Nat.id by exact Hp. symmetry. exact E.
  - reflexivity.
Qed.

Lemma ModBusWrite_refused (send : list Z -> Z) (w : world) (modBusPacket : list Z)
    (packetLength : Z) :
  refusing send -> 0 <= packetLength ->
  exists frame,
    ModBusWrite send w modBusPacket packetLength
      = (false,
         mk_world (set_state (set_pduLength (set_state (handle w) SendingRequest) 0)
                             Idle)
                  (transactionIdentifier w) (wire w ++ [frame]) (sleeps w)).
Proof.
  intros Hr Hp. unfold ModBusWrite.
  cbn [handle set_handle type set_pduLength set_state].
  unfold TCP_HEADER_LENGTH, CRC_FOOTER_LENGTH, MESSAGE_HEADER_LENGTH.
  destruct (type (handle w));
    rewrite SendToSlave_refused by (assumption || lia);
    eexists; reflexivity.
Qed.

Lemma uint16_nonneg (x : Z) : 0 <= uint16_t x.
Proof. unfold uint16_t. apply Z.mod_pos_bound. lia. Qed.

Lemma uint8_nonneg (x : Z) : 0 <= uint8_t x.
Proof. unfold uint8_t. apply Z.mod_pos_bound. lia. Qed.

Ltac refused_write send Hr :=
  match goal with
  | |- context [ModBusWrite send ?w ?p ?n] =>
      let frame := fresh "frame" in
      let E := fresh "E" in
      destruct (ModBusWrite_refused send w p n Hr
                  ltac:(first [lia | apply uint16_nonneg | apply uint8_nonneg]))
        as (frame & E);
      rewrite E; cbn [negb]
  end.

(** X5. A request on an Idle handle, with arguments within their bounds and a
    [readArray] of at least one entry, whose frame the transport does not
    take whole fails with MESSAGE_SEND_FAIL, without waiting, and leaves the
    handle Idle and the transaction counter where it was. *)
Theorem request_fails_when_send_fails
    (DEVICE_DISCONNECTED : Z) (send : list Z -> Z)
    (deliveries : nat -> list epoll_event) (fuel : nat) (w : world)
    (r : request) (readArray : list Z) (timeout : Z) :
  state (handle w) = Idle ->
  in_bounds r ->
  1 <= Z.of_nat (length readArray) ->
  refusing send ->
  exists w',
    invoke DEVICE_DISCONNECTED send deliveries fuel w r readArray timeout
      = Some (false, wr readArray 0 MESSAGE_SEND_FAIL, w') /\
    state (handle w') = Idle /\
    transactionIdentifier w' = transactionIdentifier w /\
    sleeps w' = sleeps w.
Proof.
  intros Hs _ _ Hr.
  destruct r; cbn [invoke];
    unfold ReadCoils, ReadDiscreteInputs, ReadMultipleHoldingRegisters,
      ReadInputRegisters, WriteSingleCoil, WriteSingleHoldingRegister,
      WriteMultipleCoils, WriteMultipleHoldingRegisters, ReadFile, WriteFile;
    rewrite (not_idle_false _ Hs);
    try (destruct (negb (messageLength <? MAX_PDU_LENGTH));
         [exists w; repeat split; assumption |]);
    refused_write send Hr;
    eexists; (split; [reflexivity|]); repeat split.
Qed.

Lemma request_fails_when_send_fails_witness :
  exists w' : world,
   invoke 24 send_nothing (fun _ : nat => []) 5 (sample_world tcp 0 0)
     (ReadCoils_request 1 100 4) [0] 1000 =
   Some (false, wr [0] 0 MESSAGE_SEND_FAIL, w') /\
   state (handle w') = Idle /\
   transactionIdentifier w' = transactionIdentifier (sample_world tcp 0 0) /\
   sleeps w' = sleeps (sample_world tcp 0 0).
Proof.
  apply (request_fails_when_send_fails 24 send_nothing (fun _ => []) 5%nat (sample_world tcp 0 0) (ReadCoils_request 1 100 4) [0] 1000);
    [evaluated | evaluated | evaluated | intro frame; unfold send_nothing; lia].
Defined.

Lemma SendToSlave_effects (send : list Z -> Z) (w : world) (modBusADU : list Z)
    (pduLength : Z) :
  wire (snd (SendToSlave send w modBusADU pduLength))
    = wire w ++ [bytes_at modBusADU 0 pduLength] /\
  sleeps (snd (SendToSlave send w modBusADU pduLength)) = sleeps w /\
  (fst (SendToSlave send w modBusADU pduLength) = false ->
   state (handle (snd (SendToSlave send w modBusADU pduLength))) = Idle).
Proof.
  unfold SendToSlave. cbn [wire handle transactionIdentifier sleeps].
  destruct (pduLength =? send (bytes_at modBusADU 0 pduLength)); cbn; auto.
  repeat split. discriminate.
Qed.

Lemma ModBusWrite_effects (send : list Z -> Z) (w : world) (modBusPacket : list Z)
    (packetLength : Z) :
  exists frame,
    wire (snd (ModBusWrite send w modBusPacket packetLength)) = wire w ++ [frame] /\
    sleeps (snd (ModBusWrite send w modBusPacket packetLength)) = sleeps w /\
    (fst (ModBusWrite send w modBusPacket packetLength) = false ->
     state (handle (snd (ModBusWrite send w modBusPacket packetLength))) = Idle).
Proof.
  unfold ModBusWrite. cbn [handle set_handle type set_pduLength set_state].
  destruct (type (handle w));
    match goal with
    | |- context [SendToSlave send ?w' ?adu ?n] =>
        destruct (SendToSlave_effects send w' adu n) as (Hw & Hs & Hf);
        exists (bytes_at adu 0 n); rewrite Hw, Hs; cbn [wire sleeps set_handle];
        auto
    end.
Qed.

Section Bounded.

Variable deliveries : nat -> list epoll_event.

Lemma WaitForData_loop_bounded (fuel : nat) :
  forall (w : world) (timeout counter : Z),
    0 < timeout < SIZE_MAX ->
    0 <= counter <= timeout + 1 ->
    timeout + 2 - counter <= Z.of_nat fuel ->
    exists w', WaitForData_loop deliveries fuel w timeout counter = Some w' /\
               wire w' = wire w /\
               Z.of_nat (sleeps w') <= Z.of_nat (sleeps w) + (timeout + 2 - counter).
Proof.
  induction fuel as [| fuel IH]; intros w timeout counter Ht Hc Hf.
  - lia.
  - cbn [WaitForData_loop].
    destruct (wait_over (state (handle w))); [exists w; split; [|split]; auto; lia|].
    destruct (nanosleep_keeps deliveries w) as (Hw & _ & Hsl).
    destruct (Z.ltb_spec 0 timeout) as [_ | ?]; [| lia].
    destruct (Z.ltb_spec timeout counter) as [Hgt | Hle].
    + exists (nanosleep deliveries w). split; [reflexivity|]. split; [exact Hw|].
      rewrite Hsl. lia.
    + assert (Hsz : size_t (counter + 1) = counter + 1).
      { unfold size_t. apply Z.mod_small. lia. }
      rewrite Hsz.
      destruct (IH (nanosleep deliveries w) timeout (counter + 1))
        as (w' & E & Hw' & Hs'); try lia.
      exists w'. rewrite E, Hw', Hw. split; [reflexivity|]. split; [reflexivity|].
      rewrite Hsl in Hs'. lia.
Qed.


End Bounded.

Lemma MessageHandler_bounds
    (hndl : modbus_t) (message : list Z) (inputLength : Z) :
  within_bounds hndl ->
  0 <= inputLength ->
  within_bounds (snd (MessageHandler hndl message inputLength)).
Proof.
  intros Hw Hn. pose proof Hw as (Hb & Hp & Hl).
  unfold MessageHandler.
  destruct (negb (MODBUS_STATE_eqb (state hndl) WaitingForResponse)).
  { unfold within_bounds, MAX_PDU_LENGTH in *. cbn. repeat split; lia. }
  destruct (Z.ltb_spec (bufferedMessageLength hndl + inputLength) MAX_PDU_LENGTH)
    as [Hlt | Hge]; cbn [negb].
  2:{ unfold within_bounds, MAX_PDU_LENGTH in *. cbn. repeat split; lia. }
  assert (Hu : uint16_t (bufferedMessageLength hndl + inputLength)
               = bufferedMessageLength hndl + inputLength)
    by (apply uint16_small; unfold MAX_PDU_LENGTH in *; lia).
  cbv zeta. cbn [bufferedMessageLength set_bufferedMessage]. rewrite Hu.
  apply MessageHandler_read_bounds.
  unfold within_bounds, MAX_PDU_LENGTH in *.
  cbn [bufferedMessage pdu bufferedMessageLength set_bufferedMessageLength
       set_bufferedMessage].
  rewrite length_memcpy by lia. repeat split; lia.
Qed.

Lemma within_bounds_set_state (hndl : modbus_t) (s : MODBUS_STATE) :
  within_bounds hndl -> within_bounds (set_state hndl s).
Proof. intros H. exact H. Qed.

Lemma EpollThread_event_bounds (mh : modbus_t) (event : epoll_event) :
  within_bounds mh -> within_bounds (EpollThread_event mh event).
Proof.
  intros Hw. unfold EpollThread_event.
  destruct (MODBUS_STATE_eqb (state mh) Disconnected); [exact Hw|].
  assert (Hin : within_bounds
                  (if EPOLLIN event then
                     let '(mhsState, mh0) := ModBusRead mh (received event) in
                     match mhsState with
                     | success => set_state mh0 DataReceived
                     | failure => set_state mh0 TransactionFailed
                     | waiting => mh0
                     end
                   else mh)).
  { destruct (EPOLLIN event); [| exact Hw].
    assert (Hr : within_bounds (snd (ModBusRead mh (received event)))).
    { unfold ModBusRead. destruct (received event);
        apply MessageHandler_bounds; try exact Hw; apply uint16_nonneg. }
    destruct (ModBusRead mh (received event)) as [[| |] mh0]; exact Hr. }
  destruct (EPOLLHUP event); exact Hin.
Qed.

Lemma nanosleep_bounds (deliveries : nat -> list epoll_event) (w : world) :
  within_bounds (handle w) -> within_bounds (handle (nanosleep deliveries w)).
Proof.
  unfold nanosleep. cbn [handle].
  generalize (handle w). induction (deliveries (sleeps w)) as [| e es IH];
    intros h Hh; cbn [fold_left]; [exact Hh|].
  apply IH, EpollThread_event_bounds, Hh.
Qed.

Lemma WaitForData_loop_keeps (deliveries : nat -> list epoll_event) (fuel : nat) :
  forall (w w' : world) (timeout counter : Z),
    WaitForData_loop deliveries fuel w timeout counter = Some w' ->
    within_bounds (handle w) ->
    within_bounds (handle w') /\
    transactionIdentifier w' = transactionIdentifier w.
Proof.
  induction fuel as [| fuel IH]; intros w w' timeout counter E Hw.
  - cbn [WaitForData_loop] in E.
    destruct (wait_over (state (handle w))); [| discriminate].
    injection E as <-. split; [exact Hw | reflexivity].
  - cbn [WaitForData_loop] in E.
    destruct (wait_over (state (handle w))).
    + injection E as <-. split; [exact Hw | reflexivity].
    + destruct (nanosleep_keeps deliveries w) as (_ & Ht & _).
      pose proof (nanosleep_bounds deliveries w Hw) as Hn.
      destruct (0 <? timeout); [destruct (timeout <? counter) |].
      * injection E as <-. split; [exact Hn | exact Ht].
      * destruct (IH _ _ _ _ E Hn) as [Hb Hi]. split; [exact Hb | congruence].
      * destruct (IH _ _ _ _ E Hn) as [Hb Hi]. split; [exact Hb | congruence].
Qed.

(** X6. [WaitForData] with a positive timeout returns after at most
    [timeout + 2] naps whatever the epoll thread delivers to the handle
    meanwhile (frames, pieces of frames, other bytes, failed reads,
    hang-ups): the bound is that of the loop's own counter.  It sends
    nothing, leaves the transaction counter where it was, and a handle whose
    buffers are MAX_PDU_LENGTH long with less than that buffered is so
    afterwards. *)
Theorem wait_returns_within_timeout
    (deliveries : nat -> list epoll_event) (w : world) (timeout : Z) :
  within_bounds (handle w) ->
  0 < timeout < SIZE_MAX ->
  exists retval w',
    WaitForData deliveries (Z.to_nat timeout + 2) w timeout = Some (retval, w') /\
    Z.of_nat (sleeps w') <= Z.of_nat (sleeps w) + (timeout + 2) /\
    wire w' = wire w /\
    transactionIdentifier w' = transactionIdentifier w /\
    within_bounds (handle w').
Proof.
  intros Hb Ht. unfold WaitForData.
  destruct (WaitForData_loop_bounded deliveries (Z.to_nat timeout + 2) w timeout 0)
    as (w' & E & Hw & Hs); try lia.
  destruct (WaitForData_loop_keeps deliveries _ _ _ _ _ E Hb) as [Hb' Hi].
  rewrite E. eexists. eexists. split; [reflexivity|].
  cbn [sleeps wire transactionIdentifier handle set_handle].
  split; [lia|]. split; [exact Hw|]. split; [exact Hi|].
  apply within_bounds_set_state, Hb'.
Qed.

Lemma wait_returns_within_timeout_witness :
  exists (retval : bool) (w' : world),
   WaitForData (answer [1; 2; 3]) (Z.to_nat 1000 + 2)
     (set_handle (sample_world tcp 0 0) (sample_handle tcp WaitingForResponse 0 0)) 1000 =
   Some (retval, w') /\
   Z.of_nat (sleeps w') <=
   Z.of_nat
     (sleeps
        (set_handle (sample_world tcp 0 0) (sample_handle tcp WaitingForResponse 0 0))) +
   (1000 + 2) /\
   wire w' =
   wire (set_handle (sample_world tcp 0 0) (sample_handle tcp WaitingForResponse 0 0)) /\
   transactionIdentifier w' =
   transactionIdentifier
     (set_handle (sample_world tcp 0 0) (sample_handle tcp WaitingForResponse 0 0)) /\
   within_bounds (handle w').
Proof.
  apply (wait_returns_within_timeout (answer [1; 2; 3]) (set_handle (sample_world tcp 0 0) (sample_handle tcp WaitingForResponse 0 0)) 1000);
    [evaluated | evaluated].
Defined.

(** ** A request answered during the first nap *)

Lemma EpollThread_event_frame (hndl : modbus_t) (frame : list Z) :
  state hndl = WaitingForResponse ->
  isCFG hndl = false ->
  bufferedMessageLength hndl = 0 ->
  complete_frame hndl frame ->
  let f := framing_of (type hndl) in
  let pduMessageLength :=
    GetFcodeLength (rd frame (fCodeOffset f)) (rd frame (pduLengthOffset f)) in
  let hndl' := EpollThread_event hndl (mk_epoll_event true false (Some frame)) in
  state hndl' = DataReceived /\
  pduLength hndl' = pduMessageLength /\
  bufferedMessageLength hndl' = 0 /\
  (forall k, 0 <= k < pduMessageLength ->
             rd (pdu hndl') k = rd frame (transportHeaderLength f + k)).
Proof.
  intros Hs Hcfg Hz Hframe f pml hndl'.
  pose proof Hframe as ((Hmin & Hmax) & Htotal & _).
  fold f in Hmin, Htotal. fold pml in Htotal.
  destruct (framing_nonneg (type hndl)) as [Hh Hft]. fold f in Hh, Hft.
  assert (E : hndl' = set_state
                (shifted
                   (set_pdu
                      (set_lastTransactionId
                         (set_pduLength (buffered hndl frame) pml)
                         (uint16_t (Z.lor (Z.shiftl (rd frame 0) 8) (rd frame 1))))
                      (memcpy (pdu hndl) 0 (bufferedMessage (buffered hndl frame))
                              (transportHeaderLength f) pml))
                   (Z.of_nat (length frame)) 0) DataReceived).
  { unfold hndl', EpollThread_event. rewrite Hs.
    cbn [MODBUS_STATE_eqb EPOLLIN EPOLLHUP received ModBusRead].
    rewrite firstn_all2 by lia.
    rewrite uint16_small by (unfold MAX_PDU_LENGTH in Hmax; lia).
    rewrite MessageHandler_from_empty by assumption.
    pose proof (MessageHandler_read_takes_frame hndl frame [] Hcfg Hframe) as R.
    cbn [length] in R. rewrite app_nil_r in R.
    cbv zeta in R. rewrite R by (change (Z.of_nat 0) with 0; lia).
    reflexivity. }
  rewrite E. unfold shifted. cbn [Z.ltb Z.compare].
  cbn [state pduLength bufferedMessageLength pdu set_state set_pdu
       set_bufferedMessageLength set_lastTransactionId set_pduLength].
  repeat split.
  intros k Hk. unfold rd at 1.
  rewrite nth_memcpy by (cbn; lia).
  destruct (Nat.ltb_spec (Z.to_nat k) (Z.to_nat 0)); [lia|].
  destruct (Nat.ltb_spec (Z.to_nat k) (Z.to_nat 0 + Z.to_nat pml)); [| lia].
  cbn [buffered bufferedMessage set_bufferedMessageLength set_bufferedMessage].
  rewrite app_nth1 by lia. unfold rd. f_equal. lia.
Qed.

Section Answered.

Variable send : list Z -> Z.
Variable deliveries : nat -> list epoll_event.

(** A wait that finds the handle served during its first nap ends there. *)
Lemma WaitForData_loop_one_nap (fuel : nat) (w : world) (timeout : Z) :
  wait_over (state (handle w)) = false ->
  wait_over (state (handle (nanosleep deliveries w))) = true ->
  WaitForData_loop deliveries (S fuel) w timeout 0
    = Some (nanosleep deliveries w).
Proof.
  intros H1 H2. cbn [WaitForData_loop]. rewrite H1.
  destruct (0 <? timeout); [destruct (timeout <? 0); [reflexivity|] |];
    destruct fuel; cbn [WaitForData_loop]; rewrite H2; reflexivity.
Qed.

Lemma WaitForData_answered (fuel : nat) (w : world) (timeout : Z)
    (frame : list Z) :
  state (handle w) = WaitingForResponse ->
  isCFG (handle w) = false ->
  bufferedMessageLength (handle w) = 0 ->
  answered_with deliveries w frame ->
  complete_frame (handle w) frame ->
  (1 <= fuel)%nat ->
  WaitForData deliveries fuel w timeout
    = Some (true,
            mk_world
              (set_state
                 (EpollThread_event (handle w)
                    (mk_epoll_event true false (Some frame))) Idle)
              (transactionIdentifier w) (wire w) (S (sleeps w))).
Proof.
  intros Hs Hcfg Hz Hans Hframe Hfuel.
  destruct (EpollThread_event_frame (handle w) frame Hs Hcfg Hz Hframe)
    as (Hst & _).
  assert (Hn : nanosleep deliveries w
               = mk_world (EpollThread_event (handle w)
                             (mk_epoll_event true false (Some frame)))
                          (transactionIdentifier w) (wire w) (S (sleeps w))).
  { unfold nanosleep. rewrite Hans. reflexivity. }
  destruct fuel as [| fuel]; [lia|].
  unfold WaitForData. rewrite WaitForData_loop_one_nap.
  - rewrite Hn. cbn [handle]. rewrite Hst. reflexivity.
  - rewrite Hs. reflexivity.
  - rewrite Hn. cbn [handle]. rewrite Hst. reflexivity.
Qed.

(** Sending a request and waiting, when the answer arrives during the first
    nap: the wait reports data after one nap, with the PDU of the answer in
    the handle. *)
Lemma exchange_answered (fuel : nat) (w : world) (modBusPacket : list Z)
    (packetLength timeout : Z) (frame : list Z) :
  accepting send -> 0 <= packetLength ->
  isCFG (handle w) = false ->
  bufferedMessageLength (handle w) = 0 ->
  answered_with deliveries w frame ->
  complete_frame (awaiting w) frame ->
  (1 <= fuel)%nat ->
  let f := framing_of (type (handle w)) in
  let pduMessageLength :=
    GetFcodeLength (rd frame (fCodeOffset f)) (rd frame (pduLengthOffset f)) in
  exists w1 w2,
    ModBusWrite send w modBusPacket packetLength = (true, w1) /\
    WaitForData deliveries fuel w1 timeout = Some (true, w2) /\
    wire w2 = wire w1 /\
    state (handle w2) = Idle /\
    sleeps w2 = S (sleeps w) /\
    transactionIdentifier w2 = uint16_t (transactionIdentifier w + 1) /\
    pduLength (handle w2) = pduMessageLength /\
    (forall k, 0 <= k < pduMessageLength ->
               rd (pdu (handle w2)) k = rd frame (transportHeaderLength f + k)).
Proof.
  intros Ha Hp Hcfg Hz Hans Hframe Hfuel f pml.
  destruct (ModBusWrite_accepted send w modBusPacket packetLength Ha Hp)
    as (sentFrame & E).
  set (h1 := set_state
               (set_transactionId
                  (set_pduLength (set_state (handle w) SendingRequest) 0)
                  (transactionIdentifier w)) WaitingForResponse) in E.
  set (w1 := mk_world h1 (uint16_t (transactionIdentifier w + 1))
                      (wire w ++ [sentFrame]) (sleeps w)) in E.
  destruct (EpollThread_event_frame h1 frame eq_refl Hcfg Hz Hframe)
    as (Hst & Hpl & Hbl & Hpdu).
  exists w1. eexists. split; [exact E|].
  split; [apply (WaitForData_answered fuel w1 timeout frame); auto|].
  cbn [handle sleeps transactionIdentifier state pduLength pdu set_state wire].
  repeat split; assumption.
Qed.

End Answered.

Lemma in_bounds_sendable (r : request) : in_bounds r -> sendable r.
Proof.
  destruct r; cbn [in_bounds sendable]; auto.
  unfold MAX_PDU_LENGTH, PDU_HEADER_LENGTH. lia.
Qed.

Lemma complete_frame_pdu_length (hndl : modbus_t) (frame : list Z) :
  complete_frame hndl frame ->
  let f := framing_of (type hndl) in
  3 <= GetFcodeLength (rd frame (fCodeOffset f)) (rd frame (pduLengthOffset f)).
Proof.
  intros ((Hmin & _) & Htotal & _). cbv zeta.
  destruct (type hndl);
    cbn [framing_of minLength fCodeOffset pduLengthOffset transportHeaderLength
         transportFooterLength] in *;
    unfold TCP_HEADER_LENGTH, PDU_HEADER_LENGTH, CRC_FOOTER_LENGTH,
      MESSAGE_HEADER_LENGTH in *; lia.
Qed.

Lemma offsets_of (t : modbusTransportType_t) :
  fCodeOffset (framing_of t) = transportHeaderLength (framing_of t) + 1 /\
  pduLengthOffset (framing_of t) = transportHeaderLength (framing_of t) + 2.
Proof. destruct t; cbn; unfold TCP_HEADER_LENGTH, MESSAGE_HEADER_LENGTH; lia. Qed.

Ltac open_request Hs :=
  cbn [invoke];
  unfold ReadCoils, ReadDiscreteInputs, ReadMultipleHoldingRegisters,
    ReadInputRegisters, WriteSingleCoil, WriteSingleHoldingRegister,
    WriteMultipleCoils, WriteMultipleHoldingRegisters, ReadFile, WriteFile;
  rewrite (not_idle_false _ Hs).

Ltac run_exchange send deliveries fuel timeout frame Ha Hz Hans Hframe Hfuel :=
  match goal with
  | |- context [ModBusWrite send ?w0 ?p ?n] =>
      let w1 := fresh "w1" in
      let w2 := fresh "w2" in
      let E1 := fresh "E1" in
      let E2 := fresh "E2" in
      destruct (exchange_answered send deliveries fuel w0 p n timeout frame Ha
                  ltac:(first [lia | apply uint16_nonneg | apply uint8_nonneg])
                  eq_refl Hz Hans Hframe Hfuel)
        as (w1 & w2 & E1 & E2 & Hwire & Hidle & Hsl & Htid & Hpl & Hpdu);
      cbn [handle set_handle type set_isCFG sleeps transactionIdentifier]
        in Hidle, Hsl, Htid, Hpl, Hpdu;
      rewrite E1; cbn [negb]; rewrite E2; cbv zeta
  end.

(** X7. An exception response (function code with the high bit set, hence one
    of 0x81 to 0xA0, the exceptions the length table knows) makes the
    request fail with the exception code of the slave in [readArray[0]],
    for a [readArray] of at least one entry.
    Setting: an Idle handle with an empty accumulation buffer; a request
    within its bounds; a transport that takes the frame; the answer
    delivered in one piece during the first nap, a complete valid frame for
    the awaited transaction (at least the minimum length and fewer than
    MAX_PDU_LENGTH bytes, exactly as long as its function code and length
    byte ask for, so with a function code the length table knows). *)
Theorem exception_response_is_reported
    (DEVICE_DISCONNECTED : Z) (send : list Z -> Z)
    (deliveries : nat -> list epoll_event) (fuel : nat) (w : world)
    (r : request) (readArray : list Z) (timeout : Z) (frame : list Z) :
  state (handle w) = Idle ->
  bufferedMessageLength (handle w) = 0 ->
  in_bounds r ->
  1 <= Z.of_nat (length readArray) ->
  accepting send ->
  answered_with deliveries w frame ->
  complete_frame (awaiting w) frame ->
  (1 <= fuel)%nat ->
  let f := framing_of (type (handle w)) in
  Z.land (rd frame (fCodeOffset f)) MODBUS_EXCEPTION_BIT <> 0 ->
  exists w',
    invoke DEVICE_DISCONNECTED send deliveries fuel w r readArray timeout
      = Some (false, wr readArray 0 (rd frame (pduLengthOffset f)), w') /\
    state (handle w') = Idle /\
    sleeps w' = S (sleeps w).
Proof.
  intros Hs Hz Hok _ Ha Hans Hframe Hfuel f Hex.
  apply in_bounds_sendable in Hok.
  pose proof (complete_frame_pdu_length _ _ Hframe) as H3.
  destruct (offsets_of (type (handle w))) as [Of Ol].
  cbn [awaiting type set_transactionId] in H3. subst f.
  destruct r; open_request Hs;
    try (cbn [sendable] in Hok;
         destruct (Z.ltb_spec messageLength MAX_PDU_LENGTH); [| lia]; cbn [negb]);
    run_exchange send deliveries fuel timeout frame Ha Hz Hans Hframe Hfuel;
    unfold exception_bit; rewrite !Hpdu by lia;
    rewrite <- Of, <- Ol;
    (destruct (Z.eqb_spec (Z.land (rd frame (fCodeOffset
                                    (framing_of (type (handle w)))))
                             MODBUS_EXCEPTION_BIT) 0);
     [contradiction |]); cbn [negb];
    (eexists; split; [reflexivity | split; assumption]).
Qed.

Lemma exception_response_is_reported_witness :
  exists w' : world,
   invoke 24 send_whole (answer [0; 0; 0; 0; 0; 3; 1; 129; 2]) 5 
     (sample_world tcp 0 0) (ReadCoils_request 1 100 4) [0] 1000 =
   Some
     (false,
      wr [0] 0
        (rd [0; 0; 0; 0; 0; 3; 1; 129; 2]
           (pduLengthOffset (framing_of (type (handle (sample_world tcp 0 0)))))),
      w') /\
   state (handle w') = Idle /\ sleeps w' = S (sleeps (sample_world tcp 0 0)).
Proof.
  apply (exception_response_is_reported 24 send_whole (answer [0; 0; 0; 0; 0; 3; 1; 129; 2]) 5%nat (sample_world tcp 0 0) (ReadCoils_request 1 100 4) [0] 1000 [0; 0; 0; 0; 0; 3; 1; 129; 2]);
    [evaluated | evaluated | evaluated | evaluated | intro frame; reflexivity | evaluated | frame_ok | evaluated | evaluated].
Defined.

(** X8. A response that is no exception but carries another function code than
    the one asked for (one the length table knows) makes the request fail
    with INVALID_RESPONSE in [readArray[0]], for a [readArray] of at least
    one entry.
    Setting: an Idle handle with an empty accumulation buffer; a request
    within its bounds; a transport that takes the frame; the answer
    delivered in one piece during the first nap, a complete valid frame for
    the awaited transaction (at least the minimum length and fewer than
    MAX_PDU_LENGTH bytes, exactly as long as its function code and length
    byte ask for, so with a function code the length table knows). *)
Theorem wrong_function_code_is_invalid_response
    (DEVICE_DISCONNECTED : Z) (send : list Z -> Z)
    (deliveries : nat -> list epoll_event) (fuel : nat) (w : world)
    (r : request) (readArray : list Z) (timeout : Z) (frame : list Z) :
  state (handle w) = Idle ->
  bufferedMessageLength (handle w) = 0 ->
  in_bounds r ->
  1 <= Z.of_nat (length readArray) ->
  accepting send ->
  answered_with deliveries w frame ->
  complete_frame (awaiting w) frame ->
  (1 <= fuel)%nat ->
  let f := framing_of (type (handle w)) in
  Z.land (rd frame (fCodeOffset f)) MODBUS_EXCEPTION_BIT = 0 ->
  rd frame (fCodeOffset f) <> request_fcode r ->
  exists w',
    invoke DEVICE_DISCONNECTED send deliveries fuel w r readArray timeout
      = Some (false, wr readArray 0 INVALID_RESPONSE, w') /\
    state (handle w') = Idle /\
    sleeps w' = S (sleeps w).
Proof.
  intros Hs Hz Hok _ Ha Hans Hframe Hfuel f Hex Hfc.
  apply in_bounds_sendable in Hok.
  pose proof (complete_frame_pdu_length _ _ Hframe) as H3.
  destruct (offsets_of (type (handle w))) as [Of Ol].
  cbn [awaiting type set_transactionId] in H3. subst f.
  destruct r; open_request Hs;
    try (cbn [sendable] in Hok;
         destruct (Z.ltb_spec messageLength MAX_PDU_LENGTH); [| lia]; cbn [negb]);
    run_exchange send deliveries fuel timeout frame Ha Hz Hans Hframe Hfuel;
    unfold exception_bit; rewrite !Hpdu by lia;
    rewrite <- Of, Hex; cbn [Z.eqb negb];
    cbn [request_fcode] in Hfc;
    match goal with
    | |- context [if negb (?a =? ?b) then _ else _] =>
        destruct (Z.eqb_spec a b); [contradiction |]
    end; cbn [negb];
    (eexists; split; [reflexivity | split; assumption]).
Qed.

Lemma wrong_function_code_is_invalid_response_witness :
  exists w' : world,
   invoke 24 send_whole (answer [0; 0; 0; 0; 0; 4; 1; 2; 1; 15]) 5 
     (sample_world tcp 0 0) (ReadCoils_request 1 100 4) [0] 1000 =
   Some (false, wr [0] 0 INVALID_RESPONSE, w') /\
   state (handle w') = Idle /\ sleeps w' = S (sleeps (sample_world tcp 0 0)).
Proof.
  apply (wrong_function_code_is_invalid_response 24 send_whole (answer [0; 0; 0; 0; 0; 4; 1; 2; 1; 15]) 5%nat (sample_world tcp 0 0) (ReadCoils_request 1 100 4) [0] 1000 [0; 0; 0; 0; 0; 4; 1; 2; 1; 15]);
    [evaluated | evaluated | evaluated | evaluated | intro frame; reflexivity | evaluated | frame_ok | evaluated | evaluated | evaluated].
Defined.

Lemma GetFcodeLength_counted (fCode dataLength : Z) :
  fCode = READ_COILS \/ fCode = READ_DISCRETE_INPUTS \/
  fCode = READ_MULTIPLE_HOLDING_REGISTERS \/ fCode = READ_INPUT_REGISTERS \/
  fCode = READ_FILE \/ fCode = WRITE_FILE ->
  is_byte dataLength ->
  GetFcodeLength fCode dataLength = PDU_HEADER_LENGTH + dataLength.
Proof.
  intros H Hb. unfold is_byte in Hb.
  assert (Hu : uint16_t (PDU_HEADER_LENGTH + dataLength)
               = PDU_HEADER_LENGTH + dataLength)
    by (apply uint16_small; unfold PDU_HEADER_LENGTH; lia).
  destruct H as [-> | [-> | [-> | [-> | [-> | ->]]]]];
    unfold GetFcodeLength; cbn; exact Hu.
Qed.

Lemma GetFcodeLength_echo (fCode dataLength : Z) :
  fCode = WRITE_SINGLE_COIL \/ fCode = WRITE_SINGLE_HOLDING_REGISTER \/
  fCode = WRITE_MULTIPLE_COILS \/ fCode = WRITE_MULTIPLE_HOLDING_REGISTERS ->
  GetFcodeLength fCode dataLength = 6.
Proof.
  intros [-> | [-> | [-> | ->]]]; reflexivity.
Qed.

Lemma exception_bit_clear (fCode : Z) :
  0 <= fCode < 128 -> Z.land fCode MODBUS_EXCEPTION_BIT = 0.
Proof.
  intros H. unfold MODBUS_EXCEPTION_BIT. apply Z.bits_inj'. intros k Hk.
  rewrite Z.land_spec, Z.bits_0.
  destruct (Z.eq_dec k 7) as [-> | Hne].
  - replace (Z.testbit fCode 7) with false; [reflexivity|].
    symmetry. apply Z.bits_above_log2; [lia|].
    destruct (Z.eq_dec fCode 0) as [-> | Hnz]; [reflexivity|].
    apply Z.log2_lt_pow2; lia.
  - replace (Z.testbit 128 k) with false; [apply andb_false_r|].
    symmetry. change 128 with (2 ^ 7). apply Z.pow2_bits_false. lia.
Qed.

(** X9. A good answer to a coil, discrete-input or file request gives the caller
    the data bytes of the answer, as many as the answer's own byte count
    says, whatever number was asked for; [readArray] is at least that long.
    Setting: an Idle handle with an empty accumulation buffer; a request
    within its bounds; a transport that takes the frame; the answer
    delivered in one piece during the first nap, a complete valid frame for
    the awaited transaction (at least the minimum length and fewer than
    MAX_PDU_LENGTH bytes, exactly as long as its function code and length
    byte ask for, so with a function code the length table knows). *)
Theorem counted_bytes_are_handed_over
    (DEVICE_DISCONNECTED : Z) (send : list Z -> Z)
    (deliveries : nat -> list epoll_event) (fuel : nat) (w : world)
    (r : request) (readArray : list Z) (timeout : Z) (frame : list Z) :
  state (handle w) = Idle ->
  bufferedMessageLength (handle w) = 0 ->
  in_bounds r ->
  counted_bytes_request r = true ->
  accepting send ->
  answered_with deliveries w frame ->
  complete_frame (awaiting w) frame ->
  (1 <= fuel)%nat ->
  let f := framing_of (type (handle w)) in
  let count := rd frame (pduLengthOffset f) in
  rd frame (fCodeOffset f) = request_fcode r ->
  is_byte count ->
  count <= Z.of_nat (length readArray) ->
  exists readArray' w',
    invoke DEVICE_DISCONNECTED send deliveries fuel w r readArray timeout
      = Some (true, readArray', w') /\
    state (handle w') = Idle /\
    (forall k, 0 <= k < count ->
       rd readArray' k = rd frame (transportHeaderLength f + PDU_HEADER_LENGTH + k)) /\
    (forall k, count <= k -> rd readArray' k = rd readArray k).
Proof.
  intros Hs Hz Hok Hkind Ha Hans Hframe Hfuel f count Hfc Hb _.
  apply in_bounds_sendable in Hok.
  destruct (offsets_of (type (handle w))) as [Of Ol].
  subst count f. unfold is_byte in Hb.
  assert (Hlen : GetFcodeLength
                   (rd frame (fCodeOffset (framing_of (type (handle w)))))
                   (rd frame (pduLengthOffset (framing_of (type (handle w)))))
                 = PDU_HEADER_LENGTH
                   + rd frame (pduLengthOffset (framing_of (type (handle w))))).
  { apply GetFcodeLength_counted; [| exact Hb].
    rewrite Hfc. destruct r; try discriminate Hkind; cbn; auto 10. }
  assert (Hclear : Z.land (request_fcode r) MODBUS_EXCEPTION_BIT = 0)
    by (destruct r; reflexivity).
  unfold PDU_HEADER_LENGTH in *.
  destruct r; try discriminate Hkind; open_request Hs;
    try (cbn [sendable] in Hok;
         destruct (Z.ltb_spec messageLength MAX_PDU_LENGTH); [| lia]; cbn [negb]);
    run_exchange send deliveries fuel timeout frame Ha Hz Hans Hframe Hfuel;
    rewrite Hlen in Hpl, Hpdu;
    unfold exception_bit; rewrite !Hpdu by lia;
    rewrite <- Of, Hfc, Hclear; cbn [request_fcode Z.eqb negb];
    rewrite Z.eqb_refl; cbn [negb];
    unfold PduDataLength, PDU_HEADER_LENGTH; rewrite Hpl;
    replace (3 + rd frame (pduLengthOffset (framing_of (type (handle w)))) - 3)
      with (rd frame (pduLengthOffset (framing_of (type (handle w))))) by lia;
    rewrite uint16_small by lia;
    (eexists; eexists; split; [reflexivity |]);
    (split; [exact Hidle |]);
    (split; intros k Hk; unfold rd at 1;
     rewrite nth_memcpy by (cbn; lia);
     (destruct (Nat.ltb_spec (Z.to_nat k) (Z.to_nat 0)); [lia|]);
     (destruct (Nat.ltb_spec (Z.to_nat k)
                 (Z.to_nat 0
                  + Z.to_nat (rd frame (pduLengthOffset
                                          (framing_of (type (handle w)))))));
      try lia);
     [ replace (Z.to_nat 3 + (Z.to_nat k - Z.to_nat 0))%nat
         with (Z.to_nat (3 + k)) by lia;
       fold (rd (pdu (handle w2)) (3 + k));
       rewrite Hpdu by lia; f_equal; lia
     | reflexivity ]).
Qed.

Lemma counted_bytes_are_handed_over_witness :
  exists (readArray' : list Z) (w' : world),
   invoke 24 send_whole (answer [0; 0; 0; 0; 0; 4; 1; 1; 1; 15]) 5 
     (sample_world tcp 0 0) (ReadCoils_request 1 100 4) [0] 1000 =
   Some (true, readArray', w') /\
   state (handle w') = Idle /\
   (forall k : Z,
    0 <= k <
    rd [0; 0; 0; 0; 0; 4; 1; 1; 1; 15]
      (pduLengthOffset (framing_of (type (handle (sample_world tcp 0 0))))) ->
    rd readArray' k =
    rd [0; 0; 0; 0; 0; 4; 1; 1; 1; 15]
      (transportHeaderLength (framing_of (type (handle (sample_world tcp 0 0)))) +
       PDU_HEADER_LENGTH + k)) /\
   (forall k : Z,
    rd [0; 0; 0; 0; 0; 4; 1; 1; 1; 15]
      (pduLengthOffset (framing_of (type (handle (sample_world tcp 0 0))))) <=
    k -> rd readArray' k = rd [0] k).
Proof.
  apply (counted_bytes_are_handed_over 24 send_whole (answer [0; 0; 0; 0; 0; 4; 1; 1; 1; 15]) 5%nat (sample_world tcp 0 0) (ReadCoils_request 1 100 4) [0] 1000 [0; 0; 0; 0; 0; 4; 1; 1; 1; 15]);
    [evaluated | evaluated | evaluated | evaluated | intro frame; reflexivity | evaluated | frame_ok | evaluated | evaluated | evaluated | evaluated].
Defined.

Lemma copy_registers_rd (pdu : list Z) (count : nat) :
  forall (readArray : list Z) (i : Z),
    0 <= i < Z.of_nat (length readArray) ->
    rd (copy_registers readArray pdu (Z.of_nat count)) i
    = if i <? Z.of_nat count
      then uint16_t (Z.lor (Z.shiftl (rd pdu (i * 2 + 3)) 8) (rd pdu (i * 2 + 4)))
      else rd readArray i.
Proof.
  unfold copy_registers. rewrite Nat2Z.id.
  induction count as [| count IH]; intros readArray i Hi.
  - cbn [seq fold_left]. destruct (Z.ltb_spec i (Z.of_nat 0)); [lia | reflexivity].
  - rewrite seq_S, fold_left_app. cbn [fold_left Nat.add].
    set (done := fold_left _ (seq 0 count) readArray) in *.
    assert (Hlen : length done = length readArray).
    { unfold done. clear. generalize (seq 0 count). intros l.
      revert readArray. induction l as [| x l IHl]; intros readArray;
        [reflexivity|]. cbn [fold_left]. rewrite IHl. apply length_wr. }
    destruct (Z.eq_dec i (Z.of_nat count)) as [-> | Hne].
    + rewrite rd_wr_same by lia.
      destruct (Z.ltb_spec (Z.of_nat count) (Z.of_nat (S count))); [reflexivity | lia].
    + rewrite rd_wr_other by lia.
      unfold done. rewrite IH by exact Hi.
      destruct (Z.ltb_spec i (Z.of_nat count)), (Z.ltb_spec i (Z.of_nat (S count)));
        try reflexivity; lia.
Qed.

(** X10. A good answer to a register read gives the caller the registers of the
    answer decoded big-endian, as many as half the answer's own byte count;
    [readArray] has at least that many entries.
    Setting: an Idle handle with an empty accumulation buffer; a request
    within its bounds; a transport that takes the frame; the answer
    delivered in one piece during the first nap, a complete valid frame for
    the awaited transaction (at least the minimum length and fewer than
    MAX_PDU_LENGTH bytes, exactly as long as its function code and length
    byte ask for, so with a function code the length table knows). *)
Theorem registers_are_decoded_big_endian
    (DEVICE_DISCONNECTED : Z) (send : list Z -> Z)
    (deliveries : nat -> list epoll_event) (fuel : nat) (w : world)
    (r : request) (readArray : list Z) (timeout : Z) (frame : list Z) :
  state (handle w) = Idle ->
  bufferedMessageLength (handle w) = 0 ->
  in_bounds r ->
  register_request r = true ->
  accepting send ->
  answered_with deliveries w frame ->
  complete_frame (awaiting w) frame ->
  (1 <= fuel)%nat ->
  let f := framing_of (type (handle w)) in
  let count := rd frame (pduLengthOffset f) in
  rd frame (fCodeOffset f) = request_fcode r ->
  is_byte count ->
  count / 2 <= Z.of_nat (length readArray) ->
  exists readArray' w',
    invoke DEVICE_DISCONNECTED send deliveries fuel w r readArray timeout
      = Some (true, readArray', w') /\
    state (handle w') = Idle /\
    (forall i, 0 <= i < count / 2 ->
       rd readArray' i
       = uint16_t
           (Z.lor (Z.shiftl (rd frame (transportHeaderLength f + PDU_HEADER_LENGTH
                                        + 2 * i)) 8)
                  (rd frame (transportHeaderLength f + PDU_HEADER_LENGTH
                             + 2 * i + 1)))) /\
    (forall i, count / 2 <= i -> rd readArray' i = rd readArray i).
Proof.
  intros Hs Hz _ Hkind Ha Hans Hframe Hfuel f count Hfc Hb Hra.
  destruct (offsets_of (type (handle w))) as [Of Ol].
  subst count f. unfold is_byte in Hb.
  assert (Hlen : GetFcodeLength
                   (rd frame (fCodeOffset (framing_of (type (handle w)))))
                   (rd frame (pduLengthOffset (framing_of (type (handle w)))))
                 = PDU_HEADER_LENGTH
                   + rd frame (pduLengthOffset (framing_of (type (handle w))))).
  { apply GetFcodeLength_counted; [| exact Hb].
    rewrite Hfc. destruct r; try discriminate Hkind; cbn; auto 10. }
  assert (Hclear : Z.land (request_fcode r) MODBUS_EXCEPTION_BIT = 0)
    by (destruct r; reflexivity).
  unfold PDU_HEADER_LENGTH in *.
  set (n := rd frame (pduLengthOffset (framing_of (type (handle w))))) in *.
  assert (Hhalf : 0 <= n / 2) by (apply Z.div_pos; lia).
  assert (Hhalf2 : 2 * (n / 2) <= n)
    by (pose proof (Z.mul_div_le n 2); lia).
  destruct r; try discriminate Hkind; open_request Hs;
    run_exchange send deliveries fuel timeout frame Ha Hz Hans Hframe Hfuel;
    fold n in Hpl, Hpdu;
    rewrite Hlen in Hpl, Hpdu;
    unfold exception_bit; rewrite !Hpdu by lia;
    rewrite <- Of, Hfc, Hclear; cbn [request_fcode Z.eqb negb];
    rewrite Z.eqb_refl; cbn [negb];
    unfold PduDataLength, PDU_HEADER_LENGTH; rewrite Hpl;
    replace (3 + n - 3) with n by lia;
    rewrite uint16_small by lia;
    (eexists; eexists; split; [reflexivity |]);
    (split; [exact Hidle |]);
    rewrite <- (Z2Nat.id (n / 2)) by exact Hhalf;
    (split; intros i Hi;
     [assert (Hin : i < Z.of_nat (length readArray)) by lia |]).
  all: try (rewrite copy_registers_rd by lia;
            destruct (Z.ltb_spec i (Z.of_nat (Z.to_nat (n / 2)))); [| lia];
            rewrite !Hpdu by lia; f_equal; f_equal; [f_equal |]; f_equal; lia).
  all: destruct (Z_lt_le_dec i (Z.of_nat (length readArray))) as [Hin | Hout].
  all: try (rewrite copy_registers_rd by lia;
            destruct (Z.ltb_spec i (Z.of_nat (Z.to_nat (n / 2)))); [lia|];
            reflexivity).
  all: unfold rd; rewrite !nth_overflow; try reflexivity; try lia.
  all: unfold copy_registers;
    match goal with
    | |- (length (fold_left ?g ?l ?a) <= _)%nat =>
        assert (Hl : length (fold_left g l a) = length a);
        [ generalize l; intros l0; generalize a; induction l0 as [| x l0 IHl];
          intros a0; [reflexivity | cbn [fold_left]; rewrite IHl; apply length_wr]
        | rewrite Hl; lia ]
    end.
Qed.

Lemma registers_are_decoded_big_endian_witness :
  exists (readArray' : list Z) (w' : world),
   invoke 24 send_whole (answer [0; 0; 0; 0; 0; 5; 1; 3; 2; 18; 52]) 5
     (sample_world tcp 0 0) (ReadMultipleHoldingRegisters_request 1 0 1) [0] 1000 =
   Some (true, readArray', w') /\
   state (handle w') = Idle /\
   (forall i : Z,
    0 <= i <
    rd [0; 0; 0; 0; 0; 5; 1; 3; 2; 18; 52]
      (pduLengthOffset (framing_of (type (handle (sample_world tcp 0 0))))) /
    2 ->
    rd readArray' i =
    uint16_t
      (Z.lor
         (Z.shiftl
            (rd [0; 0; 0; 0; 0; 5; 1; 3; 2; 18; 52]
               (transportHeaderLength (framing_of (type (handle (sample_world tcp 0 0)))) +
                PDU_HEADER_LENGTH + 2 * i))
            8)
         (rd [0; 0; 0; 0; 0; 5; 1; 3; 2; 18; 52]
            (transportHeaderLength (framing_of (type (handle (sample_world tcp 0 0)))) +
             PDU_HEADER_LENGTH + 2 * i + 1)))) /\
   (forall i : Z,
    rd [0; 0; 0; 0; 0; 5; 1; 3; 2; 18; 52]
      (pduLengthOffset (framing_of (type (handle (sample_world tcp 0 0))))) /
    2 <= i -> rd readArray' i = rd [0] i).
Proof.
  apply (registers_are_decoded_big_endian 24 send_whole (answer [0; 0; 0; 0; 0; 5; 1; 3; 2; 18; 52]) 5%nat (sample_world tcp 0 0) (ReadMultipleHoldingRegisters_request 1 0 1) [0] 1000 [0; 0; 0; 0; 0; 5; 1; 3; 2; 18; 52]);
    [evaluated | evaluated | evaluated | evaluated | intro frame; reflexivity | evaluated | frame_ok | evaluated | evaluated | evaluated | evaluated].
Defined.

(** X11. A good answer to a write request gives the caller the four bytes that
    follow the function code in the answer: the address and the value or
    quantity the slave echoes; [readArray] has at least four bytes.
    Setting: an Idle handle with an empty accumulation buffer; a request
    within its bounds; a transport that takes the frame; the answer
    delivered in one piece during the first nap, a complete valid frame for
    the awaited transaction (at least the minimum length and fewer than
    MAX_PDU_LENGTH bytes, exactly as long as its function code and length
    byte ask for, so with a function code the length table knows). *)
Theorem write_echo_is_handed_over
    (DEVICE_DISCONNECTED : Z) (send : list Z -> Z)
    (deliveries : nat -> list epoll_event) (fuel : nat) (w : world)
    (r : request) (readArray : list Z) (timeout : Z) (frame : list Z) :
  state (handle w) = Idle ->
  bufferedMessageLength (handle w) = 0 ->
  in_bounds r ->
  WRITE_RESPONSE_BYTES <= Z.of_nat (length readArray) ->
  echoed_request r = true ->
  accepting send ->
  answered_with deliveries w frame ->
  complete_frame (awaiting w) frame ->
  (1 <= fuel)%nat ->
  let f := framing_of (type (handle w)) in
  rd frame (fCodeOffset f) = request_fcode r ->
  exists readArray' w',
    invoke DEVICE_DISCONNECTED send deliveries fuel w r readArray timeout
      = Some (true, readArray', w') /\
    state (handle w') = Idle /\
    (forall k, 0 <= k < WRITE_RESPONSE_BYTES ->
       rd readArray' k
       = rd frame (transportHeaderLength f + WRITE_RESPONSE_START + k)) /\
    (forall k, WRITE_RESPONSE_BYTES <= k -> rd readArray' k = rd readArray k).
Proof.
  intros Hs Hz _ _ Hkind Ha Hans Hframe Hfuel f Hfc.
  destruct (offsets_of (type (handle w))) as [Of Ol].
  subst f.
  assert (Hlen : GetFcodeLength
                   (rd frame (fCodeOffset (framing_of (type (handle w)))))
                   (rd frame (pduLengthOffset (framing_of (type (handle w)))))
                 = 6).
  { apply GetFcodeLength_echo.
    rewrite Hfc. destruct r; try discriminate Hkind; cbn; auto 10. }
  assert (Hclear : Z.land (request_fcode r) MODBUS_EXCEPTION_BIT = 0)
    by (destruct r; reflexivity).
  unfold WRITE_RESPONSE_BYTES, WRITE_RESPONSE_START.
  destruct r; try discriminate Hkind; open_request Hs;
    run_exchange send deliveries fuel timeout frame Ha Hz Hans Hframe Hfuel;
    rewrite Hlen in Hpl, Hpdu;
    unfold exception_bit; rewrite !Hpdu by lia;
    rewrite <- Of, Hfc, Hclear; cbn [request_fcode Z.eqb negb];
    rewrite Z.eqb_refl; cbn [negb];
    unfold WRITE_RESPONSE_BYTES, WRITE_RESPONSE_START;
    (eexists; eexists; split; [reflexivity |]);
    (split; [exact Hidle |]);
    (split; intros k Hk; unfold rd at 1;
     rewrite nth_memcpy by (cbn; lia);
     (destruct (Nat.ltb_spec (Z.to_nat k) (Z.to_nat 0)); [lia|]);
     (destruct (Nat.ltb_spec (Z.to_nat k) (Z.to_nat 0 + Z.to_nat 4)); try lia);
     [ replace (Z.to_nat 2 + (Z.to_nat k - Z.to_nat 0))%nat
         with (Z.to_nat (2 + k)) by lia;
       fold (rd (pdu (handle w2)) (2 + k));
       rewrite Hpdu by lia; f_equal; lia
     | reflexivity ]).
Qed.

Lemma write_echo_is_handed_over_witness :
  exists (readArray' : list Z) (w' : world),
   invoke 24 send_whole (answer [0; 0; 0; 0; 0; 6; 1; 5; 0; 7; 255; 0]) 5
     (sample_world tcp 0 0) (WriteSingleCoil_request 1 7 true) [
     0; 0; 0; 0] 1000 =
   Some (true, readArray', w') /\
   state (handle w') = Idle /\
   (forall k : Z,
    0 <= k < WRITE_RESPONSE_BYTES ->
    rd readArray' k =
    rd [0; 0; 0; 0; 0; 6; 1; 5; 0; 7; 255; 0]
      (transportHeaderLength (framing_of (type (handle (sample_world tcp 0 0)))) +
       WRITE_RESPONSE_START + k)) /\
   (forall k : Z, WRITE_RESPONSE_BYTES <= k -> rd readArray' k = rd [0; 0; 0; 0] k).
Proof.
  apply (write_echo_is_handed_over 24 send_whole (answer [0; 0; 0; 0; 0; 6; 1; 5; 0; 7; 255; 0]) 5%nat (sample_world tcp 0 0) (WriteSingleCoil_request 1 7 true) [0; 0; 0; 0] 1000 [0; 0; 0; 0; 0; 6; 1; 5; 0; 7; 255; 0]);
    [evaluated | evaluated | evaluated | evaluated | evaluated | intro frame; reflexivity | evaluated | frame_ok | evaluated | evaluated].
Defined.

(** ** A frame from the future *)

Lemma MessageHandler_read_future (hndl : modbus_t) (data : list Z) :
  type hndl = tcp ->
  isCFG hndl = false ->
  TCP_HEADER_LENGTH + PDU_HEADER_LENGTH <= Z.of_nat (length data) < MAX_PDU_LENGTH ->
  GetFcodeLength (rd data (TCP_HEADER_LENGTH + 1)) (rd data (TCP_HEADER_LENGTH + 2))
    + TCP_HEADER_LENGTH <= Z.of_nat (length data) ->
  transactionCheck (transactionId hndl) (lastTransactionId hndl)
    (uint16_t (Z.lor (Z.shiftl (rd data 0) 8) (rd data 1)))
    = TransactionFromFuture ->
  MessageHandler_read (buffered hndl data)
    = (failure, set_bufferedMessageLength (buffered hndl data) 0).
Proof.
  intros Ht Hcfg Hlen Hfull Hfuture.
  unfold TCP_HEADER_LENGTH, PDU_HEADER_LENGTH, MAX_PDU_LENGTH in *.
  set (h0 := buffered hndl data).
  assert (Hrd : forall k, 0 <= k < Z.of_nat (length data) ->
                          rd (bufferedMessage h0) k = rd data k).
  { intros k Hk. unfold h0.
    cbn [buffered bufferedMessage set_bufferedMessageLength set_bufferedMessage].
    apply rd_app_l. exact Hk. }
  unfold h0 at 1. read_buffered hndl data. fold h0.
  rewrite Hcfg, uint16_GetFcodeLength, Ht.
  cbn [framing_of minLength fCodeOffset pduLengthOffset transportHeaderLength
       transportFooterLength checkTransaction checkCRC is_rtu].
  unfold TCP_HEADER_LENGTH, PDU_HEADER_LENGTH.
  rewrite !Hrd by lia.
  change (6 + 1 + 1) with (6 + 2).
  assert (H1 : (6 + 3 <=? Z.of_nat (length data)) = true) by (apply Z.leb_le; lia).
  assert (H2 : (GetFcodeLength (rd data (6 + 1)) (rd data (6 + 2)) + 6 + 0
                <=? Z.of_nat (length data)) = true) by (apply Z.leb_le; lia).
  rewrite H1, H2, Hfuture. reflexivity.
Qed.

Section Future.

Variable send : list Z -> Z.
Variable deliveries : nat -> list epoll_event.

Lemma exchange_future (fuel : nat) (w : world) (modBusPacket : list Z)
    (packetLength timeout : Z) (data : list Z) :
  accepting send -> 0 <= packetLength ->
  type (handle w) = tcp ->
  isCFG (handle w) = false ->
  bufferedMessageLength (handle w) = 0 ->
  answered_with deliveries w data ->
  TCP_HEADER_LENGTH + PDU_HEADER_LENGTH <= Z.of_nat (length data) < MAX_PDU_LENGTH ->
  GetFcodeLength (rd data (TCP_HEADER_LENGTH + 1)) (rd data (TCP_HEADER_LENGTH + 2))
    + TCP_HEADER_LENGTH <= Z.of_nat (length data) ->
  transactionCheck (transactionIdentifier w) (lastTransactionId (handle w))
    (uint16_t (Z.lor (Z.shiftl (rd data 0) 8) (rd data 1)))
    = TransactionFromFuture ->
  (1 <= fuel)%nat ->
  exists w1 w2,
    ModBusWrite send w modBusPacket packetLength = (true, w1) /\
    WaitForData deliveries fuel w1 timeout = Some (false, w2) /\
    state (handle w2) = Idle /\
    sleeps w2 = S (sleeps w) /\
    bufferedMessageLength (handle w2) = 0.
Proof.
  intros Ha Hp Ht Hcfg Hz Hans Hlen Hfull Hfuture Hfuel.
  destruct (ModBusWrite_accepted send w modBusPacket packetLength Ha Hp)
    as (sentFrame & E).
  set (h1 := set_state
               (set_transactionId
                  (set_pduLength (set_state (handle w) SendingRequest) 0)
                  (transactionIdentifier w)) WaitingForResponse) in E.
  set (w1 := mk_world h1 (uint16_t (transactionIdentifier w + 1))
                      (wire w ++ [sentFrame]) (sleeps w)) in E.
  assert (Hev : EpollThread_event h1 (mk_epoll_event true false (Some data))
                = set_state (set_bufferedMessageLength (buffered h1 data) 0)
                            TransactionFailed).
  { unfold EpollThread_event.
    cbn [state h1 set_state MODBUS_STATE_eqb EPOLLIN EPOLLHUP received ModBusRead].
    fold h1.
    rewrite firstn_all2 by lia.
    rewrite uint16_small by (unfold MAX_PDU_LENGTH in Hlen; lia).
    rewrite MessageHandler_from_empty by (auto; lia).
    rewrite MessageHandler_read_future by assumption. reflexivity. }
  assert (Hn : nanosleep deliveries w1
               = mk_world (EpollThread_event h1
                             (mk_epoll_event true false (Some data)))
                          (transactionIdentifier w1) (wire w1) (S (sleeps w1))).
  { unfold nanosleep. cbn [sleeps w1]. rewrite Hans. reflexivity. }
  exists w1. eexists. split; [exact E|].
  destruct fuel as [| fuel]; [lia|].
  unfold WaitForData. rewrite WaitForData_loop_one_nap.
  - rewrite Hn, Hev. cbn [handle state set_state MODBUS_STATE_eqb].
    split; [reflexivity|]. cbn. auto.
  - reflexivity.
  - rewrite Hn, Hev. reflexivity.
Qed.

End Future.

(** X12. On an Idle TCP handle with an empty accumulation buffer, for a request
    within its bounds whose frame the transport takes: data of at least 9
    and fewer than 254 bytes, delivered in one piece during the first nap,
    as long as or longer than the frame its function code and length byte
    ask for, and with a transaction identifier the check puts ahead of the
    awaited one, ends the request during that nap.  The request fails with
    MODBUS_TIMEOUT although no time-out has run, whatever the timeout asked
    for, and the whole buffer is dropped. *)
Theorem frame_from_future_fails_request_at_once
    (DEVICE_DISCONNECTED : Z) (send : list Z -> Z)
    (deliveries : nat -> list epoll_event) (fuel : nat) (w : world)
    (r : request) (readArray : list Z) (timeout : Z) (data : list Z) :
  state (handle w) = Idle ->
  type (handle w) = tcp ->
  bufferedMessageLength (handle w) = 0 ->
  in_bounds r ->
  1 <= Z.of_nat (length readArray) ->
  accepting send ->
  answered_with deliveries w data ->
  TCP_HEADER_LENGTH + PDU_HEADER_LENGTH <= Z.of_nat (length data) < MAX_PDU_LENGTH ->
  GetFcodeLength (rd data (TCP_HEADER_LENGTH + 1)) (rd data (TCP_HEADER_LENGTH + 2))
    + TCP_HEADER_LENGTH <= Z.of_nat (length data) ->
  transactionCheck (transactionIdentifier w) (lastTransactionId (handle w))
    (uint16_t (Z.lor (Z.shiftl (rd data 0) 8) (rd data 1)))
    = TransactionFromFuture ->
  (1 <= fuel)%nat ->
  exists w',
    invoke DEVICE_DISCONNECTED send deliveries fuel w r readArray timeout
      = Some (false, wr readArray 0 MODBUS_TIMEOUT, w') /\
    state (handle w') = Idle /\
    sleeps w' = S (sleeps w) /\
    bufferedMessageLength (handle w') = 0.
Proof.
  intros Hs Ht Hz Hok _ Ha Hans Hlen Hfull Hfuture Hfuel.
  apply in_bounds_sendable in Hok.
  destruct r; open_request Hs;
    try (cbn [sendable] in Hok;
         destruct (Z.ltb_spec messageLength MAX_PDU_LENGTH); [| lia]; cbn [negb]);
    match goal with
    | |- context [ModBusWrite send ?w0 ?p ?n] =>
        destruct (exchange_future send deliveries fuel w0 p n timeout data Ha
                    ltac:(first [lia | apply uint16_nonneg | apply uint8_nonneg])
                    Ht eq_refl Hz Hans Hlen Hfull Hfuture Hfuel)
          as (w1 & w2 & E1 & E2 & Hidle & Hsl & Hbl);
        rewrite E1; cbn [negb]; rewrite E2
    end;
    (eexists; split; [reflexivity | repeat split; assumption]).
Qed.

Lemma frame_from_future_fails_request_at_once_witness :
  exists w' : world,
   invoke 24 send_whole (answer [0; 9; 0; 0; 0; 4; 1; 1; 1; 15]) 5 
     (sample_world tcp 5 3) (ReadCoils_request 1 100 4) [0] 1000 =
   Some (false, wr [0] 0 MODBUS_TIMEOUT, w') /\
   state (handle w') = Idle /\
   sleeps w' = S (sleeps (sample_world tcp 5 3)) /\ bufferedMessageLength (handle w') = 0.
Proof.
  apply (frame_from_future_fails_request_at_once 24 send_whole (answer [0; 9; 0; 0; 0; 4; 1; 1; 1; 15]) 5%nat (sample_world tcp 5 3) (ReadCoils_request 1 100 4) [0] 1000 [0; 9; 0; 0; 0; 4; 1; 1; 1; 15]);
    [evaluated | evaluated | evaluated | evaluated | evaluated | intro frame; reflexivity | evaluated | evaluated | evaluated | evaluated | evaluated].
Defined.

(** ** Frames given to the transport *)

Lemma uint8_small (x : Z) : 0 <= x < 256 -> uint8_t x = x.
Proof. intros H. unfold uint8_t. apply Z.mod_small. exact H. Qed.

Lemma low_byte_range (x : Z) : 0 <= Z.land x 0xFF < 256.
Proof.
  change 0xFF with (Z.ones 8). rewrite Z.land_ones by lia.
  apply Z.mod_pos_bound. reflexivity.
Qed.

(** The two bytes [(x >> 8) & 0xFF] and [x & 0xFF] put together again. *)
Lemma big_endian_pair (x : Z) :
  0 <= x < 65536 ->
  Z.lor (Z.shiftl (Z.land (Z.shiftr x 8) 0xFF) 8) (Z.land x 0xFF) = x.
Proof.
  intros Hx. apply Z.bits_inj'. intros k Hk.
  rewrite Z.lor_spec.
  change 0xFF with (Z.ones 8).
  destruct (Z.ltb_spec k 8) as [Hlow | Hhigh].
  - rewrite Z.shiftl_spec_low by exact Hlow.
    rewrite Z.land_spec, Z.testbit_ones_nonneg by lia.
    destruct (Z.leb_spec 0 k), (Z.ltb_spec k 8); try lia.
    cbn [orb andb]. apply andb_true_r.
  - rewrite Z.shiftl_spec by exact Hk.
    rewrite !Z.land_spec, Z.shiftr_spec by lia.
    rewrite !Z.testbit_ones_nonneg by lia.
    replace (k - 8 + 8) with k by lia.
    destruct (Z.ltb_spec k 8); [lia|]. rewrite andb_false_r, orb_false_r.
    destruct (Z.ltb_spec (k - 8) 8) as [Hk8 | Hk8].
    + destruct (Z.leb_spec 0 (k - 8)); [| lia]. apply andb_true_r.
    + rewrite andb_false_r. symmetry.
      apply Z.bits_above_log2; [lia|].
      destruct (Z.eq_dec x 0) as [-> | Hnz]; [cbn; lia|].
      assert (Z.log2 x < 16) by (apply Z.log2_lt_pow2; lia). lia.
Qed.

(** X13. The frame a TCP handle gives to the transport: the MBAP header with the
    current transaction counter and the packet length, both big-endian, then
    the packet; the handle then awaits that same identifier and the counter
    moves on by one modulo 65536. *)
Theorem ModBusWrite_tcp_frame (send : list Z -> Z) (w : world)
    (modBusPacket : list Z) (packetLength : Z) :
  type (handle w) = tcp ->
  accepting send ->
  0 <= transactionIdentifier w < 65536 ->
  0 <= packetLength <= MAX_PDU_LENGTH ->
  exists frame w',
    ModBusWrite send w modBusPacket packetLength = (true, w') /\
    wire w' = wire w ++ [frame] /\
    Z.of_nat (length frame) = TCP_HEADER_LENGTH + packetLength /\
    uint16_t (Z.lor (Z.shiftl (rd frame 0) 8) (rd frame 1))
      = transactionId (handle w') /\
    transactionId (handle w') = transactionIdentifier w /\
    transactionIdentifier w' = uint16_t (transactionIdentifier w + 1) /\
    rd frame 2 = 0 /\ rd frame 3 = 0 /\
    Z.lor (Z.shiftl (rd frame 4) 8) (rd frame 5) = packetLength /\
    bytes_at frame TCP_HEADER_LENGTH packetLength
      = bytes_at modBusPacket 0 packetLength /\
    state (handle w') = WaitingForResponse.
Proof.
  intros Ht Ha Htid Hp. unfold MAX_PDU_LENGTH in Hp.
  destruct (ModBusWrite_frame send w modBusPacket packetLength
              ltac:(unfold MAX_PDU_LENGTH; lia)) as (frame0 & Hw0 & _ & Hpdu0).
  unfold ModBusWrite in *.
  cbn [handle set_handle type set_pduLength set_state] in *.
  rewrite Ht in *.
  unfold TCP_HEADER_LENGTH, MAX_PDU_LENGTH in *.
  cbn [transactionIdentifier set_handle] in *.
  match goal with
  | |- context [SendToSlave send ?w0 ?adu ?n] =>
      set (packet := adu) in *;
      rewrite (SendToSlave_accepted send w0 packet n Ha ltac:(lia)) in *
  end.
  cbn [snd wire handle set_handle transactionIdentifier] in Hw0.
  apply app_inv_head in Hw0. injection Hw0 as Hw0. subst frame0.
  exists (bytes_at packet 0 (packetLength + 6)). eexists.
  split; [reflexivity|].
  cbn [wire handle transactionId set_state set_transactionId set_handle
       transactionIdentifier state].
  assert (Hlen : length packet = Z.to_nat 260).
  { unfold packet. rewrite !length_wr, length_memcpy;
      unfold array; rewrite ?repeat_length; lia. }
  assert (Hrd : forall k, 0 <= k < packetLength + 6 ->
                  rd (bytes_at packet 0 (packetLength + 6)) k = rd packet k).
  { intros k Hk. unfold rd. rewrite nth_bytes_at by lia. reflexivity. }
  assert (H0 : rd packet 0
               = uint8_t (Z.land (Z.shiftr (transactionIdentifier w) 8) 0xFF)).
  { unfold packet. rewrite !rd_wr_other by lia. apply rd_wr_same.
    rewrite length_memcpy; unfold array; rewrite ?repeat_length; lia. }
  assert (H1 : rd packet 1 = uint8_t (Z.land (transactionIdentifier w) 0xFF)).
  { unfold packet. rewrite !rd_wr_other by lia. apply rd_wr_same.
    rewrite !length_wr, length_memcpy; unfold array; rewrite ?repeat_length; lia. }
  assert (H2 : rd packet 2 = 0).
  { unfold packet. rewrite !rd_wr_other by lia. apply rd_wr_same.
    rewrite !length_wr, length_memcpy; unfold array; rewrite ?repeat_length; lia. }
  assert (H3 : rd packet 3 = 0).
  { unfold packet. rewrite !rd_wr_other by lia. apply rd_wr_same.
    rewrite !length_wr, length_memcpy; unfold array; rewrite ?repeat_length; lia. }
  assert (H4 : rd packet 4 = uint8_t (Z.land (Z.shiftr packetLength 8) 0xFF)).
  { unfold packet. rewrite !rd_wr_other by lia. apply rd_wr_same.
    rewrite !length_wr, length_memcpy; unfold array; rewrite ?repeat_length; lia. }
  assert (H5 : rd packet 5 = uint8_t (Z.land packetLength 0xFF)).
  { unfold packet. apply rd_wr_same.
    rewrite !length_wr, length_memcpy; unfold array; rewrite ?repeat_length; lia. }
  rewrite !Hrd by lia. rewrite H0, H1, H2, H3, H4, H5.
  rewrite !uint8_small by apply low_byte_range.
  rewrite !big_endian_pair by lia.
  split; [reflexivity|].
  split; [rewrite length_bytes_at; lia|].
  split; [apply uint16_small; lia|].
  repeat split; try reflexivity.
  unfold frame_pdu in Hpdu0. cbn [framing_of transportHeaderLength] in Hpdu0.
  exact Hpdu0.
Qed.

Lemma ModBusWrite_tcp_frame_witness :
  exists (frame : list Z) (w' : world),
   ModBusWrite send_whole (sample_world tcp 258 257) [1; 3; 0; 0; 0; 10] 6 = (true, w') /\
   wire w' = wire (sample_world tcp 258 257) ++ [frame] /\
   Z.of_nat (length frame) = TCP_HEADER_LENGTH + 6 /\
   uint16_t (Z.lor (Z.shiftl (rd frame 0) 8) (rd frame 1)) = transactionId (handle w') /\
   transactionId (handle w') = transactionIdentifier (sample_world tcp 258 257) /\
   transactionIdentifier w' =
   uint16_t (transactionIdentifier (sample_world tcp 258 257) + 1) /\
   rd frame 2 = 0 /\
   rd frame 3 = 0 /\
   Z.lor (Z.shiftl (rd frame 4) 8) (rd frame 5) = 6 /\
   bytes_at frame TCP_HEADER_LENGTH 6 = bytes_at [1; 3; 0; 0; 0; 10] 0 6 /\
   state (handle w') = WaitingForResponse.
Proof.
  apply (ModBusWrite_tcp_frame send_whole (sample_world tcp 258 257) [1; 3; 0; 0; 0; 10] 6);
    [evaluated | intro frame; reflexivity | evaluated | evaluated].
Defined.

(** ** CRC16 over a message and its trailer *)

(** What [AddCRC] leaves in the array when there is room. *)
Lemma AddCRC_appends (message : list Z) (inputLength maxInputLength : Z) :
  0 <= inputLength ->
  inputLength + 2 <= Z.of_nat (length message) ->
  inputLength + 2 <= maxInputLength ->
  let crcVal := GetCRC message inputLength in
  let message' := snd (AddCRC message inputLength maxInputLength) in
  fst (AddCRC message inputLength maxInputLength) = true /\
  length message' = length message /\
  rd message' inputLength = Z.land crcVal 0xFF /\
  rd message' (inputLength + 1) = Z.shiftr crcVal 8 /\
  (forall k, 0 <= k -> k <> inputLength -> k <> inputLength + 1 ->
             rd message' k = rd message k) /\
  bytes_at message' 0 inputLength = bytes_at message 0 inputLength /\
  ValidateCRC message' (inputLength + 2) = true.
Proof.
  intros Hn Hlen Hmax crcVal message'.
  assert (Hcrc : 0 <= crcVal < 65536) by apply GetCRC_range.
  assert (Hlo : uint8_t (Z.land crcVal 0xFF) = Z.land crcVal 0xFF)
    by (apply uint8_small, low_byte_range).
  assert (Hhi : uint8_t (Z.shiftr crcVal 8) = Z.shiftr crcVal 8)
    by (apply uint8_small, high_byte_small; exact Hcrc).
  assert (E : AddCRC message inputLength maxInputLength
              = (true, wr (wr message inputLength (Z.land crcVal 0xFF))
                          (inputLength + 1) (Z.shiftr crcVal 8))).
  { unfold AddCRC. destruct (Z.leb_spec (inputLength + 2) maxInputLength); [| lia].
    fold crcVal. rewrite Hlo, Hhi. reflexivity. }
  unfold message'. rewrite E. cbn [fst snd].
  assert (Hrlo : rd (wr (wr message inputLength (Z.land crcVal 0xFF))
                        (inputLength + 1) (Z.shiftr crcVal 8)) inputLength
                 = Z.land crcVal 0xFF).
  { rewrite rd_wr_other by lia. apply rd_wr_same. lia. }
  assert (Hrhi : rd (wr (wr message inputLength (Z.land crcVal 0xFF))
                        (inputLength + 1) (Z.shiftr crcVal 8)) (inputLength + 1)
                 = Z.shiftr crcVal 8).
  { apply rd_wr_same. rewrite length_wr. lia. }
  assert (Hdata : bytes_at (wr (wr message inputLength (Z.land crcVal 0xFF))
                               (inputLength + 1) (Z.shiftr crcVal 8)) 0 inputLength
                  = bytes_at message 0 inputLength).
  { rewrite !bytes_at_wr_outside by lia. reflexivity. }
  split; [reflexivity|]. split; [rewrite !length_wr; reflexivity|].
  split; [exact Hrlo|]. split; [exact Hrhi|].
  split; [intros k Hk H1 H2; rewrite !rd_wr_other by lia; reflexivity|].
  split; [exact Hdata|].
  unfold ValidateCRC.
  destruct (Z.leb_spec 2 (inputLength + 2)); [| lia]. cbn [andb].
  replace (inputLength + 2 - 2) with inputLength by lia.
  replace (inputLength + 2 - 1) with (inputLength + 1) by lia.
  rewrite Hrlo, Hrhi, split_bytes.
  rewrite !GetCRC_fold by exact Hn. rewrite Hdata.
  unfold crcVal. rewrite GetCRC_fold by exact Hn. apply Z.eqb_refl.
Qed.

(** A byte equal to the low byte of the running CRC shifts it down by one
    byte. *)
Lemma crc_step_own_low_byte (c : Z) :
  0 <= c < 65536 -> crc_step c (Z.land c 0xFF) = Z.shiftr c 8.
Proof.
  intros Hc. unfold crc_step.
  assert (E : uint8_t (Z.lxor (Z.land c 0xFF) c) = 0).
  { unfold uint8_t. change 256 with (2 ^ 8). change 0xFF with (Z.ones 8).
    bitwise. rewrite Z.bits_0.
    destruct (Z.ltb_spec k 8); [| reflexivity].
    destruct (Z.leb_spec 0 k); [| lia]. cbn [andb].
    rewrite andb_true_r. apply xorb_nilpotent. }
  rewrite E. change (rd CRCTable 0) with 0. apply Z.lxor_0_r.
Qed.

Lemma bytes_at_app (src : list Z) (n m : Z) :
  0 <= n -> 0 <= m ->
  bytes_at src 0 (n + m) = bytes_at src 0 n ++ bytes_at src n m.
Proof.
  intros Hn Hm. apply (nth_ext _ _ 0 0).
  - rewrite length_app, !length_bytes_at. lia.
  - intros k Hk. rewrite length_bytes_at in Hk.
    rewrite nth_bytes_at by exact Hk.
    destruct (Nat.lt_ge_cases k (Z.to_nat n)) as [Hlt | Hge].
    + rewrite app_nth1 by (rewrite length_bytes_at; exact Hlt).
      rewrite nth_bytes_at by exact Hlt. reflexivity.
    + rewrite app_nth2 by (rewrite length_bytes_at; exact Hge).
      rewrite length_bytes_at, nth_bytes_at by lia. f_equal. lia.
Qed.

(** X14. The CRC taken over a message together with the two bytes [AddCRC] put
    behind it is always 0. *)
Theorem GetCRC_over_AddCRC_is_zero
    (message : list Z) (inputLength maxInputLength : Z) :
  0 <= inputLength ->
  inputLength + 2 <= Z.of_nat (length message) ->
  inputLength + 2 <= maxInputLength ->
  GetCRC (snd (AddCRC message inputLength maxInputLength)) (inputLength + 2) = 0.
Proof.
  intros Hn Hlen Hmax.
  destruct (AddCRC_appends message inputLength maxInputLength Hn Hlen Hmax)
    as (_ & _ & Hlo & Hhi & _ & Hdata & _).
  set (message' := snd (AddCRC message inputLength maxInputLength)) in *.
  set (crcVal := GetCRC message inputLength) in *.
  assert (Hcrc : 0 <= crcVal < 65536) by apply GetCRC_range.
  rewrite GetCRC_fold by lia.
  rewrite bytes_at_app by lia. rewrite fold_left_app, Hdata.
  replace (fold_left crc_step (bytes_at message 0 inputLength) 0xFFFF)
    with crcVal by (unfold crcVal; rewrite GetCRC_fold by exact Hn; reflexivity).
  change 2 with (Z.of_nat 2). rewrite bytes_at_S by exact Hn.
  change (Z.of_nat 1) with (Z.of_nat 1). rewrite bytes_at_S by lia.
  cbn [fold_left bytes_at Z.to_nat Z.of_nat seq map].
  rewrite Hlo, Hhi, crc_step_own_low_byte by exact Hcrc.
  assert (Hh : 0 <= Z.shiftr crcVal 8 < 256) by (apply high_byte_small; exact Hcrc).
  replace (Z.shiftr crcVal 8) with (Z.land (Z.shiftr crcVal 8) 0xFF) at 2.
  - rewrite crc_step_own_low_byte by lia. apply shiftr8_small. exact Hh.
  - change 0xFF with (Z.ones 8). rewrite Z.land_ones by lia.
    apply Z.mod_small. exact Hh.
Qed.

Lemma GetCRC_over_AddCRC_is_zero_witness :
  GetCRC (snd (AddCRC [1; 3; 0; 0; 0; 10; 0; 0] 6 8)) (6 + 2) = 0.
Proof.
  apply (GetCRC_over_AddCRC_is_zero [1; 3; 0; 0; 0; 10; 0; 0] 6 8);
    [evaluated | evaluated | evaluated].
Defined.

(** ** Frames with a CRC, and intercore frames *)

Lemma length_array (n : Z) : length (array n) = Z.to_nat n.
Proof. unfold array. apply repeat_length. Qed.

Lemma ModBusWrite_rtuOverTcp_wire (send : list Z -> Z) (w : world)
    (modBusPacket : list Z) (packetLength : Z) :
  type (handle w) = rtuOverTcp ->
  0 <= packetLength ->
  packetLength + CRC_FOOTER_LENGTH <= MAX_PDU_LENGTH ->
  wire (snd (ModBusWrite send w modBusPacket packetLength))
    = wire w ++ [bytes_at modBusPacket 0 packetLength
                   ++ [Z.land (GetCRC modBusPacket packetLength) 0xFF;
                       Z.shiftr (GetCRC modBusPacket packetLength) 8]].
Proof.
  intros Ht Hp Hroom.
  unfold CRC_FOOTER_LENGTH, MAX_PDU_LENGTH in *.
  set (crcVal := GetCRC modBusPacket packetLength).
  set (packet := memcpy (array (254 + 2)) 0 modBusPacket 0 packetLength).
  assert (Hlen : length packet = Z.to_nat 256).
  { unfold packet. rewrite length_memcpy; rewrite length_array; lia. }
  assert (Hdata0 : bytes_at packet 0 packetLength
                   = bytes_at modBusPacket 0 packetLength).
  { apply (nth_ext _ _ 0 0); [rewrite !length_bytes_at; reflexivity|].
    intros k Hk. rewrite length_bytes_at in Hk.
    rewrite !nth_bytes_at by exact Hk. unfold packet.
    rewrite nth_memcpy by (rewrite length_array; lia).
    destruct (Nat.ltb_spec (Z.to_nat 0 + k) (Z.to_nat 0)); [lia|].
    destruct (Nat.ltb_spec (Z.to_nat 0 + k) (Z.to_nat 0 + Z.to_nat packetLength));
      [| lia].
    f_equal. lia. }
  assert (Hcrc0 : GetCRC packet packetLength = crcVal).
  { unfold crcVal. rewrite !GetCRC_fold by exact Hp. rewrite Hdata0. reflexivity. }
  destruct (AddCRC_appends packet packetLength 254 Hp ltac:(lia) ltac:(lia))
    as (_ & Hlen' & Hlo & Hhi & _ & Hdata & _).
  rewrite Hcrc0 in Hlo, Hhi.
  set (sent := snd (AddCRC packet packetLength 254)) in *.
  assert (Hframe : bytes_at sent 0 (packetLength + 2)
                   = bytes_at modBusPacket 0 packetLength
                       ++ [Z.land crcVal 0xFF; Z.shiftr crcVal 8]).
  { rewrite bytes_at_app by lia. rewrite Hdata, Hdata0. f_equal.
    change 2 with (Z.of_nat 2). rewrite bytes_at_S by exact Hp.
    rewrite bytes_at_S by lia. rewrite Hlo, Hhi. reflexivity. }
  unfold ModBusWrite. cbn [handle set_handle type set_pduLength set_state].
  rewrite Ht.
  match goal with
  | |- context [SendToSlave send ?w0 ?adu ?n] =>
      destruct (SendToSlave_wire send w0 adu n) as [Hw _]; rewrite Hw
  end.
  cbn [wire set_handle]. unfold CRC_FOOTER_LENGTH, MAX_PDU_LENGTH.
  fold packet. fold sent. rewrite Hframe. reflexivity.
Qed.

Lemma frame_with_crc_valid (m : list Z) (n : Z) :
  0 <= n ->
  ValidateCRC (bytes_at m 0 n ++ [Z.land (GetCRC m n) 0xFF; Z.shiftr (GetCRC m n) 8])
              (n + 2) = true.
Proof.
  intros Hn. unfold ValidateCRC.
  destruct (Z.leb_spec 2 (n + 2)); [| lia]. cbn [andb].
  replace (n + 2 - 2) with n by lia. replace (n + 2 - 1) with (n + 1) by lia.
  set (c := GetCRC m n).
  rewrite GetCRC_fold by exact Hn.
  rewrite bytes_at_app_l by (rewrite length_bytes_at; lia).
  assert (Hl : length (bytes_at m 0 n) = Z.to_nat n) by apply length_bytes_at.
  assert (Hlo : rd (bytes_at m 0 n ++ [Z.land c 0xFF; Z.shiftr c 8]) n
                = Z.land c 0xFF).
  { unfold rd. rewrite app_nth2 by lia. rewrite Hl, Nat.sub_diag. reflexivity. }
  assert (Hhi : rd (bytes_at m 0 n ++ [Z.land c 0xFF; Z.shiftr c 8]) (n + 1)
                = Z.shiftr c 8).
  { unfold rd. rewrite app_nth2 by lia. rewrite Hl.
    replace (Z.to_nat (n + 1) - Z.to_nat n)%nat with 1%nat by lia. reflexivity. }
  rewrite Hlo, Hhi, split_bytes.
  unfold c. rewrite GetCRC_fold by exact Hn.
  replace (bytes_at (bytes_at m 0 n) 0 n) with (bytes_at m 0 n);
    [apply Z.eqb_refl|].
  apply (nth_ext _ _ 0 0); [rewrite !length_bytes_at; reflexivity|].
  intros k Hk. rewrite length_bytes_at in Hk.
  rewrite !nth_bytes_at by lia. reflexivity.
Qed.

(** X15. The frame an RTU-over-TCP handle gives to the transport when the packet
    leaves room for the CRC: the packet followed by its CRC16, low byte
    first; the frame passes [ValidateCRC]. *)
Theorem ModBusWrite_rtuOverTcp_frame (send : list Z -> Z) (w : world)
    (modBusPacket : list Z) (packetLength : Z) :
  type (handle w) = rtuOverTcp ->
  0 <= packetLength ->
  packetLength + CRC_FOOTER_LENGTH <= MAX_PDU_LENGTH ->
  let crcVal := GetCRC modBusPacket packetLength in
  let frame :=
    bytes_at modBusPacket 0 packetLength
      ++ [Z.land crcVal 0xFF; Z.shiftr crcVal 8] in
  wire (snd (ModBusWrite send w modBusPacket packetLength)) = wire w ++ [frame] /\
  ValidateCRC frame (packetLength + CRC_FOOTER_LENGTH) = true.
Proof.
  intros Ht Hp Hroom crcVal frame. split.
  - apply ModBusWrite_rtuOverTcp_wire; assumption.
  - apply frame_with_crc_valid. exact Hp.
Qed.

Lemma ModBusWrite_rtuOverTcp_frame_witness :
  wire (snd (ModBusWrite send_whole (sample_world rtuOverTcp 0 0) [1; 3; 0; 0; 0; 10] 6)) =
 wire (sample_world rtuOverTcp 0 0) ++
 [bytes_at [1; 3; 0; 0; 0; 10] 0 6 ++
  [Z.land (GetCRC [1; 3; 0; 0; 0; 10] 6) 255; Z.shiftr (GetCRC [1; 3; 0; 0; 0; 10] 6) 8]] /\
 ValidateCRC
   (bytes_at [1; 3; 0; 0; 0; 10] 0 6 ++
    [Z.land (GetCRC [1; 3; 0; 0; 0; 10] 6) 255; Z.shiftr (GetCRC [1; 3; 0; 0; 0; 10] 6) 8])
   (6 + CRC_FOOTER_LENGTH) =
 true.
Proof.
  apply (ModBusWrite_rtuOverTcp_frame send_whole (sample_world rtuOverTcp 0 0) [1; 3; 0; 0; 0; 10] 6);
    [evaluated | evaluated | evaluated].
Defined.

Lemma ModBusWrite_rtu_sent (send : list Z -> Z) (w : world)
    (modBusPacket : list Z) (packetLength : Z) :
  type (handle w) = rtu ->
  0 <= packetLength <= MAX_PDU_LENGTH ->
  exists frame,
    wire (snd (ModBusWrite send w modBusPacket packetLength)) = wire w ++ [frame] /\
    Z.of_nat (length frame) = MESSAGE_HEADER_LENGTH + packetLength /\
    rd frame PROTOCOL_OFFSET = (if isCFG (handle w) then UART else MODBUS) /\
    rd frame COMMAND_OFFSET
      = (if isCFG (handle w) then UART_CFG_MESSAGE else MODBUS_DATA_MESSAGE) /\
    rd frame HEADER_LENGTH_OFFSET = MESSAGE_HEADER_LENGTH /\
    bytes_at frame MESSAGE_HEADER_LENGTH packetLength
      = bytes_at modBusPacket 0 packetLength.
Proof.
  intros Ht Hp.
  destruct (ModBusWrite_frame send w modBusPacket packetLength Hp)
    as (frame0 & Hw0 & _ & Hpdu0).
  unfold MAX_PDU_LENGTH in Hp.
  unfold ModBusWrite in *.
  cbn [handle set_handle type set_pduLength set_state isCFG] in *.
  rewrite Ht in *.
  unfold MESSAGE_HEADER_LENGTH, MAX_PDU_LENGTH, PROTOCOL_OFFSET, COMMAND_OFFSET,
    HEADER_LENGTH_OFFSET in *.
  match goal with
  | |- context [SendToSlave send ?w0 ?adu ?n] =>
      set (packet := adu) in *;
      destruct (SendToSlave_wire send w0 packet n) as [Hw _]
  end.
  rewrite Hw in Hw0. cbn [wire set_handle] in Hw, Hw0.
  apply app_inv_head in Hw0. injection Hw0 as Hw0. subst frame0.
  exists (bytes_at packet 0 (packetLength + 4)).
  split; [exact Hw|].
  split; [rewrite length_bytes_at; lia|].
  assert (Hrd : forall k, 0 <= k < packetLength + 4 ->
                  rd (bytes_at packet 0 (packetLength + 4)) k = rd packet k).
  { intros k Hk. unfold rd. rewrite nth_bytes_at by lia. reflexivity. }
  assert (Hl : length (memcpy (array (254 + 4)) 4 modBusPacket 0 packetLength)
               = Z.to_nat 258).
  { rewrite length_memcpy; rewrite length_array; lia. }
  rewrite !Hrd by lia.
  unfold frame_pdu in Hpdu0. cbn [framing_of transportHeaderLength] in Hpdu0.
  unfold MESSAGE_HEADER_LENGTH in Hpdu0.
  unfold packet.
  destruct (isCFG (handle w));
    (split; [rewrite !rd_wr_other by lia; apply rd_wr_same; rewrite Hl; lia|]);
    (split; [rewrite rd_wr_other by lia; apply rd_wr_same;
             rewrite length_wr, Hl; lia|]);
    (split; [apply rd_wr_same; rewrite !length_wr, Hl; lia | exact Hpdu0]).
Qed.

(** X16. The frame an intercore RTU handle gives to the transport: protocol and
    command byte according to [isCFG], the header length, and the packet
    from offset MESSAGE_HEADER_LENGTH; no CRC is added on this side. *)
Theorem ModBusWrite_rtu_frame (send : list Z -> Z) (w : world)
    (modBusPacket : list Z) (packetLength : Z) :
  type (handle w) = rtu ->
  0 <= packetLength <= MAX_PDU_LENGTH ->
  exists frame,
    wire (snd (ModBusWrite send w modBusPacket packetLength)) = wire w ++ [frame] /\
    Z.of_nat (length frame) = MESSAGE_HEADER_LENGTH + packetLength /\
    rd frame PROTOCOL_OFFSET = (if isCFG (handle w) then UART else MODBUS) /\
    rd frame COMMAND_OFFSET
      = (if isCFG (handle w) then UART_CFG_MESSAGE else MODBUS_DATA_MESSAGE) /\
    rd frame HEADER_LENGTH_OFFSET = MESSAGE_HEADER_LENGTH /\
    bytes_at frame MESSAGE_HEADER_LENGTH packetLength
      = bytes_at modBusPacket 0 packetLength.
Proof. apply ModBusWrite_rtu_sent. Qed.

Lemma ModBusWrite_rtu_frame_witness :
  exists frame : list Z,
   wire (snd (ModBusWrite send_whole (sample_world rtu 0 0) [1; 3; 0; 0; 0; 10] 6)) =
   wire (sample_world rtu 0 0) ++ [frame] /\
   Z.of_nat (length frame) = MESSAGE_HEADER_LENGTH + 6 /\
   rd frame PROTOCOL_OFFSET =
   (if isCFG (handle (sample_world rtu 0 0)) then UART else MODBUS) /\
   rd frame COMMAND_OFFSET =
   (if isCFG (handle (sample_world rtu 0 0))
    then UART_CFG_MESSAGE
    else MODBUS_DATA_MESSAGE) /\
   rd frame HEADER_LENGTH_OFFSET = MESSAGE_HEADER_LENGTH /\
   bytes_at frame MESSAGE_HEADER_LENGTH 6 = bytes_at [1; 3; 0; 0; 0; 10] 0 6.
Proof.
  apply (ModBusWrite_rtu_frame send_whole (sample_world rtu 0 0) [1; 3; 0; 0; 0; 10] 6);
    [evaluated | evaluated].
Defined.

(** ** Layout of file sub-requests *)

(** The seven header bytes both sub-request builders write. *)
Lemma subrequest_header (m : list Z) (idx fileNumber recordNumber recordLength : Z) :
  0 <= idx -> idx + 7 <= Z.of_nat (length m) ->
  0 <= fileNumber < 65536 -> 0 <= recordNumber < 65536 ->
  0 <= recordLength < 256 ->
  let m' :=
    wr (wr (wr (wr (wr (wr (wr m idx 6)
      (idx + 1) (uint8_t (Z.shiftr fileNumber 8)))
      (idx + 2) (uint8_t (Z.land fileNumber 0xFF)))
      (idx + 3) (uint8_t (Z.shiftr recordNumber 8)))
      (idx + 4) (uint8_t (Z.land recordNumber 0xFF)))
      (idx + 5) 0)
      (idx + 6) (uint8_t recordLength) in
  length m' = length m /\
  rd m' idx = 6 /\
  Z.lor (rd m' (idx + 2)) (Z.shiftl (rd m' (idx + 1)) 8) = fileNumber /\
  Z.lor (rd m' (idx + 4)) (Z.shiftl (rd m' (idx + 3)) 8) = recordNumber /\
  rd m' (idx + 5) = 0 /\
  rd m' (idx + 6) = recordLength /\
  (forall k, 0 <= k -> k < idx \/ idx + 7 <= k -> rd m' k = rd m k).
Proof.
  intros Hi Hlen Hf Hr Hl m'.
  assert (Hlen' : length m' = length m) by (unfold m'; rewrite !length_wr; reflexivity).
  assert (rd_at : forall j v a, 0 <= j -> j < Z.of_nat (length a) ->
                                rd (wr a j v) j = v)
    by (intros; apply rd_wr_same; lia).
  split; [exact Hlen'|].
  unfold m'.
  split; [rewrite !rd_wr_other by lia; apply rd_wr_same; lia|].
  split.
  { rewrite !(rd_wr_other _ _ (idx + 2)) by lia.
    rewrite rd_wr_same by (rewrite !length_wr; lia).
    rewrite !(rd_wr_other _ _ (idx + 1)) by lia.
    rewrite rd_wr_same by (rewrite !length_wr; lia).
    rewrite !uint8_small by (apply low_byte_range || apply high_byte_small; lia).
    apply split_bytes. }
  split.
  { rewrite !(rd_wr_other _ _ (idx + 4)) by lia.
    rewrite rd_wr_same by (rewrite !length_wr; lia).
    rewrite !(rd_wr_other _ _ (idx + 3)) by lia.
    rewrite rd_wr_same by (rewrite !length_wr; lia).
    rewrite !uint8_small by (apply low_byte_range || apply high_byte_small; lia).
    apply split_bytes. }
  split.
  { rewrite !(rd_wr_other _ _ (idx + 5)) by lia.
    apply rd_wr_same. rewrite !length_wr. lia. }
  split.
  { rewrite rd_wr_same by (rewrite !length_wr; lia). apply uint8_small. exact Hl. }
  intros k Hk Hout. rewrite !rd_wr_other by lia. reflexivity.
Qed.






(** ** The slave simulator: refusals *)

Lemma rd_memcpy_before (dst : list Z) (off : Z) (src : list Z) (from n k : Z) :
  0 <= k < off -> k < Z.of_nat (length dst) ->
  rd (memcpy dst off src from n) k = rd dst k.
Proof.
  intros Hk Hlen. unfold rd, memcpy.
  rewrite app_nth1 by (rewrite length_firstn; lia).
  rewrite nth_firstn.
  destruct (Nat.ltb_spec (Z.to_nat k) (Z.to_nat off)); [reflexivity | lia].
Qed.

Lemma rd_memcpy_inside (dst : list Z) (off : Z) (src : list Z) (from n k : Z) :
  0 <= off -> 0 <= from -> off <= Z.of_nat (length dst) ->
  0 <= k < n ->
  rd (memcpy dst off src from n) (off + k) = rd src (from + k).
Proof.
  intros Ho Hf Hlen Hk. unfold rd.
  rewrite nth_memcpy by lia.
  destruct (Nat.ltb_spec (Z.to_nat (off + k)) (Z.to_nat off)); [lia|].
  destruct (Nat.ltb_spec (Z.to_nat (off + k)) (Z.to_nat off + Z.to_nat n)); [| lia].
  f_equal. lia.
Qed.

Lemma rd_memcpy_after (dst : list Z) (off : Z) (src : list Z) (from n k : Z) :
  0 <= off -> 0 <= n -> off <= Z.of_nat (length dst) ->
  off + n <= k ->
  rd (memcpy dst off src from n) k = rd dst k.
Proof.
  intros Ho Hn Hlen Hk. unfold rd.
  rewrite nth_memcpy by lia.
  destruct (Nat.ltb_spec (Z.to_nat k) (Z.to_nat off)); [lia|].
  destruct (Nat.ltb_spec (Z.to_nat k) (Z.to_nat off + Z.to_nat n)); [lia|].
  reflexivity.
Qed.

Lemma lor_byte (a b : Z) : is_byte a -> is_byte b -> is_byte (Z.lor a b).
Proof.
  unfold is_byte. intros Ha Hb.
  assert (E : Z.lor a b = Z.lor a b mod 2 ^ 8).
  { rewrite <- (Z.mod_small a (2 ^ 8)) at 1 by exact Ha.
    rewrite <- (Z.mod_small b (2 ^ 8)) at 1 by exact Hb.
    bitwise. destruct (k <? 8), (Z.testbit a k), (Z.testbit b k); reflexivity. }
  rewrite E. apply Z.mod_pos_bound. reflexivity.
Qed.

(** The reply to a refused request: address, function code with the high
    bit set, the result code, CRC. *)
Lemma refusal_reply (messageOut : list Z) (result : Z) :
  5 <= Z.of_nat (length messageOut) ->
  0 <= result < 256 ->
  is_byte (rd messageOut 1) ->
  let m := wr (wr messageOut 1 (uint8_t (Z.lor (rd messageOut 1) 0x80))) 2
              (uint8_t result) in
  fst (AddCRC m 3 256) = true /\
  bytes_at (snd (AddCRC m 3 256)) 0 5
    = with_crc [rd messageOut 0; Z.lor (rd messageOut 1) 0x80; result].
Proof.
  intros Hlen Hres Hb m.
  assert (Hl : length m = length messageOut) by (unfold m; rewrite !length_wr; reflexivity).
  destruct (AddCRC_appends m 3 256 ltac:(lia) ltac:(lia) ltac:(lia))
    as (Hok & _ & Hlo & Hhi & _ & Hdata & _).
  split; [exact Hok|].
  assert (H0 : rd m 0 = rd messageOut 0)
    by (unfold m; rewrite !rd_wr_other by lia; reflexivity).
  assert (H1 : rd m 1 = Z.lor (rd messageOut 1) 0x80).
  { unfold m. rewrite rd_wr_other by lia. rewrite rd_wr_same by lia.
    apply uint8_small. apply lor_byte; [exact Hb | unfold is_byte; lia]. }
  assert (H2 : rd m 2 = result).
  { unfold m. rewrite rd_wr_same by (rewrite length_wr; lia).
    apply uint8_small. exact Hres. }
  assert (Hbody : bytes_at m 0 3
                  = [rd messageOut 0; Z.lor (rd messageOut 1) 0x80; result]).
  { change 3 with (Z.of_nat 3). rewrite !bytes_at_S by lia.
    cbn [Z.add Z.of_nat Pos.add Pos.succ bytes_at Z.to_nat seq map].
    change (0 + 1) with 1. change (1 + 1) with 2.
    rewrite H0, H1, H2. reflexivity. }
  change 5 with (3 + 2). rewrite bytes_at_app by lia.
  rewrite Hdata, Hbody. unfold with_crc. f_equal.
  change 2 with (Z.of_nat 2). rewrite !bytes_at_S by lia.
  cbn [bytes_at Z.to_nat Z.of_nat seq map length].
  rewrite Hlo, Hhi.
  rewrite !GetCRC_fold by lia. rewrite Hbody.
  cbn [length Z.of_nat Pos.of_succ_nat Pos.succ].
  change (bytes_at [rd messageOut 0; Z.lor (rd messageOut 1) 128; result] 0 3)
    with [rd messageOut 0; Z.lor (rd messageOut 1) 128; result].
  reflexivity.
Qed.

Lemma with_crc_valid (body : list Z) :
  ValidateCRC (with_crc body) (Z.of_nat (length body) + 2) = true.
Proof.
  unfold with_crc, ValidateCRC.
  set (n := Z.of_nat (length body)).
  set (c := GetCRC body n).
  destruct (Z.leb_spec 2 (n + 2)); [| lia]. cbn [andb].
  replace (n + 2 - 2) with n by lia. replace (n + 2 - 1) with (n + 1) by lia.
  rewrite GetCRC_fold by lia.
  rewrite bytes_at_app_l by (unfold n; lia).
  assert (Hlo : rd (body ++ [Z.land c 0xFF; Z.shiftr c 8]) n = Z.land c 0xFF).
  { unfold rd, n. rewrite Nat2Z.id. rewrite app_nth2 by lia.
    rewrite Nat.sub_diag. reflexivity. }
  assert (Hhi : rd (body ++ [Z.land c 0xFF; Z.shiftr c 8]) (n + 1) = Z.shiftr c 8).
  { unfold rd, n. replace (Z.to_nat (Z.of_nat (length body) + 1))
      with (S (length body)) by lia.
    rewrite app_nth2 by lia.
    replace (S (length body) - length body)%nat with 1%nat by lia. reflexivity. }
  rewrite Hlo, Hhi, split_bytes.
  unfold c. rewrite GetCRC_fold by (unfold n; lia).
  unfold n. rewrite bytes_at_all. apply Z.eqb_refl.
Qed.

Ltac refuse Hlen :=
  match goal with
  | |- context [AddCRC (wr (wr ?out 1 _) 2 (uint8_t ?code)) 3 256] =>
      let Hok := fresh "Hok" in
      let Hreply := fresh "Hreply" in
      destruct (refusal_reply out code) as [Hok Hreply];
      [ rewrite ?length_wr; lia | unfold ILLEGAL_FUNCTION, ILLEGAL_DATA_ADDRESS,
                                    ILLEGAL_DATA_VALUE; lia | |];
      [ | cbv zeta in Hok, Hreply;
          destruct (AddCRC (wr (wr out 1 _) 2 (uint8_t code)) 3 256) as [ok out'];
          cbn [fst snd] in Hok, Hreply; subst ok; rewrite Hreply ]
  end.

Lemma main_turn_unsupported
    (fileStore messageIn : list Z) (messageSize : Z) (messageOut : list Z) :
  5 <= Z.of_nat (length messageOut) ->
  is_byte (rd messageIn 1) ->
  rd messageIn 1 <> 0x14 -> rd messageIn 1 <> 0x15 ->
  exists messageOut',
    main_turn fileStore messageIn messageSize messageOut
      = Some (Some (with_crc [rd messageIn 0; Z.lor (rd messageIn 1) 0x80;
                              ILLEGAL_FUNCTION]),
              fileStore, messageOut').
Proof.
  intros Hlen Hb H14 H15.
  unfold main_turn, processIncomingMessage.
  destruct (Z.eqb_spec (rd messageIn 1) 0x14); [contradiction|].
  destruct (Z.eqb_spec (rd messageIn 1) 0x15); [contradiction|].
  cbn [ILLEGAL_FUNCTION Z.eqb].
  refuse Hlen.
  - rewrite rd_wr_same by (rewrite length_wr; lia). exact Hb.
  - rewrite rd_wr_other by lia. rewrite rd_wr_same by lia.
    rewrite rd_wr_same by (rewrite length_wr; lia).
    eexists. reflexivity.
Qed.

(** X19. A request with another function code than 0x14 or 0x15 is answered
    with the exception ILLEGAL_FUNCTION: address, function code with the
    high bit set, code 1 and a good CRC; the files are left alone. *)
Theorem unsupported_function_is_refused
    (fileStore messageIn : list Z) (messageSize : Z) (messageOut : list Z) :
  5 <= Z.of_nat (length messageOut) ->
  is_byte (rd messageIn 1) ->
  rd messageIn 1 <> 0x14 -> rd messageIn 1 <> 0x15 ->
  let reply :=
    with_crc [rd messageIn 0; Z.lor (rd messageIn 1) 0x80; ILLEGAL_FUNCTION] in
  (exists messageOut',
     main_turn fileStore messageIn messageSize messageOut
       = Some (Some reply, fileStore, messageOut')) /\
  ValidateCRC reply 5 = true.
Proof.
  intros Hlen Hb H14 H15 reply. split; [| apply (with_crc_valid [_; _; _])].
  apply main_turn_unsupported; assumption.
Qed.

Lemma unsupported_function_is_refused_witness :
  (exists messageOut' : list Z,
    main_turn [] [1; 3; 0; 0; 0; 10] 6 (array 256) =
    Some
      (Some
         (with_crc
            [rd [1; 3; 0; 0; 0; 10] 0; Z.lor (rd [1; 3; 0; 0; 0; 10] 1) 128;
             ILLEGAL_FUNCTION]),
       [], messageOut')) /\
 ValidateCRC
   (with_crc
      [rd [1; 3; 0; 0; 0; 10] 0; Z.lor (rd [1; 3; 0; 0; 0; 10] 1) 128; ILLEGAL_FUNCTION])
   5 =
 true.
Proof.
  apply (unsupported_function_is_refused [] [1; 3; 0; 0; 0; 10] 6 (array 256));
    [evaluated | evaluated | evaluated | evaluated].
Defined.

Ltac rd_wr :=
  repeat first [ rewrite rd_wr_same by (rewrite ?length_wr; lia)
               | rewrite rd_wr_other by lia ].

(** X20. A read request with a byte count outside 7..0xF5, with a first
    sub-request of another reference type than 6, or with a first
    sub-request reaching record 10000 or beyond is answered with an
    exception (function code 0x94) carrying ILLEGAL_DATA_VALUE in the first
    two cases and ILLEGAL_DATA_ADDRESS in the third, with a good CRC. *)
Theorem read_request_is_refused
    (fileStore messageIn : list Z) (messageSize : Z) (messageOut : list Z)
    (code : Z) :
  5 <= Z.of_nat (length messageOut) ->
  rd messageIn 1 = 0x14 ->
  read_refused messageIn code ->
  let reply := with_crc [rd messageIn 0; 0x94; code] in
  (exists messageOut',
     main_turn fileStore messageIn messageSize messageOut
       = Some (Some reply, fileStore, messageOut')) /\
  ValidateCRC reply 5 = true.
Proof.
  intros Hlen Hfc Href reply. split; [| apply (with_crc_valid [_; _; _])].
  unfold reply. change 0x94 with (Z.lor 0x14 0x80). rewrite <- Hfc.
  unfold main_turn, processIncomingMessage.
  destruct (Z.eqb_spec (rd messageIn 1) 0x14) as [_ | Hne]; [| contradiction].
  unfold requestRead.
  assert (Hout1 : forall out, 2 <= Z.of_nat (length out) ->
                    is_byte (rd (wr out 1 (rd messageIn 1)) 1)).
  { intros out Ho. rewrite rd_wr_same by lia. rewrite Hfc. unfold is_byte. lia. }
  unfold HEADER_LENGTH, REFERENCE_TYPE, RECORD_LENGTH_INDEX, subrequest_record,
    RECORD_NO_INDEX_LOWER, RECORD_NO_INDEX_UPPER in *.
  destruct Href as [Hcount | Hcount Htype | Hcount Htype Hrange];
    unfold HEADER_LENGTH, REFERENCE_TYPE, RECORD_LENGTH_INDEX, subrequest_record,
      RECORD_NO_INDEX_LOWER, RECORD_NO_INDEX_UPPER in *.
  - replace ((7 <=? rd messageIn 2) && (rd messageIn 2 <=? 245)) with false
      by (symmetry; apply andb_false_iff;
          destruct Hcount; [left; apply Z.leb_gt | right; apply Z.leb_gt]; lia).
    cbn [ILLEGAL_DATA_VALUE Z.eqb].
    refuse Hlen.
    + apply Hout1. rewrite length_wr. lia.
    + rewrite rd_wr_other by lia. rewrite rd_wr_same by lia.
      rewrite rd_wr_same by (rewrite length_wr; lia).
      eexists. reflexivity.
  - replace ((7 <=? rd messageIn 2) && (rd messageIn 2 <=? 245)) with true
      by (symmetry; apply andb_true_iff; split; apply Z.leb_le; lia).
    assert (Hturns : exists t, Z.to_nat (rd messageIn 2 / 7) = S t).
    { exists (Nat.pred (Z.to_nat (rd messageIn 2 / 7))).
      assert (1 <= rd messageIn 2 / 7) by (apply Z.div_le_lower_bound; lia). lia. }
    destruct Hturns as (t & ->). cbn [requestRead_loop].
    unfold REFERENCE_TYPE.
    destruct (Z.eqb_spec (rd messageIn 3) 6); [contradiction|].
    cbn [ILLEGAL_DATA_VALUE Z.eqb].
    refuse Hlen.
    + apply Hout1. rewrite length_wr. lia.
    + rewrite rd_wr_other by lia. rewrite rd_wr_same by lia.
      rewrite rd_wr_same by (rewrite length_wr; lia).
      eexists. reflexivity.
  - replace ((7 <=? rd messageIn 2) && (rd messageIn 2 <=? 245)) with true
      by (symmetry; apply andb_true_iff; split; apply Z.leb_le; lia).
    assert (Hturns : exists t, Z.to_nat (rd messageIn 2 / 7) = S t).
    { exists (Nat.pred (Z.to_nat (rd messageIn 2 / 7))).
      assert (1 <= rd messageIn 2 / 7) by (apply Z.div_le_lower_bound; lia). lia. }
    destruct Hturns as (t & ->). cbn [requestRead_loop].
    unfold REFERENCE_TYPE, RECORD_LENGTH_INDEX, RECORD_NO_INDEX_LOWER,
      RECORD_NO_INDEX_UPPER.
    rewrite Htype. cbn [Z.eqb Pos.eqb].
    destruct (Z.ltb_spec
                (Z.lor (rd messageIn (3 + 4)) (Z.shiftl (rd messageIn (3 + 3)) 8)
                 + rd messageIn (3 + 6)) 10000); [lia|].
    cbn [ILLEGAL_DATA_ADDRESS Z.eqb].
    refuse Hlen.
    + apply Hout1. rewrite length_wr. lia.
    + rewrite rd_wr_other by lia. rewrite rd_wr_same by lia.
      rewrite rd_wr_same by (rewrite length_wr; lia).
      eexists. reflexivity.
Qed.

Lemma read_request_is_refused_witness :
  (exists messageOut' : list Z,
    main_turn [] [1; 20; 7; 6; 0; 4; 39; 15; 0; 10] 10 (array 256) =
    Some
      (Some
         (with_crc [rd [1; 20; 7; 6; 0; 4; 39; 15; 0; 10] 0; 148; ILLEGAL_DATA_ADDRESS]),
       [], messageOut')) /\
 ValidateCRC
   (with_crc [rd [1; 20; 7; 6; 0; 4; 39; 15; 0; 10] 0; 148; ILLEGAL_DATA_ADDRESS]) 5 =
 true.
Proof.
  apply (read_request_is_refused [] [1; 20; 7; 6; 0; 4; 39; 15; 0; 10] 10 (array 256) ILLEGAL_DATA_ADDRESS);
    [evaluated | reflexivity | apply read_record_range; [evaluated | reflexivity | evaluated]].
Defined.

(** X21. A write request whose first sub-request has another reference type
    than 6, reaches record 10000 or beyond, or names a file outside 1..6 is
    answered with an exception (function code 0x95) carrying
    ILLEGAL_DATA_VALUE in the first case and ILLEGAL_DATA_ADDRESS in the
    others, with a good CRC; nothing is written to the files. *)
Theorem write_request_is_refused
    (fileStore messageIn : list Z) (messageSize : Z) (messageOut : list Z)
    (code : Z) :
  5 <= Z.of_nat (length messageOut) ->
  rd messageIn 1 = 0x15 ->
  write_refused messageIn code ->
  let reply := with_crc [rd messageIn 0; 0x95; code] in
  (exists messageOut',
     main_turn fileStore messageIn messageSize messageOut
       = Some (Some reply, fileStore, messageOut')) /\
  ValidateCRC reply 5 = true.
Proof.
  intros Hlen Hfc Href reply. split; [| apply (with_crc_valid [_; _; _])].
  unfold reply. change 0x95 with (Z.lor 0x15 0x80). rewrite <- Hfc.
  unfold main_turn, processIncomingMessage.
  destruct (Z.eqb_spec (rd messageIn 1) 0x14) as [E | _]; [lia|].
  destruct (Z.eqb_spec (rd messageIn 1) 0x15) as [_ | Hne]; [| contradiction].
  unfold requestWrite.
  assert (Hfuel : exists t, Z.to_nat (rd messageIn 2) = S t).
  { exists (Nat.pred (Z.to_nat (rd messageIn 2))). destruct Href; lia. }
  destruct Hfuel as (t & ->). cbn [requestWrite_loop].
  assert (Hloop : (0 <? rd messageIn 2) = true)
    by (apply Z.ltb_lt; destruct Href; lia).
  rewrite Hloop.
  assert (Hout1 : forall out, 2 <= Z.of_nat (length out) ->
                    is_byte (rd (wr out 1 (rd messageIn 1)) 1)).
  { intros out Ho. rewrite rd_wr_same by lia. rewrite Hfc. unfold is_byte. lia. }
  destruct Href as [Hcount Htype | Hcount Htype Hrange | Hcount Htype Hrange Hfile];
    unfold HEADER_LENGTH, REFERENCE_TYPE, RECORD_LENGTH_INDEX, subrequest_record,
      subrequest_file, RECORD_NO_INDEX_LOWER, RECORD_NO_INDEX_UPPER,
      FILE_NO_INDEX_LOWER, FILE_NO_INDEX_UPPER in *.
  - destruct (Z.eqb_spec (rd messageIn 3) 6); [contradiction|].
    cbn [ILLEGAL_DATA_VALUE Z.eqb].
    refuse Hlen.
    + apply Hout1. rewrite length_wr. lia.
    + rewrite rd_wr_other by lia. rewrite rd_wr_same by lia.
      rewrite rd_wr_same by (rewrite length_wr; lia).
      eexists. reflexivity.
  - rewrite Htype. cbn [Z.eqb Pos.eqb].
    destruct (Z.ltb_spec
                (Z.lor (rd messageIn (3 + 4)) (Z.shiftl (rd messageIn (3 + 3)) 8)
                 + rd messageIn (3 + 6)) 10000); [lia|].
    cbn [ILLEGAL_DATA_ADDRESS Z.eqb].
    refuse Hlen.
    + rewrite !rd_wr_other by lia. apply Hout1. rewrite length_wr. lia.
    + rd_wr. eexists. reflexivity.
  - rewrite Htype. cbn [Z.eqb Pos.eqb].
    destruct (Z.ltb_spec
                (Z.lor (rd messageIn (3 + 4)) (Z.shiftl (rd messageIn (3 + 3)) 8)
                 + rd messageIn (3 + 6)) 10000); [| lia].
    unfold fileWrite.
    replace ((0 <? Z.lor (rd messageIn (3 + 2)) (Z.shiftl (rd messageIn (3 + 1)) 8))
             && (Z.lor (rd messageIn (3 + 2)) (Z.shiftl (rd messageIn (3 + 1)) 8)
                 <=? 6)) with false
      by (symmetry; apply andb_false_iff;
          destruct Hfile; [left; apply Z.ltb_ge | right; apply Z.leb_gt]; lia).
    cbn [ILLEGAL_DATA_ADDRESS NO_ERROR Z.eqb negb].
    refuse Hlen.
    + rewrite !rd_wr_other by lia. apply Hout1. rewrite length_wr. lia.
    + rd_wr. eexists. reflexivity.
Qed.

Lemma write_request_is_refused_witness :
  (exists messageOut' : list Z,
    main_turn [] [1; 21; 9; 6; 0; 4; 39; 15; 0; 1; 170; 187] 12 (array 256) =
    Some
      (Some
         (with_crc
            [rd [1; 21; 9; 6; 0; 4; 39; 15; 0; 1; 170; 187] 0; 149; ILLEGAL_DATA_ADDRESS]),
       [], messageOut')) /\
 ValidateCRC
   (with_crc
      [rd [1; 21; 9; 6; 0; 4; 39; 15; 0; 1; 170; 187] 0; 149; ILLEGAL_DATA_ADDRESS])
   5 =
 true.
Proof.
  apply (write_request_is_refused [] [1; 21; 9; 6; 0; 4; 39; 15; 0; 1; 170; 187] 12 (array 256) ILLEGAL_DATA_ADDRESS);
    [evaluated | reflexivity | apply write_record_range; [reflexivity | reflexivity | evaluated]].
Defined.

(** ** The slave simulator: served requests *)

Lemma bytes_at_ext (a b : list Z) (fa fb n : Z) :
  0 <= fa -> 0 <= fb ->
  (forall k, 0 <= k < n -> rd a (fa + k) = rd b (fb + k)) ->
  bytes_at a fa n = bytes_at b fb n.
Proof.
  intros Ha Hb H. apply (nth_ext _ _ 0 0).
  - rewrite !length_bytes_at. reflexivity.
  - intros k Hk. rewrite length_bytes_at in Hk.
    rewrite !nth_bytes_at by exact Hk.
    specialize (H (Z.of_nat k) ltac:(lia)). unfold rd in H.
    replace (Z.to_nat (fa + Z.of_nat k)) with (Z.to_nat fa + k)%nat in H by lia.
    replace (Z.to_nat (fb + Z.of_nat k)) with (Z.to_nat fb + k)%nat in H by lia.
    exact H.
Qed.

Lemma GetCRC_bytes_at (m : list Z) (n : Z) :
  0 <= n -> GetCRC (bytes_at m 0 n) (Z.of_nat (length (bytes_at m 0 n))) = GetCRC m n.
Proof.
  intros Hn. rewrite length_bytes_at, Z2Nat.id by exact Hn.
  rewrite !GetCRC_fold by exact Hn. f_equal.
  apply bytes_at_ext; try lia. intros k Hk. unfold rd at 1.
  rewrite nth_bytes_at by lia. reflexivity.
Qed.

(** What [AddCRC] makes of a message: the message with its CRC behind. *)
Lemma AddCRC_reply (m : list Z) (n maxInputLength : Z) :
  0 <= n -> n + 2 <= Z.of_nat (length m) -> n + 2 <= maxInputLength ->
  AddCRC m n maxInputLength = (true, snd (AddCRC m n maxInputLength)) /\
  length (snd (AddCRC m n maxInputLength)) = length m /\
  (forall k, 0 <= k < n -> rd (snd (AddCRC m n maxInputLength)) k = rd m k) /\
  bytes_at (snd (AddCRC m n maxInputLength)) 0 (n + 2) = with_crc (bytes_at m 0 n).
Proof.
  intros Hn Hlen Hmax.
  destruct (AddCRC_appends m n maxInputLength Hn Hlen Hmax)
    as (Hok & Hl & Hlo & Hhi & Hother & Hdata & _).
  split; [destruct (AddCRC m n maxInputLength); cbn [fst snd] in *; congruence|].
  split; [exact Hl|].
  split; [intros k Hk; apply Hother; lia|].
  rewrite bytes_at_app by lia. unfold with_crc. rewrite Hdata. f_equal.
  rewrite GetCRC_bytes_at by exact Hn.
  change 2 with (Z.of_nat 2). rewrite !bytes_at_S by lia.
  cbn [bytes_at Z.to_nat Z.of_nat seq map]. rewrite Hlo, Hhi. reflexivity.
Qed.

Lemma requestWrite_loop_done (fuel : nat) (fileStore messageIn : list Z)
    (inPtr outPtr dataRead ret : Z) (messageOut : list Z) :
  rd messageIn 2 <= dataRead ->
  requestWrite_loop fuel fileStore messageIn inPtr outPtr dataRead ret messageOut
    = Some (ret, fileStore, wr messageOut 2 (uint8_t dataRead)).
Proof.
  intros H. destruct fuel; cbn [requestWrite_loop];
    (destruct (Z.ltb_spec dataRead (rd messageIn 2)); [lia | reflexivity]).
Qed.

(** The first ten bytes of an array, one by one. *)
Lemma bytes_at_ten (m : list Z) :
  bytes_at m 0 10
    = [rd m 0; rd m 1; rd m 2; rd m 3; rd m 4; rd m 5; rd m 6; rd m 7; rd m 8;
       rd m 9].
Proof. reflexivity. Qed.

Lemma bytes_at_five (m : list Z) :
  bytes_at m 0 5 = [rd m 0; rd m 1; rd m 2; rd m 3; rd m 4].
Proof. reflexivity. Qed.

Lemma main_turn_read
    (fileStore messageIn : list Z) (messageSize : Z) (messageOut : list Z)
    (n : Z) :
  Z.of_nat (length fileStore) = 120000 ->
  Z.of_nat (length messageOut) = 256 ->
  rd messageIn 1 = 0x14 ->
  0x07 <= rd messageIn 2 < 14 ->
  rd messageIn HEADER_LENGTH = REFERENCE_TYPE ->
  rd messageIn (HEADER_LENGTH + RECORD_LENGTH_INDEX) = n ->
  0 <= n <= 124 ->
  let fileNo := subrequest_file messageIn HEADER_LENGTH in
  let recordNo := subrequest_record messageIn HEADER_LENGTH in
  1 <= fileNo <= 5 ->
  0 <= recordNo -> recordNo + n < 10000 ->
  exists messageOut',
    main_turn fileStore messageIn messageSize messageOut
      = Some (Some (with_crc
                      ([rd messageIn 0; 0x14; 2 * n + 2; 2 * n; 6]
                       ++ bytes_at fileStore (fileStore_at fileNo (2 * recordNo))
                                   (2 * n))),
              fileStore, messageOut') /\
    length messageOut' = length messageOut.
Proof.
  intros Hfs Hout Hfc Hcount Htype Hn Hrange fileNo recordNo Hfile Hrec0 Hrec.
  unfold main_turn, processIncomingMessage.
  destruct (Z.eqb_spec (rd messageIn 1) 0x14) as [_ | Hne]; [| contradiction].
  unfold requestRead.
  replace ((7 <=? rd messageIn 2) && (rd messageIn 2 <=? 245)) with true
    by (symmetry; apply andb_true_iff; split; apply Z.leb_le; lia).
  assert (Hturns : Z.to_nat (rd messageIn 2 / 7) = 1%nat).
  { assert (rd messageIn 2 / 7 = 1); [| lia].
    symmetry. apply Z.div_unique with (r := rd messageIn 2 - 7); lia. }
  rewrite Hturns. cbn [requestRead_loop].
  fold (subrequest_file messageIn HEADER_LENGTH).
  fold (subrequest_record messageIn HEADER_LENGTH).
  fold fileNo. fold recordNo.
  rewrite Htype, Hn, Z.eqb_refl.
  destruct (Z.ltb_spec (recordNo + n) 10000); [| lia].
  unfold fileRead.
  replace ((0 <? fileNo) && (fileNo <=? 6)) with true
    by (symmetry; apply andb_true_iff; split;
        [apply Z.ltb_lt | apply Z.leb_le]; lia).
  unfold NO_ERROR, HEADER_LENGTH. cbn [Z.eqb].
  set (out0 := wr (wr (wr (wr messageOut 0 (rd messageIn 0)) 1 (rd messageIn 1))
                      3 (uint8_t (n * 2))) (3 + 1) 6).
  assert (Hl0 : length out0 = length messageOut)
    by (unfold out0; rewrite !length_wr; reflexivity).
  set (out1 := memcpy out0 (3 + 2) fileStore (fileStore_at fileNo (recordNo * 2))
                      (n * 2)).
  assert (Hl1 : length out1 = length out0)
    by (unfold out1; apply length_memcpy; lia).
  set (out2 := wr out1 2 (uint8_t (0 + (n * 2 + 2)))).
  assert (Hl2 : length out2 = length messageOut)
    by (unfold out2; rewrite length_wr; congruence).
  assert (H2 : rd out2 2 = 2 * n + 2).
  { unfold out2. rewrite rd_wr_same by lia. rewrite uint8_small by lia. lia. }
  rewrite H2.
  assert (Hfile0 : 0 <= fileStore_at fileNo (recordNo * 2))
    by (unfold fileStore_at; lia).
  assert (Hhead : forall k, 0 <= k < 5 -> k <> 2 -> rd out2 k = rd out0 k).
  { intros k Hk Hk2. unfold out2. rewrite rd_wr_other by lia.
    unfold out1. apply rd_memcpy_before; lia. }
  assert (Hbody : bytes_at out2 0 (2 * n + 2 + 3)
                  = [rd messageIn 0; 0x14; 2 * n + 2; 2 * n; 6]
                    ++ bytes_at fileStore (fileStore_at fileNo (2 * recordNo))
                                (2 * n)).
  { replace (2 * n + 2 + 3) with (5 + 2 * n) by lia.
    rewrite bytes_at_app by lia. rewrite bytes_at_five. f_equal.
    - rewrite H2, !Hhead by lia. unfold out0. rd_wr.
      rewrite Hfc, uint8_small by lia. rewrite (Z.mul_comm n 2). reflexivity.
    - apply bytes_at_ext; try (unfold fileStore_at; lia).
      intros k Hk. unfold out2. rewrite rd_wr_other by lia.
      unfold out1. replace (n * 2) with (2 * n) by lia.
      replace (recordNo * 2) with (2 * recordNo) by lia.
      apply rd_memcpy_inside; try lia. unfold fileStore_at. lia. }
  destruct (AddCRC_reply out2 (2 * n + 2 + 3) 256) as (Hadd & Hl3 & Hkeep & Hreply);
    try lia.
  rewrite Hadd. rewrite Hkeep, H2 by lia.
  replace (2 * n + 2 + 5) with (2 * n + 2 + 3 + 2) by lia.
  rewrite Hreply, Hbody.
  eexists. split; [reflexivity | rewrite Hl3; exact Hl2].
Qed.

Lemma main_turn_write
    (fileStore messageIn : list Z) (messageSize : Z) (messageOut : list Z)
    (n : Z) :
  Z.of_nat (length fileStore) = 120000 ->
  Z.of_nat (length messageOut) = 256 ->
  rd messageIn 1 = 0x15 ->
  rd messageIn 2 = 7 + 2 * n ->
  rd messageIn HEADER_LENGTH = REFERENCE_TYPE ->
  rd messageIn (HEADER_LENGTH + RECORD_LENGTH_INDEX) = n ->
  0 <= n <= 122 ->
  let fileNo := subrequest_file messageIn HEADER_LENGTH in
  let recordNo := subrequest_record messageIn HEADER_LENGTH in
  1 <= fileNo <= 5 ->
  0 <= recordNo -> recordNo + n < 10000 ->
  exists messageOut',
    main_turn fileStore messageIn messageSize messageOut
      = Some (Some (with_crc
                      ([rd messageIn 0; 0x15; 7 + 2 * n; 6;
                        rd messageIn 4; rd messageIn 5; rd messageIn 6;
                        rd messageIn 7; 0; n]
                       ++ bytes_at messageIn 10 (2 * n))),
              memcpy fileStore (fileStore_at fileNo (2 * recordNo)) messageIn 10
                     (2 * n),
              messageOut') /\
    length messageOut' = length messageOut.
Proof.
  intros Hfs Hout Hfc Hcount Htype Hn Hrange fileNo recordNo Hfile Hrec0 Hrec.
  unfold main_turn, processIncomingMessage.
  destruct (Z.eqb_spec (rd messageIn 1) 0x14) as [E | _]; [lia|].
  destruct (Z.eqb_spec (rd messageIn 1) 0x15) as [_ | Hne]; [| contradiction].
  unfold requestWrite.
  assert (Hfuel : exists t, Z.to_nat (rd messageIn 2) = S t).
  { exists (Nat.pred (Z.to_nat (rd messageIn 2))). lia. }
  destruct Hfuel as (t & ->). cbn [requestWrite_loop].
  destruct (Z.ltb_spec 0 (rd messageIn 2)); [| lia].
  fold (subrequest_file messageIn HEADER_LENGTH).
  fold (subrequest_record messageIn HEADER_LENGTH).
  fold fileNo. fold recordNo.
  rewrite Htype, Hn, Z.eqb_refl.
  destruct (Z.ltb_spec (recordNo + n) 10000); [| lia].
  unfold fileWrite.
  replace ((0 <? fileNo) && (fileNo <=? 6)) with true
    by (symmetry; apply andb_true_iff; split;
        [apply Z.ltb_lt | apply Z.leb_le]; lia).
  unfold NO_ERROR, HEADER_LENGTH, REFERENCE_TYPE, FILE_NO_INDEX_UPPER,
    FILE_NO_INDEX_LOWER, RECORD_NO_INDEX_UPPER, RECORD_NO_INDEX_LOWER,
    RECORD_LENGTH_INDEX in *.
  cbn [Z.eqb negb].
  rewrite requestWrite_loop_done by lia.
  cbn [Z.eqb].
  match goal with
  | |- context [memcpy ?o (3 + 7) messageIn (3 + 7) (n * 2)] => set (out0 := o)
  end.
  assert (Hl0 : length out0 = length messageOut)
    by (unfold out0; rewrite !length_wr; reflexivity).
  set (out1 := memcpy out0 (3 + 7) messageIn (3 + 7) (n * 2)).
  assert (Hl1 : length out1 = length out0)
    by (unfold out1; apply length_memcpy; lia).
  set (out2 := wr out1 2 (uint8_t (0 + (n * 2 + 7)))).
  assert (Hl2 : length out2 = length messageOut)
    by (unfold out2; rewrite length_wr; congruence).
  assert (H2 : rd out2 2 = 7 + 2 * n).
  { unfold out2. rewrite rd_wr_same by lia. rewrite uint8_small by lia. lia. }
  rewrite H2.
  assert (Hhead : forall k, 0 <= k < 10 -> k <> 2 -> rd out2 k = rd out0 k).
  { intros k Hk Hk2. unfold out2. rewrite rd_wr_other by lia.
    unfold out1. apply rd_memcpy_before; lia. }
  assert (Hbody : bytes_at out2 0 (7 + 2 * n + 3)
                  = [rd messageIn 0; 0x15; 7 + 2 * n; 6;
                     rd messageIn 4; rd messageIn 5; rd messageIn 6;
                     rd messageIn 7; 0; n]
                    ++ bytes_at messageIn 10 (2 * n)).
  { replace (7 + 2 * n + 3) with (10 + 2 * n) by lia.
    rewrite bytes_at_app by lia. rewrite bytes_at_ten. f_equal.
    - rewrite H2, !Hhead by lia. unfold out0. rd_wr.
      rewrite Hfc. reflexivity.
    - apply bytes_at_ext; try lia.
      intros k Hk. unfold out2. rewrite rd_wr_other by lia.
      unfold out1. replace (n * 2) with (2 * n) by lia.
      change (3 + 7) with 10.
      apply rd_memcpy_inside; lia. }
  destruct (AddCRC_reply out2 (7 + 2 * n + 3) 256) as (Hadd & Hl3 & Hkeep & Hreply);
    try lia.
  rewrite Hadd. rewrite Hkeep, H2 by lia.
  replace (7 + 2 * n + 5) with (7 + 2 * n + 3 + 2) by lia.
  rewrite Hreply, Hbody.
  replace (recordNo * 2) with (2 * recordNo) by lia.
  replace (n * 2) with (2 * n) by lia.
  eexists. split; [reflexivity | rewrite Hl3; exact Hl2].
Qed.

(** X22. A read request of one sub-request, for [n] records from record
    [recordNo] of a file 1..5, all below record 10000, is answered with the
    [2 n] bytes stored there: address, function code 0x14, the count
    [2 n + 2], the sub-response header [2 n; 6], the bytes and a CRC; the
    files are left as they are. *)
Theorem read_request_returns_stored_records
    (fileStore messageIn : list Z) (messageSize : Z) (messageOut : list Z)
    (fileNo recordNo n : Z) :
  Z.of_nat (length fileStore) = 120000 ->
  Z.of_nat (length messageOut) = 256 ->
  rd messageIn 1 = 0x14 ->
  0x07 <= rd messageIn 2 < 14 ->
  single_subrequest messageIn fileNo recordNo n ->
  n <= 124 ->
  let reply :=
    with_crc ([rd messageIn 0; 0x14; 2 * n + 2; 2 * n; 6]
              ++ bytes_at fileStore (fileStore_at fileNo (2 * recordNo)) (2 * n)) in
  (exists messageOut',
     main_turn fileStore messageIn messageSize messageOut
       = Some (Some reply, fileStore, messageOut')) /\
  ValidateCRC reply (2 * n + 7) = true.
Proof.
  intros Hfs Hout Hfc Hcount (Htype & Hf & Hr & Hn & Hfile & Hr0 & Hn0 & Hrange)
    Hmax reply.
  split.
  - subst fileNo recordNo.
    destruct (main_turn_read fileStore messageIn messageSize messageOut n)
      as (out' & E & _); try assumption; try lia.
    exists out'. exact E.
  - unfold reply.
    match goal with
    | |- ValidateCRC (with_crc ?body) _ = true =>
        replace (2 * n + 7) with (Z.of_nat (length body) + 2);
        [apply with_crc_valid|]
    end.
    rewrite length_app, length_bytes_at. cbn [length]. lia.
Qed.

Lemma read_request_returns_stored_records_witness :
  (exists messageOut' : list Z,
    main_turn (array 120000) [1; 20; 7; 6; 0; 4; 0; 1; 0; 2] 10 (array 256) =
    Some
      (Some
         (with_crc
            ([rd [1; 20; 7; 6; 0; 4; 0; 1; 0; 2] 0; 20; 2 * 2 + 2; 2 * 2; 6] ++
             bytes_at (array 120000) (fileStore_at 4 (2 * 1)) (2 * 2))),
       array 120000, messageOut')) /\
 ValidateCRC
   (with_crc
      ([rd [1; 20; 7; 6; 0; 4; 0; 1; 0; 2] 0; 20; 2 * 2 + 2; 2 * 2; 6] ++
       bytes_at (array 120000) (fileStore_at 4 (2 * 1)) (2 * 2)))
   (2 * 2 + 7) =
 true.
Proof.
  apply (read_request_returns_stored_records (array 120000) [1; 20; 7; 6; 0; 4; 0; 1; 0; 2] 10 (array 256) 4 1 2);
    [store_length | evaluated | evaluated | evaluated | subrequest_ok | evaluated].
Defined.

(** X23. A write request of one sub-request, for [n] records from record
    [recordNo] of a file 1..5, all below record 10000, puts the [2 n] data
    bytes of the request into the file at byte [2 recordNo], changes no
    other byte of the files, and is answered with an echo of the request and
    a CRC. *)
Theorem write_request_stores_and_echoes
    (fileStore messageIn : list Z) (messageSize : Z) (messageOut : list Z)
    (fileNo recordNo n : Z) :
  Z.of_nat (length fileStore) = 120000 ->
  Z.of_nat (length messageOut) = 256 ->
  rd messageIn 1 = 0x15 ->
  rd messageIn 2 = 7 + 2 * n ->
  single_subrequest messageIn fileNo recordNo n ->
  n <= 122 ->
  exists fileStore' messageOut',
    main_turn fileStore messageIn messageSize messageOut
      = Some (Some (with_crc
                      ([rd messageIn 0; 0x15; 7 + 2 * n; 6;
                        rd messageIn 4; rd messageIn 5; rd messageIn 6;
                        rd messageIn 7; 0; n]
                       ++ bytes_at messageIn 10 (2 * n))),
              fileStore', messageOut') /\
    length fileStore' = length fileStore /\
    bytes_at fileStore' (fileStore_at fileNo (2 * recordNo)) (2 * n)
      = bytes_at messageIn 10 (2 * n) /\
    (forall k, 0 <= k ->
       k < fileStore_at fileNo (2 * recordNo)
       \/ fileStore_at fileNo (2 * recordNo) + 2 * n <= k ->
       rd fileStore' k = rd fileStore k).
Proof.
  intros Hfs Hout Hfc Hcount (Htype & Hf & Hr & Hn & Hfile & Hr0 & Hn0 & Hrange)
    Hmax.
  subst fileNo recordNo.
  destruct (main_turn_write fileStore messageIn messageSize messageOut n)
    as (out' & E & _); try assumption; try lia.
  set (fileNo := subrequest_file messageIn HEADER_LENGTH) in *.
  set (recordNo := subrequest_record messageIn HEADER_LENGTH) in *.
  assert (Hat : 0 <= fileStore_at fileNo (2 * recordNo)
                /\ fileStore_at fileNo (2 * recordNo) + 2 * n <= 120000)
    by (unfold fileStore_at; lia).
  eexists. exists out'. split; [exact E|].
  split; [apply length_memcpy; lia|].
  split.
  - apply bytes_at_ext; try lia. intros k Hk. apply rd_memcpy_inside; lia.
  - intros k Hk [Hlow | Hhigh].
    + apply rd_memcpy_before; lia.
    + apply rd_memcpy_after; lia.
Qed.

Lemma write_request_stores_and_echoes_witness :
  exists fileStore' messageOut' : list Z,
   main_turn (array 120000) [1; 21; 11; 6; 0; 4; 0; 1; 0; 2; 18; 52; 86; 120] 14
     (array 256) =
   Some
     (Some
        (with_crc
           ([rd [1; 21; 11; 6; 0; 4; 0; 1; 0; 2; 18; 52; 86; 120] 0; 21; 
             7 + 2 * 2; 6; rd [1; 21; 11; 6; 0; 4; 0; 1; 0; 2; 18; 52; 86; 120] 4;
             rd [1; 21; 11; 6; 0; 4; 0; 1; 0; 2; 18; 52; 86; 120] 5;
             rd [1; 21; 11; 6; 0; 4; 0; 1; 0; 2; 18; 52; 86; 120] 6;
             rd [1; 21; 11; 6; 0; 4; 0; 1; 0; 2; 18; 52; 86; 120] 7; 0; 2] ++
            bytes_at [1; 21; 11; 6; 0; 4; 0; 1; 0; 2; 18; 52; 86; 120] 10 (2 * 2))),
      fileStore', messageOut') /\
   length fileStore' = length (array 120000) /\
   bytes_at fileStore' (fileStore_at 4 (2 * 1)) (2 * 2) =
   bytes_at [1; 21; 11; 6; 0; 4; 0; 1; 0; 2; 18; 52; 86; 120] 10 (2 * 2) /\
   (forall k : Z,
    0 <= k ->
    k < fileStore_at 4 (2 * 1) \/ fileStore_at 4 (2 * 1) + 2 * 2 <= k ->
    rd fileStore' k = rd (array 120000) k).
Proof.
  apply (write_request_stores_and_echoes (array 120000) [1; 21; 11; 6; 0; 4; 0; 1; 0; 2; 18; 52; 86; 120] 14 (array 256) 4 1 2);
    [store_length | evaluated | evaluated | evaluated | subrequest_ok | evaluated].
Defined.

(** X24. Records written by a write request are what a read request for the
    same file, record number and count is answered with afterwards. *)
Theorem written_records_are_read_back
    (fileStore writeMessage readMessage : list Z) (writeSize readSize : Z)
    (messageOut : list Z) (fileNo recordNo n : Z) :
  Z.of_nat (length fileStore) = 120000 ->
  Z.of_nat (length messageOut) = 256 ->
  rd writeMessage 1 = 0x15 ->
  rd writeMessage 2 = 7 + 2 * n ->
  single_subrequest writeMessage fileNo recordNo n ->
  rd readMessage 1 = 0x14 ->
  0x07 <= rd readMessage 2 < 14 ->
  single_subrequest readMessage fileNo recordNo n ->
  n <= 122 ->
  exists writeReply fileStore' messageOut' messageOut'',
    main_turn fileStore writeMessage writeSize messageOut
      = Some (Some writeReply, fileStore', messageOut') /\
    main_turn fileStore' readMessage readSize messageOut'
      = Some (Some (with_crc
                      ([rd readMessage 0; 0x14; 2 * n + 2; 2 * n; 6]
                       ++ bytes_at writeMessage 10 (2 * n))),
              fileStore', messageOut'').
Proof.
  intros Hfs Hout Hwfc Hwcount Hw Hrfc Hrcount Hr Hmax.
  destruct Hw as (Hwtype & Hwf & Hwr & Hwn & Hfile & Hr0 & Hn0 & Hrange).
  destruct Hr as (Hrtype & Hrf & Hrr & Hrn & _).
  destruct (main_turn_write fileStore writeMessage writeSize messageOut n)
    as (out' & Ew & Hl'); try assumption; try lia.
  rewrite Hwf, Hwr in Ew.
  set (fileStore' := memcpy fileStore (fileStore_at fileNo (2 * recordNo))
                            writeMessage 10 (2 * n)) in *.
  assert (Hat : 0 <= fileStore_at fileNo (2 * recordNo)
                /\ fileStore_at fileNo (2 * recordNo) + 2 * n <= 120000)
    by (unfold fileStore_at; lia).
  assert (Hfs' : Z.of_nat (length fileStore') = 120000).
  { unfold fileStore'. rewrite length_memcpy; lia. }
  destruct (main_turn_read fileStore' readMessage readSize out' n)
    as (out'' & Er & _); try assumption; try lia.
  rewrite Hrf, Hrr in Er.
  replace (bytes_at fileStore' (fileStore_at fileNo (2 * recordNo)) (2 * n))
    with (bytes_at writeMessage 10 (2 * n)) in Er.
  - eexists. exists fileStore', out', out''. split; [exact Ew | exact Er].
  - symmetry. apply bytes_at_ext; try lia.
    intros k Hk. unfold fileStore'. apply rd_memcpy_inside; lia.
Qed.

Lemma written_records_are_read_back_witness :
  exists writeReply fileStore' messageOut' messageOut'' : list Z,
   main_turn (array 120000) [1; 21; 11; 6; 0; 4; 0; 1; 0; 2; 18; 52; 86; 120] 14
     (array 256) =
   Some (Some writeReply, fileStore', messageOut') /\
   main_turn fileStore' [1; 20; 7; 6; 0; 4; 0; 1; 0; 2] 10 messageOut' =
   Some
     (Some
        (with_crc
           ([rd [1; 20; 7; 6; 0; 4; 0; 1; 0; 2] 0; 20; 2 * 2 + 2; 2 * 2; 6] ++
            bytes_at [1; 21; 11; 6; 0; 4; 0; 1; 0; 2; 18; 52; 86; 120] 10 (2 * 2))),
      fileStore', messageOut'').
Proof.
  apply (written_records_are_read_back (array 120000) [1; 21; 11; 6; 0; 4; 0; 1; 0; 2; 18; 52; 86; 120] [1; 20; 7; 6; 0; 4; 0; 1; 0; 2] 14 10 (array 256) 4 1 2);
    [store_length | evaluated | evaluated | evaluated | subrequest_ok | evaluated | evaluated | subrequest_ok | evaluated].
Defined.

(** ** Master and simulator together *)

Ltac fcodes :=
  cbn [request_fcode] in *;
  unfold READ_COILS, READ_DISCRETE_INPUTS, READ_MULTIPLE_HOLDING_REGISTERS,
    READ_INPUT_REGISTERS, WRITE_SINGLE_COIL, WRITE_SINGLE_HOLDING_REGISTER,
    WRITE_MULTIPLE_COILS, WRITE_MULTIPLE_HOLDING_REGISTERS, READ_FILE, WRITE_FILE,
    FCODE_ERROR_OFFSET, FCODE_RANGE, MODBUS_EXCEPTION_BIT in *.

Lemma exception_frame_complete (hndl : modbus_t) (a fCode code : Z) :
  type hndl = rtuOverTcp ->
  FCODE_ERROR_OFFSET < fCode <= FCODE_ERROR_OFFSET + FCODE_RANGE ->
  complete_frame hndl (with_crc [a; fCode; code]).
Proof.
  intros Ht Hf. unfold complete_frame. rewrite Ht.
  cbn [framing_of minLength fCodeOffset pduLengthOffset transportHeaderLength
       transportFooterLength checkTransaction checkCRC].
  assert (Hl : GetFcodeLength fCode code = 3).
  { unfold GetFcodeLength.
    destruct (Z.ltb_spec FCODE_ERROR_OFFSET fCode); [| lia].
    destruct (Z.leb_spec fCode (FCODE_ERROR_OFFSET + FCODE_RANGE)); [| lia].
    reflexivity. }
  change (rd (with_crc [a; fCode; code]) 1) with fCode.
  change (rd (with_crc [a; fCode; code]) (1 + 1)) with code.
  rewrite Hl.
  split; [unfold with_crc, CRC_FOOTER_LENGTH, PDU_HEADER_LENGTH, MAX_PDU_LENGTH;
          cbn [length app]; lia|].
  split; [reflexivity|]. split; [discriminate|].
  intros _. apply (with_crc_valid [a; fCode; code]).
Qed.

(** X25. Each coil or register primitive of the master, called with arguments
    within their bounds on an Idle RTU-over-TCP handle with an empty
    accumulation buffer and a transport that takes the frame, fails with
    ILLEGAL_FUNCTION in [readArray[0]] when what the slave simulator sends
    back for a request of that function code is delivered in one piece
    during the first nap: the simulator serves the two file requests only,
    and its exception reply is a frame the master accepts. *)
Theorem simulator_refuses_coil_and_register_requests
    (DEVICE_DISCONNECTED : Z) (send : list Z -> Z)
    (deliveries : nat -> list epoll_event) (fuel : nat) (w : world)
    (r : request) (readArray : list Z) (timeout : Z)
    (fileStore messageIn : list Z) (messageSize : Z) (messageOut : list Z)
    (reply fileStore' messageOut' : list Z) :
  state (handle w) = Idle ->
  type (handle w) = rtuOverTcp ->
  bufferedMessageLength (handle w) = 0 ->
  in_bounds r ->
  1 <= Z.of_nat (length readArray) ->
  file_request r = false ->
  accepting send ->
  (1 <= fuel)%nat ->
  5 <= Z.of_nat (length messageOut) ->
  rd messageIn 1 = request_fcode r ->
  main_turn fileStore messageIn messageSize messageOut
    = Some (Some reply, fileStore', messageOut') ->
  answered_with deliveries w reply ->
  exists w',
    invoke DEVICE_DISCONNECTED send deliveries fuel w r readArray timeout
      = Some (false, wr readArray 0 ILLEGAL_FUNCTION, w') /\
    state (handle w') = Idle /\
    fileStore' = fileStore.
Proof.
  intros Hs Ht Hz _ _ Hkind Ha Hfuel Hlen Hfc Hturn Hans.
  destruct (main_turn_unsupported fileStore messageIn messageSize messageOut Hlen)
    as (out'' & E).
  { rewrite Hfc. unfold is_byte. destruct r; fcodes; lia. }
  { rewrite Hfc. destruct r; try discriminate Hkind; fcodes; lia. }
  { rewrite Hfc. destruct r; try discriminate Hkind; fcodes; lia. }
  rewrite E in Hturn. injection Hturn as Hreply Hstore _.
  subst reply fileStore'. rewrite Hfc in Hans.
  set (frame := with_crc [rd messageIn 0; Z.lor (request_fcode r) 0x80;
                          ILLEGAL_FUNCTION]) in *.
  assert (Hframe : complete_frame (awaiting w) frame).
  { apply exception_frame_complete; [exact Ht|].
    destruct r; try discriminate Hkind; fcodes; cbn [Z.lor Pos.lor]; lia. }
  assert (Hbit : Z.land (Z.lor (request_fcode r) 0x80) MODBUS_EXCEPTION_BIT <> 0)
    by (destruct r; fcodes; cbn; lia).
  pose proof (complete_frame_pdu_length _ _ Hframe) as H3.
  cbn [awaiting type set_transactionId] in H3. rewrite Ht in H3.
  cbn [framing_of fCodeOffset pduLengthOffset] in H3.
  assert (Hr1 : rd frame (0 + 1) = Z.lor (request_fcode r) 0x80) by reflexivity.
  assert (Hr2 : rd frame (0 + 2) = ILLEGAL_FUNCTION) by reflexivity.
  destruct r; try discriminate Hkind; open_request Hs;
    run_exchange send deliveries fuel timeout frame Ha Hz Hans Hframe Hfuel;
    rewrite Ht in Hpl, Hpdu;
    cbn [framing_of fCodeOffset pduLengthOffset transportHeaderLength]
      in Hpl, Hpdu;
    unfold exception_bit; rewrite !Hpdu by lia;
    rewrite Hr1, Hr2;
    match goal with
    | |- context [negb (?x =? 0)] =>
        destruct (Z.eqb_spec x 0); [contradiction |]
    end; cbn [negb];
    (eexists; split; [reflexivity | split; [assumption | reflexivity]]).
Qed.

Lemma simulator_refuses_coil_and_register_requests_witness :
  exists w' : world,
   invoke 24 send_whole
     (answer (sent_reply (main_turn [] [1; 1; 0; 100; 0; 4] 6 (array 256)))) 5
     (sample_world rtuOverTcp 0 0) (ReadCoils_request 1 100 4) [0] 1000 =
   Some (false, wr [0] 0 ILLEGAL_FUNCTION, w') /\
   state (handle w') = Idle /\
   files_after (main_turn [] [1; 1; 0; 100; 0; 4] 6 (array 256)) = [].
Proof.
  apply (simulator_refuses_coil_and_register_requests 24 send_whole (answer (sent_reply (main_turn [] [1; 1; 0; 100; 0; 4] 6 (array 256)))) 5%nat (sample_world rtuOverTcp 0 0) (ReadCoils_request 1 100 4) [0] 1000 [] [1; 1; 0; 100; 0; 4] 6 (array 256) (sent_reply (main_turn [] [1; 1; 0; 100; 0; 4] 6 (array 256))) (files_after (main_turn [] [1; 1; 0; 100; 0; 4] 6 (array 256))) (messageOut_after (main_turn [] [1; 1; 0; 100; 0; 4] 6 (array 256))));
    [evaluated | evaluated | evaluated | evaluated | evaluated | evaluated | intro frame; reflexivity | evaluated | evaluated | evaluated | evaluated | evaluated].
Defined.

Lemma rd_bytes_at (m : list Z) (from n k : Z) :
  0 <= from -> 0 <= k < n -> rd (bytes_at m from n) k = rd m (from + k).
Proof.
  intros Hf Hk. unfold rd. rewrite nth_bytes_at by lia. f_equal. lia.
Qed.

Lemma rd_app_r (a b : list Z) (k : Z) :
  0 <= k -> rd (a ++ b) (Z.of_nat (length a) + k) = rd b k.
Proof.
  intros Hk. unfold rd. rewrite app_nth2 by lia. f_equal. lia.
Qed.

Lemma rd_with_crc (body : list Z) (k : Z) :
  0 <= k < Z.of_nat (length body) -> rd (with_crc body) k = rd body k.
Proof. intros Hk. unfold with_crc. apply rd_app_l. exact Hk. Qed.

(** X26. A file read closed over the master, the transport and the simulator:
    [ReadFile] on an Idle RTU-over-TCP handle with an empty accumulation
    buffer and a transport that takes the frame, with a sub-request made by
    [ReadFileSubRequestBuilder] for [n <= 123] records of a file 1..5 and a
    [readArray] of at least [2 n + 2] bytes, sends a frame; when what the
    simulator sends back for that frame is delivered in one piece during
    the first nap, [ReadFile] accepts it, and the caller gets the
    sub-response header [2 n; 6] followed by the [2 n] bytes the simulator
    holds for the records asked for. *)
Theorem ReadFile_against_simulator
    (DEVICE_DISCONNECTED : Z) (send : list Z -> Z)
    (deliveries : nat -> list epoll_event) (fuel : nat) (w : world)
    (slaveID : Z) (messageArray0 : list Z) (fileNumber recordNumber n : Z)
    (readArray : list Z) (timeout : Z)
    (fileStore messageIn : list Z) (messageSize : Z) (messageOut : list Z)
    (reply fileStore' messageOut' : list Z) :
  state (handle w) = Idle ->
  type (handle w) = rtuOverTcp ->
  bufferedMessageLength (handle w) = 0 ->
  accepting send ->
  (1 <= fuel)%nat ->
  0 <= slaveID < 256 ->
  7 <= Z.of_nat (length messageArray0) ->
  1 <= fileNumber <= 5 -> 0 <= recordNumber -> 0 <= n <= 123 ->
  recordNumber + n < 10000 ->
  Z.of_nat (length fileStore) = 120000 ->
  Z.of_nat (length messageOut) = 256 ->
  2 * n + 2 <= Z.of_nat (length readArray) ->
  let messageLength :=
    fst (ReadFileSubRequestBuilder messageArray0 0 fileNumber recordNumber n) in
  let messageArray :=
    snd (ReadFileSubRequestBuilder messageArray0 0 fileNumber recordNumber n) in
  let request :=
    with_crc ([slaveID; READ_FILE; 7] ++ bytes_at messageArray 0 7) in
  bytes_at messageIn 0 12 = request ->
  main_turn fileStore messageIn messageSize messageOut
    = Some (Some reply, fileStore', messageOut') ->
  answered_with deliveries w reply ->
  exists readArray' w',
    ReadFile DEVICE_DISCONNECTED send deliveries fuel w slaveID messageArray
      messageLength readArray timeout = Some (true, readArray', w') /\
    wire w' = wire w ++ [request] /\
    rd readArray' 0 = 2 * n /\ rd readArray' 1 = 6 /\
    (forall k, 0 <= k < 2 * n ->
       rd readArray' (2 + k)
       = rd fileStore (fileStore_at fileNumber (2 * recordNumber) + k)).
Proof.
  intros Hs Ht Hz Ha Hfuel Hslave Hlen0 Hfile Hrec0 Hn Hrange Hfs Hout Hra
    messageLength messageArray request Hin Hturn Hans.
  (* the sub-request *)
  assert (HmL : messageLength = 7).
  { unfold messageLength, ReadFileSubRequestBuilder. cbn [fst]. reflexivity. }
  destruct (subrequest_header messageArray0 0 fileNumber recordNumber n)
    as (Hl & Hb0 & Hbf & Hbr & Hb5 & Hb6 & _); try lia.
  change (wr _ (0 + 6) (uint8_t n)) with messageArray in Hl, Hb0, Hbf, Hbr, Hb5, Hb6.
  cbn [Z.add] in Hbf, Hbr, Hb5, Hb6.
  (* what the simulator has received *)
  assert (Hrin : forall k, 0 <= k < 10 ->
            rd messageIn k = rd ([slaveID; READ_FILE; 7] ++ bytes_at messageArray 0 7) k).
  { intros k Hk.
    rewrite <- (rd_with_crc ([slaveID; READ_FILE; 7] ++ bytes_at messageArray 0 7) k)
      by (rewrite length_app, length_bytes_at; cbn [length]; lia).
    fold request. rewrite <- Hin. rewrite rd_bytes_at by lia. reflexivity. }
  assert (Hin0 : rd messageIn 0 = slaveID) by (rewrite Hrin by lia; reflexivity).
  assert (Hin1 : rd messageIn 1 = 0x14) by (rewrite Hrin by lia; reflexivity).
  assert (Hin2 : rd messageIn 2 = 7) by (rewrite Hrin by lia; reflexivity).
  assert (Hsub : forall k, 0 <= k < 7 -> rd messageIn (3 + k) = rd messageArray k).
  { intros k Hk. rewrite Hrin by lia.
    change 3 with (Z.of_nat (length [slaveID; READ_FILE; 7])).
    rewrite rd_app_r by lia. rewrite rd_bytes_at by lia. reflexivity. }
  assert (Hsingle : single_subrequest messageIn fileNumber recordNumber n).
  { unfold single_subrequest, subrequest_file, subrequest_record, HEADER_LENGTH,
      REFERENCE_TYPE, FILE_NO_INDEX_LOWER, FILE_NO_INDEX_UPPER,
      RECORD_NO_INDEX_LOWER, RECORD_NO_INDEX_UPPER, RECORD_LENGTH_INDEX.
    rewrite !Hsub by lia. change (3 + 0) with 3 in Hsub.
    rewrite <- (Z.add_0_r 3) at 1. rewrite Hsub by lia.
    repeat split; try assumption; try lia. }
  (* the simulator's answer *)
  destruct Hsingle as (Htype & Hf & Hr & Hcount & _).
  destruct (main_turn_read fileStore messageIn messageSize messageOut n)
    as (out'' & E & _); try assumption; try lia.
  rewrite Hf, Hr, Hin0 in E.
  rewrite E in Hturn. injection Hturn as Hreply _ _. subst reply.
  set (data := bytes_at fileStore (fileStore_at fileNumber (2 * recordNumber))
                        (2 * n)) in *.
  set (body := [slaveID; 20; 2 * n + 2; 2 * n; 6] ++ data) in *.
  assert (Hbl : Z.of_nat (length body) = 2 * n + 5).
  { unfold body, data. rewrite length_app, length_bytes_at. cbn [length]. lia. }
  assert (Hat : 0 <= fileStore_at fileNumber (2 * recordNumber))
    by (unfold fileStore_at; lia).
  assert (Hrb : forall k, 0 <= k < 2 * n ->
            rd (with_crc body) (5 + k) = rd fileStore
              (fileStore_at fileNumber (2 * recordNumber) + k)).
  { intros k Hk. rewrite rd_with_crc by lia. unfold body.
    change 5 with (Z.of_nat (length [slaveID; 20; 2 * n + 2; 2 * n; 6])).
    rewrite rd_app_r by lia. unfold data. apply rd_bytes_at; lia. }
  assert (Hr1 : rd (with_crc body) 1 = READ_FILE) by reflexivity.
  assert (Hr2 : rd (with_crc body) 2 = 2 * n + 2) by reflexivity.
  assert (Hr3 : rd (with_crc body) 3 = 2 * n) by reflexivity.
  assert (Hr4 : rd (with_crc body) 4 = 6) by reflexivity.
  assert (Hpml : GetFcodeLength (rd (with_crc body) 1) (rd (with_crc body) (1 + 1))
                 = 2 * n + 5).
  { change (1 + 1) with 2. rewrite Hr1, Hr2.
    rewrite GetFcodeLength_counted by (auto 10; unfold is_byte; lia).
    unfold PDU_HEADER_LENGTH. lia. }
  assert (Hframe : complete_frame (awaiting w) (with_crc body)).
  { unfold complete_frame. cbn [awaiting type set_transactionId]. rewrite Ht.
    cbn [framing_of minLength fCodeOffset pduLengthOffset transportHeaderLength
         transportFooterLength checkTransaction checkCRC].
    rewrite Hpml.
    assert (Hwl : Z.of_nat (length (with_crc body)) = 2 * n + 7)
      by (unfold with_crc; rewrite length_app; cbn [length]; lia).
    unfold CRC_FOOTER_LENGTH, PDU_HEADER_LENGTH, MAX_PDU_LENGTH.
    split; [lia|]. split; [lia|]. split; [discriminate|].
    intros _. replace (2 * n + 5 + 2) with (Z.of_nat (length body) + 2) by lia.
    apply with_crc_valid. }
  (* the request of the master *)
  unfold ReadFile. rewrite (not_idle_false _ Hs). rewrite HmL.
  destruct (Z.ltb_spec 7 MAX_PDU_LENGTH) as [_ | Hbad];
    [| unfold MAX_PDU_LENGTH in Hbad; lia].
  cbn [negb].
  match goal with
  | |- context [ModBusWrite send ?w0 ?p ?len] =>
      set (packet := p);
      pose proof (ModBusWrite_rtuOverTcp_wire send w0 packet len Ht
                    ltac:(apply uint16_nonneg)
                    ltac:(unfold CRC_FOOTER_LENGTH, MAX_PDU_LENGTH; cbn; lia))
        as Hsent
  end.
  run_exchange send deliveries fuel timeout (with_crc body) Ha Hz Hans Hframe Hfuel.
  rewrite E1 in Hsent. cbn [snd wire set_handle] in Hsent.
  rewrite Ht in Hpl, Hpdu.
  cbn [framing_of fCodeOffset pduLengthOffset transportHeaderLength] in Hpl, Hpdu.
  rewrite Hpml in Hpl, Hpdu.
  unfold exception_bit. rewrite !Hpdu by lia.
  change (0 + 1) with 1. rewrite Hr1. cbn [READ_FILE MODBUS_EXCEPTION_BIT Z.land Pos.land Z.eqb negb].
  rewrite Z.eqb_refl. cbn [negb].
  unfold PduDataLength, PDU_HEADER_LENGTH. rewrite Hpl.
  replace (2 * n + 5 - 3) with (2 * n + 2) by lia.
  rewrite uint16_small by lia.
  eexists. eexists. split; [reflexivity|].
  assert (Hcopy : forall k, 0 <= k < 2 * n + 2 ->
            rd (memcpy readArray 0 (pdu (handle w2)) 3 (2 * n + 2)) k
            = rd (with_crc body) (3 + k)).
  { intros k Hk.
    replace k with (0 + k) at 1 by lia.
    rewrite rd_memcpy_inside by lia.
    rewrite Hpdu by lia. f_equal. }
  split.
  - rewrite Hwire, Hsent. f_equal. f_equal.
    unfold request, with_crc.
    assert (Hp10 : bytes_at packet 0 (uint16_t (3 + 7))
                   = [slaveID; READ_FILE; 7] ++ bytes_at messageArray 0 7).
    { change (uint16_t (3 + 7)) with (3 + 7).
      rewrite bytes_at_app by lia.
      assert (Hhead : bytes_at packet 0 3 = [slaveID; READ_FILE; 7]).
      { change 3 with (Z.of_nat 3). rewrite !bytes_at_S by lia.
        cbn [bytes_at Z.to_nat Z.of_nat seq map Z.add Pos.add Pos.succ].
        unfold packet.
        rewrite !rd_memcpy_before
          by (rewrite ?length_wr, ?length_array; cbn; lia).
        rd_wr. rewrite uint8_small by lia. reflexivity. }
      assert (Htail : bytes_at packet 3 7 = bytes_at messageArray 0 7).
      { apply bytes_at_ext; try lia. intros k Hk. unfold packet.
        apply rd_memcpy_inside; try lia.
        rewrite !length_wr, length_array. cbn. lia. }
      rewrite Hhead, Htail. reflexivity. }
    rewrite Hp10.
    assert (Hcrc : GetCRC packet (uint16_t (3 + 7))
                   = GetCRC ([slaveID; READ_FILE; 7] ++ bytes_at messageArray 0 7)
                       (Z.of_nat (length ([slaveID; READ_FILE; 7]
                                          ++ bytes_at messageArray 0 7)))).
    { rewrite <- Hp10. rewrite GetCRC_bytes_at by apply uint16_nonneg. reflexivity. }
    rewrite Hcrc. reflexivity.
  - split; [rewrite Hcopy by lia; exact Hr3|].
    split; [rewrite Hcopy by lia; exact Hr4|].
    intros k Hk. rewrite Hcopy by lia.
    replace (3 + (2 + k)) with (5 + k) by lia. apply Hrb. exact Hk.
Qed.

Lemma ReadFile_against_simulator_witness :
  exists (readArray' : list Z) (w' : world),
   ReadFile 24 send_whole
     (answer
        (sent_reply
           (main_turn (array 120000) (with_crc [1; 20; 7; 6; 0; 4; 0; 1; 0; 2]) 12
              (array 256))))
     5 (sample_world rtuOverTcp 0 0) 1
     (snd (ReadFileSubRequestBuilder (array 7) 0 4 1 2))
     (fst (ReadFileSubRequestBuilder (array 7) 0 4 1 2)) (array 8) 1000 =
   Some (true, readArray', w') /\
   wire w' =
   wire (sample_world rtuOverTcp 0 0) ++
   [with_crc
      ([1; READ_FILE; 7] ++
       bytes_at (snd (ReadFileSubRequestBuilder (array 7) 0 4 1 2)) 0 7)] /\
   rd readArray' 0 = 2 * 2 /\
   rd readArray' 1 = 6 /\
   (forall k : Z,
    0 <= k < 2 * 2 ->
    rd readArray' (2 + k) = rd (array 120000) (fileStore_at 4 (2 * 1) + k)).
Proof.
  apply (ReadFile_against_simulator 24 send_whole (answer (sent_reply (main_turn (array 120000) (with_crc [1; 20; 7; 6; 0; 4; 0; 1; 0; 2]) 12 (array 256)))) 5%nat (sample_world rtuOverTcp 0 0) 1 (array 7) 4 1 2 (array 8) 1000 (array 120000) (with_crc [1; 20; 7; 6; 0; 4; 0; 1; 0; 2]) 12 (array 256) (sent_reply (main_turn (array 120000) (with_crc [1; 20; 7; 6; 0; 4; 0; 1; 0; 2]) 12 (array 256))) (files_after (main_turn (array 120000) (with_crc [1; 20; 7; 6; 0; 4; 0; 1; 0; 2]) 12 (array 256))) (messageOut_after (main_turn (array 120000) (with_crc [1; 20; 7; 6; 0; 4; 0; 1; 0; 2]) 12 (array 256))));
    [evaluated | evaluated | evaluated | intro frame; reflexivity | evaluated | evaluated | evaluated | evaluated | evaluated | evaluated | evaluated | store_length | evaluated | evaluated | evaluated | turn_served | evaluated].
Defined.

(** ** The two cores *)

(** X27. The length tables of the two cores agree on a frame exactly when its
    function code is no file request and no more than 0xA0: for READ_FILE
    and WRITE_FILE the M4 gives 0 where the A7 gives the counted length, and
    for every code above 0xA0 the M4 gives the exception length 3 where the
    A7 gives 0. *)
Theorem M4_and_A7_length_tables (fCode dataLength : Z) :
  is_byte fCode -> is_byte dataLength ->
  (M4.GetFcodeLength fCode dataLength = GetFcodeLength fCode dataLength
   <-> fCode <> READ_FILE /\ fCode <> WRITE_FILE
       /\ fCode <= FCODE_ERROR_OFFSET + FCODE_RANGE) /\
  (fCode = READ_FILE \/ fCode = WRITE_FILE ->
   M4.GetFcodeLength fCode dataLength = 0 /\
   GetFcodeLength fCode dataLength = PDU_HEADER_LENGTH + dataLength) /\
  (FCODE_ERROR_OFFSET + FCODE_RANGE < fCode ->
   M4.GetFcodeLength fCode dataLength = ERROR_CODE_LENGTH /\
   GetFcodeLength fCode dataLength = 0).
Proof.
  unfold is_byte. intros Hf Hd.
  assert (Hu : uint16_t (PDU_HEADER_LENGTH + dataLength)
               = PDU_HEADER_LENGTH + dataLength)
    by (apply uint16_small; unfold PDU_HEADER_LENGTH; lia).
  assert (Hs : size_t (PDU_HEADER_LENGTH + dataLength)
               = PDU_HEADER_LENGTH + dataLength)
    by (unfold size_t, SIZE_MAX, PDU_HEADER_LENGTH; apply Z.mod_small; lia).
  unfold M4.GetFcodeLength, GetFcodeLength. rewrite !Hu, !Hs.
  unfold FCODE_ERROR_OFFSET, FCODE_RANGE, ERROR_CODE_LENGTH, PDU_HEADER_LENGTH,
    READ_COILS, READ_DISCRETE_INPUTS, READ_MULTIPLE_HOLDING_REGISTERS,
    READ_INPUT_REGISTERS, WRITE_SINGLE_COIL, WRITE_SINGLE_HOLDING_REGISTER,
    READ_EXCEPTION_STATUS, WRITE_MULTIPLE_COILS, WRITE_MULTIPLE_HOLDING_REGISTERS,
    READ_FILE, WRITE_FILE.
  change (128 + 32 =? 0) with false. cbn [negb]. rewrite andb_true_r.
  destruct (Z.ltb_spec 128 fCode) as [Hhigh | Hlow].
  - cbn [andb]. destruct (Z.leb_spec fCode (128 + 32)) as [Hin | Hout].
    + repeat split; try lia; intros; lia.
    + repeat match goal with
             | |- context [fCode =? ?c] =>
                 destruct (Z.eqb_spec fCode c); [lia |]
             end.
      repeat split; try lia; intros; lia.
  - cbn [andb].
    repeat match goal with
           | |- context [fCode =? ?c] =>
               destruct (Z.eqb_spec fCode c);
               [subst fCode; cbn [Z.eqb Pos.eqb]; repeat split; intros; try lia |]
           end;
      repeat split; intros; try lia.
Qed.

Lemma M4_and_A7_length_tables_witness :
  (M4.GetFcodeLength 20 4 = GetFcodeLength 20 4 <->
  20 <> READ_FILE /\ 20 <> WRITE_FILE /\ 20 <= FCODE_ERROR_OFFSET + FCODE_RANGE) /\
 (20 = READ_FILE \/ 20 = WRITE_FILE ->
  M4.GetFcodeLength 20 4 = 0 /\ GetFcodeLength 20 4 = PDU_HEADER_LENGTH + 4) /\
 (FCODE_ERROR_OFFSET + FCODE_RANGE < 20 ->
  M4.GetFcodeLength 20 4 = ERROR_CODE_LENGTH /\ GetFcodeLength 20 4 = 0).
Proof.
  apply (M4_and_A7_length_tables 20 4);
    [evaluated | evaluated].
Defined.

(** X28. A Modbus request written by the A7 on an intercore handle comes out of
    the M4 towards the slave as the packet followed by its CRC16: the
    header the A7 puts in front is what the M4 reads the packet by. *)
Theorem intercore_request_leaves_M4_with_crc
    (send : list Z -> Z) (w : world) (modBusPacket : list Z) (packetLength : Z)
    (frame : list Z) (req : M4.messageHandle) :
  type (handle w) = rtu ->
  isCFG (handle w) = false ->
  0 <= packetLength <= MAX_PDU_LENGTH ->
  wire (snd (ModBusWrite send w modBusPacket packetLength)) = wire w ++ [frame] ->
  carries req frame ->
  M4.GetMessageProtocol req = MODBUS /\
  M4.HandleModbusRequest req
    = Some (with_crc (bytes_at modBusPacket 0 packetLength)) /\
  ValidateCRC (with_crc (bytes_at modBusPacket 0 packetLength))
              (packetLength + CRC_FOOTER_LENGTH) = true.
Proof.
  intros Ht Hcfg Hp Hwire (Hlen & Hdata).
  destruct (ModBusWrite_rtu_sent send w modBusPacket packetLength Ht Hp)
    as (frame0 & Hw0 & Hl0 & Hproto & Hcmd & Hhdr & Hpdu).
  rewrite Hwire in Hw0. apply app_inv_head in Hw0. injection Hw0 as <-.
  rewrite Hcfg in Hproto, Hcmd.
  unfold MAX_PDU_LENGTH, MESSAGE_HEADER_LENGTH, PROTOCOL_OFFSET, COMMAND_OFFSET,
    HEADER_LENGTH_OFFSET, M4.PREFIX_LENGTH, CRC_FOOTER_LENGTH in *.
  assert (Hrd : forall k, 0 <= k < 4 + packetLength ->
                  rd (M4.data req) (20 + k) = rd frame k).
  { intros k Hk.
    assert (E : rd (bytes_at (M4.data req) 20 (Z.of_nat (length frame))) k
                = rd frame k) by (rewrite Hdata; reflexivity).
    rewrite rd_bytes_at in E by lia. exact E. }
  assert (Hvalid : ValidateCRC (with_crc (bytes_at modBusPacket 0 packetLength))
                     (packetLength + 2) = true).
  { replace (packetLength + 2)
      with (Z.of_nat (length (bytes_at modBusPacket 0 packetLength)) + 2)
      by (rewrite length_bytes_at; lia).
    apply with_crc_valid. }
  split; [| split; [| exact Hvalid]].
  - unfold M4.GetMessageProtocol, M4.PREFIX_LENGTH, PROTOCOL_OFFSET.
    rewrite Hrd by lia. exact Hproto.
  - unfold M4.HandleModbusRequest, M4.GetMessageCommand, M4.GetMessageLength,
      M4.GetMessageDataPtr, M4.PREFIX_LENGTH, COMMAND_OFFSET, HEADER_LENGTH_OFFSET,
      MAX_PDU_LENGTH, CRC_FOOTER_LENGTH.
    rewrite !Hrd by lia. rewrite Hcmd, Hhdr, Hlen, Hl0.
    unfold MODBUS_DATA_MESSAGE. cbn [Z.eqb Pos.eqb].
    replace (20 + (4 + packetLength) - 20 - 4) with packetLength by lia.
    assert (Hsz : size_t packetLength = packetLength)
      by (unfold size_t, SIZE_MAX; apply Z.mod_small; lia).
    rewrite Hsz. change (uint8_t 4) with 4.
    destruct (Z.ltb_spec 254 packetLength); [lia|].
    set (data := memcpy (array (254 + 2)) 0 (M4.data req) (20 + 4) packetLength).
    assert (Hdl : length data = Z.to_nat 256).
    { unfold data. rewrite length_memcpy; rewrite length_array; lia. }
    destruct (AddCRC_reply data packetLength (254 + 2))
      as (Hadd & _ & _ & Hreply); try lia.
    rewrite Hadd, Hreply. do 2 f_equal.
    apply bytes_at_ext; try lia. intros k Hk. unfold data.
    rewrite rd_memcpy_inside by (rewrite ?length_array; lia).
    replace (20 + 4 + k) with (20 + (4 + k)) by lia.
    rewrite Hrd by lia.
    assert (E : rd (bytes_at frame 4 packetLength) k
                = rd (bytes_at modBusPacket 0 packetLength) k) by (rewrite Hpdu; reflexivity).
    rewrite !rd_bytes_at in E by lia. exact E.
Qed.

Lemma intercore_request_leaves_M4_with_crc_witness :
  M4.GetMessageProtocol
   {| M4.message_length := 30; M4.data := array 20 ++ [2; 1; 4; 0; 1; 3; 0; 0; 0; 10] |} =
 MODBUS /\
 M4.HandleModbusRequest
   {| M4.message_length := 30; M4.data := array 20 ++ [2; 1; 4; 0; 1; 3; 0; 0; 0; 10] |} =
 Some (with_crc (bytes_at [1; 3; 0; 0; 0; 10] 0 6)) /\
 ValidateCRC (with_crc (bytes_at [1; 3; 0; 0; 0; 10] 0 6)) (6 + CRC_FOOTER_LENGTH) = true.
Proof.
  apply (intercore_request_leaves_M4_with_crc send_whole (sample_world rtu 0 0) [1; 3; 0; 0; 0; 10] 6 [2; 1; 4; 0; 1; 3; 0; 0; 0; 10] (M4.mk_messageHandle 30 (array 20 ++ [2; 1; 4; 0; 1; 3; 0; 0; 0; 10])));
    [evaluated | evaluated | evaluated | evaluated | evaluated].
Defined.

(** ** Serial configuration *)

Lemma MessageHandler_read_cfg (hndl : modbus_t) (reply : list Z) :
  type hndl = rtu ->
  isCFG hndl = true ->
  Z.of_nat (length reply)
    = MESSAGE_HEADER_LENGTH + UART_CFG_MESSAGE_RESP_LENGTH ->
  let h0 := buffered hndl reply in
  MessageHandler_read h0
    = (success,
       shifted
         (set_pdu
            (set_lastTransactionId
               (set_pduLength h0 UART_CFG_MESSAGE_RESP_LENGTH)
               (uint16_t (Z.lor (Z.shiftl (rd (bufferedMessage h0) 0) 8)
                                (rd (bufferedMessage h0) 1))))
            (memcpy (pdu hndl) 0 (bufferedMessage h0) MESSAGE_HEADER_LENGTH
                    UART_CFG_MESSAGE_RESP_LENGTH))
         (Z.of_nat (length reply)) 0).
Proof.
  intros Ht Hcfg Hlen h0.
  unfold MESSAGE_HEADER_LENGTH, UART_CFG_MESSAGE_RESP_LENGTH in *.
  unfold h0 at 1. read_buffered hndl reply. fold h0.
  rewrite Hcfg, Ht, Hlen.
  cbn [framing_of minLength fCodeOffset pduLengthOffset transportHeaderLength
       transportFooterLength checkTransaction checkCRC is_rtu].
  unfold MESSAGE_HEADER_LENGTH, UART_CFG_MESSAGE_RESP_LENGTH, PDU_HEADER_LENGTH,
    MAX_PDU_LENGTH.
  cbn [Z.add Z.leb Z.compare Pos.compare Pos.compare_cont orb andb negb Pos.add
       Pos.succ].
  cbn [bufferedMessageLength set_pdu set_lastTransactionId set_pduLength
       set_bufferedMessageLength set_bufferedMessage bufferedMessage pdu].
  replace (bufferedMessageLength h0) with 5
    by (unfold h0; cbn [buffered bufferedMessageLength set_bufferedMessageLength];
        lia).
  unfold shifted. cbn [Z.sub Z.add Z.opp Z.pos_sub Z.ltb Z.compare Pos.compare
                       Pos.compare_cont Z.succ_double Z.pred_double Z.double].
  reflexivity.
Qed.

(** X29. [WriteSerialConfig] does not look at the answer of the M4: once a
    five-byte reply has come in, the result is [true] exactly when the
    caller's own [receivedMessage[0]] is 0, and [receivedMessage] is left as
    it was; the status byte of the reply only reaches [hndl->pdu[0]].  The
    handle is left Idle with [isCFG] still set. *)
Theorem WriteSerialConfig_ignores_reply
    (send : list Z -> Z) (deliveries : nat -> list epoll_event) (fuel : nat)
    (w : world) (RTU : _RTU) (receivedMessage : list Z) (timeout : Z)
    (reply : list Z) :
  type (handle w) = rtu ->
  bufferedMessageLength (handle w) = 0 ->
  accepting send ->
  answered_with deliveries w reply ->
  Z.of_nat (length reply)
    = MESSAGE_HEADER_LENGTH + UART_CFG_MESSAGE_RESP_LENGTH ->
  (1 <= fuel)%nat ->
  exists w',
    WriteSerialConfig send deliveries fuel w RTU receivedMessage timeout
      = Some (rd receivedMessage 0 =? 0, receivedMessage, w') /\
    rd (pdu (handle w')) 0 = rd reply MESSAGE_HEADER_LENGTH /\
    pduLength (handle w') = UART_CFG_MESSAGE_RESP_LENGTH /\
    state (handle w') = Idle /\
    isCFG (handle w') = true.
Proof.
  intros Ht Hz Ha Hans Hlen Hfuel. unfold WriteSerialConfig.
  match goal with
  | |- context [ModBusWrite send ?w0 ?p ?n] =>
      destruct (ModBusWrite_accepted send w0 p n Ha ltac:(lia)) as (sent & E);
      rewrite E
  end.
  cbn [negb handle set_handle transactionIdentifier wire sleeps].
  set (h1 := set_state
               (set_transactionId
                  (set_pduLength
                     (set_state (set_isCFG (handle w) true) SendingRequest) 0)
                  (transactionIdentifier w)) WaitingForResponse).
  set (w1 := mk_world h1 (uint16_t (transactionIdentifier w + 1))
                      (wire w ++ [sent]) (sleeps w)).
  assert (Hl5 : Z.of_nat (length reply) = 5)
    by (unfold MESSAGE_HEADER_LENGTH, UART_CFG_MESSAGE_RESP_LENGTH in Hlen; lia).
  assert (Hev : EpollThread_event h1 (mk_epoll_event true false (Some reply))
                = set_state
                    (shifted
                       (set_pdu
                          (set_lastTransactionId
                             (set_pduLength (buffered h1 reply)
                                            UART_CFG_MESSAGE_RESP_LENGTH)
                             (uint16_t
                                (Z.lor (Z.shiftl
                                          (rd (bufferedMessage (buffered h1 reply)) 0) 8)
                                       (rd (bufferedMessage (buffered h1 reply)) 1))))
                          (memcpy (pdu h1) 0 (bufferedMessage (buffered h1 reply))
                                  MESSAGE_HEADER_LENGTH UART_CFG_MESSAGE_RESP_LENGTH))
                       (Z.of_nat (length reply)) 0)
                    DataReceived).
  { unfold EpollThread_event.
    cbn [state h1 set_state MODBUS_STATE_eqb EPOLLIN EPOLLHUP received ModBusRead].
    fold h1.
    rewrite firstn_all2 by (unfold MAX_PDU_LENGTH; lia).
    rewrite uint16_small by lia.
    rewrite MessageHandler_from_empty
      by (auto; unfold MAX_PDU_LENGTH; lia).
    rewrite (MessageHandler_read_cfg h1 reply Ht eq_refl Hlen). reflexivity. }
  assert (Hn : nanosleep deliveries w1
               = mk_world (EpollThread_event h1
                             (mk_epoll_event true false (Some reply)))
                          (transactionIdentifier w1) (wire w1) (S (sleeps w1))).
  { unfold nanosleep. cbn [sleeps w1]. rewrite Hans. reflexivity. }
  destruct fuel as [| fuel]; [lia|].
  unfold WaitForData. rewrite WaitForData_loop_one_nap;
    [| reflexivity | rewrite Hn, Hev; reflexivity].
  rewrite Hn, Hev. cbn [handle state set_state MODBUS_STATE_eqb].
  eexists. split.
  - destruct (rd receivedMessage 0 =? 0); reflexivity.
  - cbn [handle set_handle state set_state pduLength pdu isCFG shifted
         set_bufferedMessageLength set_bufferedMessage set_pdu
         set_lastTransactionId set_pduLength Z.ltb Z.compare].
    split; [| repeat split].
    unfold MESSAGE_HEADER_LENGTH, UART_CFG_MESSAGE_RESP_LENGTH.
    unfold rd at 1. rewrite nth_memcpy by (cbn; lia).
    cbn [Z.to_nat Nat.ltb Nat.leb Pos.to_nat Pos.iter_op Nat.add Nat.sub].
    cbn [buffered bufferedMessage set_bufferedMessageLength set_bufferedMessage].
    rewrite app_nth1 by lia. reflexivity.
Qed.

Lemma WriteSerialConfig_ignores_reply_witness :
  exists w' : world,
   WriteSerialConfig send_whole (answer [1; 1; 4; 0; 1]) 5 (sample_world rtu 0 0)
     {|
       baudRate := 9600;
       halfDuplexMode := 0;
       parityMode := 0;
       parityState := 0;
       stopBits := 1;
       wordLength := 8
     |} [0; 0; 0; 0] 1000 =
   Some (rd [0; 0; 0; 0] 0 =? 0, [0; 0; 0; 0], w') /\
   rd (pdu (handle w')) 0 = rd [1; 1; 4; 0; 1] MESSAGE_HEADER_LENGTH /\
   pduLength (handle w') = UART_CFG_MESSAGE_RESP_LENGTH /\
   state (handle w') = Idle /\ isCFG (handle w') = true.
Proof.
  apply (WriteSerialConfig_ignores_reply send_whole (answer [1; 1; 4; 0; 1]) 5%nat (sample_world rtu 0 0) (mk_RTU 9600 0 0 0 1 8) [0; 0; 0; 0] 1000 [1; 1; 4; 0; 1]);
    [evaluated | evaluated | intro frame; reflexivity | evaluated | evaluated | evaluated].
Defined.

(** ** Byte count of WriteMultipleCoils *)




